(** * Automated Report Generator: metrics engine and insight rules

    A shallow embedding of [data_processor.py] (class [DataProcessor]) and of
    the threshold rules of [insights_generator.py] (class [InsightsGenerator]).

    Numbers.  A finite Python / numpy float is read as the real number it
    denotes, so arithmetic is exact: there is no rounding, no overflow and no
    signed zero.  The three special floats are kept, because the code can
    produce them ([Series.std] of one observation, numpy division by zero,
    numpy power of a negative base).  Integers ([int], [int64]) are
    unbounded [Z].

    Effects.  The logger is a list of entries that grows to the right, and a
    raised exception ends the computation: a computation of type [Py A]
    yields the log it wrote together with either a value or the exception.

    Library calls (pandas, numpy) are modelled by what they return on a
    column of reals; they are gathered in [Module Pandas]. *)

From Stdlib Require Import Reals Lra Lia ZArith String List Bool.
From stdpp Require Import gmap strings.
Import ListNotations.

Local Open Scope string_scope.

(** ** Python floats *)

Module PyFloat.

Local Open Scope R_scope.

Inductive pyfloat : Type :=
  | Fin (x : R)
  | PInf
  | NInf
  | NaN.

Definition Rltb (x y : R) : bool := if Rlt_dec x y then true else false.
Definition Rleb (x y : R) : bool := if Rle_dec x y then true else false.
Definition Reqb (x y : R) : bool := if Req_dec_T x y then true else false.

(** [a < b]; every comparison with [NaN] is false. *)
Definition flt (a b : pyfloat) : bool :=
  match a, b with
  | NaN, _ | _, NaN => false
  | Fin x, Fin y => Rltb x y
  | Fin _, PInf => true
  | Fin _, NInf => false
  | PInf, _ => false
  | NInf, NInf => false
  | NInf, _ => true
  end.

(** [a <= b] *)
Definition fle (a b : pyfloat) : bool :=
  match a, b with
  | NaN, _ | _, NaN => false
  | Fin x, Fin y => Rleb x y
  | Fin _, PInf => true
  | Fin _, NInf => false
  | PInf, PInf => true
  | PInf, _ => false
  | NInf, _ => true
  end.

(** [a > b] and [a >= b] *)
Definition fgt (a b : pyfloat) : bool := flt b a.
Definition fge (a b : pyfloat) : bool := fle b a.

(** [abs(a)] *)
Definition fabs (a : pyfloat) : pyfloat :=
  match a with
  | Fin x => Fin (Rabs x)
  | PInf | NInf => PInf
  | NaN => NaN
  end.

Definition inf_of_sign (negative : bool) : pyfloat :=
  if negative then NInf else PInf.

Definition is_negative (a : pyfloat) : bool :=
  match a with
  | Fin x => Rltb x 0
  | NInf => true
  | PInf | NaN => false
  end.

(** [a - b] *)
Definition fsub (a b : pyfloat) : pyfloat :=
  match a, b with
  | NaN, _ | _, NaN => NaN
  | Fin x, Fin y => Fin (x - y)
  | Fin _, PInf => NInf
  | Fin _, NInf => PInf
  | PInf, PInf => NaN
  | PInf, _ => PInf
  | NInf, NInf => NaN
  | NInf, _ => NInf
  end.

(** [a * b] *)
Definition fmul (a b : pyfloat) : pyfloat :=
  match a, b with
  | NaN, _ | _, NaN => NaN
  | Fin x, Fin y => Fin (x * y)
  | Fin x, _ =>
      if Reqb x 0 then NaN else inf_of_sign (xorb (Rltb x 0) (is_negative b))
  | _, Fin y =>
      if Reqb y 0 then NaN else inf_of_sign (xorb (is_negative a) (Rltb y 0))
  | _, _ => inf_of_sign (xorb (is_negative a) (is_negative b))
  end.

(** [a / b] on numpy floats: a zero divisor gives an infinity or [nan]
    (with a RuntimeWarning), it does not raise. *)
Definition fdiv (a b : pyfloat) : pyfloat :=
  match a, b with
  | NaN, _ | _, NaN => NaN
  | Fin x, Fin y =>
      if Reqb y 0
      then (if Reqb x 0 then NaN else inf_of_sign (Rltb x 0))
      else Fin (x / y)
  | Fin _, _ => Fin 0
  | _, Fin y => inf_of_sign (xorb (is_negative a) (Rltb y 0))
  | _, _ => NaN
  end.

(** [x ** y] on numpy floats.  A negative base with an exponent that is not
    an integer gives [nan]; zero to a negative exponent gives [inf]. *)
Definition np_power (x y : R) : pyfloat :=
  if Rltb 0 x then Fin (Rpower x y)
  else if Reqb x 0 then
    (if Rltb 0 y then Fin 0 else if Reqb y 0 then Fin 1 else PInf)
  else if Reqb y (IZR (Int_part y)) then Fin (powerRZ x (Int_part y))
  else NaN.

(** [pd.isna] on a float *)
Definition isna (a : pyfloat) : bool :=
  match a with NaN => true | _ => false end.

End PyFloat.

Export PyFloat.

(** ** Exceptions and logging *)

Inductive exn : Type :=
  | ValueError (msg : string)
  | IndexError (msg : string)
  | KeyError (key : string)
  | TypeError (msg : string).

(** [str(e)] *)
Definition exn_str (e : exn) : string :=
  match e with
  | ValueError m | IndexError m | TypeError m => m
  | KeyError k => "'" ++ k ++ "'"
  end.

Inductive level : Type := INFO | WARNING | ERROR.

Definition log_entry : Type := level * string.

Inductive outcome (A : Type) : Type :=
  | Return (a : A)
  | Raise (e : exn).
Arguments Return {A} a.
Arguments Raise {A} e.

(** A computation: the entries it logged, and how it ended. *)
Definition Py (A : Type) : Type := list log_entry * outcome A.

Definition ret {A} (a : A) : Py A := ([], Return a).
Definition raise {A} (e : exn) : Py A := ([], Raise e).
Definition logger (lv : level) (msg : string) : Py unit := ([(lv, msg)], Return tt).

Definition bind {A B} (c : Py A) (k : A -> Py B) : Py B :=
  match c with
  | (l1, Return a) => let (l2, r) := k a in (app l1 l2, r)
  | (l1, Raise e) => (l1, Raise e)
  end.

Notation "'do' x <- c ; k" := (bind c (fun x => k))
  (at level 10, x name, c at level 100, k at level 200).
Notation "'run' c ; k" := (bind c (fun _ => k))
  (at level 10, c at level 100, k at level 200).

(** [try: body / except Exception as e: logger.error(f"{prefix}{e}"); raise] *)
Definition try_log_reraise {A} (prefix : string) (body : Py A) : Py A :=
  match body with
  | (l, Raise e) => (app l [(ERROR, prefix ++ exn_str e)], Raise e)
  | finished => finished
  end.

(** ** The cleaned dataset

    One row per week, in the order of the frame (ascending [Week_Start]
    after [clean_data]).  Timestamps are counted in days. *)

Record WeeklyRecord : Type := mkWeek {
  Week_Start : Z;
  Week_End : Z;
  Total_Sales : R;
  Total_Orders : Z;
  Top_Product : string;
  Top_Customer : string
}.

Definition DataFrame : Type := list WeeklyRecord.

(** The two numeric columns, as [_calculate_growth_rate] receives them. *)
Inductive numeric_column : Type := Total_Sales_column | Total_Orders_column.

Definition column (data : DataFrame) (c : numeric_column) : list R :=
  match c with
  | Total_Sales_column => map Total_Sales data
  | Total_Orders_column => map (fun r => IZR (Total_Orders r)) data
  end.

(** ** pandas and numpy *)

Module Pandas.

Local Open Scope R_scope.

Definition out_of_bounds : exn :=
  IndexError "single positional indexer is out-of-bounds".

(** [s.iloc[i]] for [i >= 0] *)
Definition iloc {A} (s : list A) (i : nat) : Py A :=
  match nth_error s i with
  | Some a => ret a
  | None => raise out_of_bounds
  end.

(** [s.iloc[-k]] for [k >= 1] *)
Definition iloc_neg {A} (s : list A) (k : nat) : Py A :=
  if (k <=? length s)%nat then iloc s (length s - k) else raise out_of_bounds.

(** [s.sum()] *)
Definition sum (s : list R) : R := fold_right Rplus 0 s.
Definition sumZ (s : list Z) : Z := fold_right Z.add 0%Z s.

(** [s.mean()]: [nan] on an empty column *)
Definition mean (s : list R) : pyfloat :=
  match s with
  | [] => NaN
  | _ => Fin (sum s / INR (length s))
  end.

(** [s.max()] and [s.min()]: [nan] on an empty column *)
Definition max (s : list R) : pyfloat :=
  match s with
  | [] => NaN
  | x :: t => Fin (fold_left Rmax t x)
  end.

Definition min (s : list R) : pyfloat :=
  match s with
  | [] => NaN
  | x :: t => Fin (fold_left Rmin t x)
  end.

(** [s.std()]: the sample standard deviation (ddof = 1), [nan] when the
    column has fewer than two observations. *)
Definition std (s : list R) : pyfloat :=
  if (length s <? 2)%nat then NaN
  else
    let m := sum s / INR (length s) in
    Fin (sqrt (sum (map (fun x => (x - m) * (x - m)) s) / (INR (length s) - 1))).

(** Ascending sort of a column. *)
Fixpoint insert_sorted (x : R) (s : list R) : list R :=
  match s with
  | [] => [x]
  | y :: t => if Rleb x y then x :: y :: t else y :: insert_sorted x t
  end.

Definition sort_values (s : list R) : list R := fold_right insert_sorted [] s.

(** [s.median()]: the middle value of the sorted column, the mean of the two
    middle values when the length is even, [nan] on an empty column. *)
Definition median (s : list R) : pyfloat :=
  let sorted := sort_values s in
  let n := length s in
  match n with
  | O => NaN
  | _ =>
      if Nat.even n
      then Fin ((nth (n / 2 - 1) sorted 0 + nth (n / 2) sorted 0) / 2)
      else Fin (nth (n / 2) sorted 0)
  end.

(** [s.rolling(window=3).mean()]: at each position the mean of the value
    and its two predecessors, [nan] at the first two positions. *)
Definition rolling3_mean (s : list R) : list pyfloat :=
  map (fun i =>
         if (i <? 2)%nat then NaN
         else Fin ((nth (i - 2) s 0 + nth (i - 1) s 0 + nth i s 0) / 3))
      (seq 0 (length s)).

(** [np.polyfit(range(len(y)), y, 1)[0]]: the slope of the least-squares
    line through the points [(i, y_i)], [i = 0 .. len(y) - 1]. *)
Definition polyfit_slope (y : list R) : R :=
  let n := INR (length y) in
  let xs := map INR (seq 0 (length y)) in
  let xbar := sum xs / n in
  let ybar := sum y / n in
  sum (map (fun p => (fst p - xbar) * (snd p - ybar)) (combine xs y))
  / sum (map (fun x => (x - xbar) * (x - xbar)) xs).

(** [s.value_counts()] on a column of labels: one entry per distinct label
    with its number of occurrences, sorted by descending count.  The labels
    are first collected in order of first appearance, and the sort is
    stable, so labels with equal counts stay in that order. *)
Fixpoint count_label (x : string) (s : list string) : nat :=
  match s with
  | [] => 0
  | y :: t => (if String.eqb x y then 1 else 0) + count_label x t
  end.

Fixpoint mem_label (x : string) (s : list string) : bool :=
  match s with
  | [] => false
  | y :: t => String.eqb x y || mem_label x t
  end.

(** Distinct labels, in order of first appearance. *)
Fixpoint unique_acc (seen s : list string) : list string :=
  match s with
  | [] => []
  | x :: t =>
      if mem_label x seen then unique_acc seen t
      else x :: unique_acc (x :: seen) t
  end.

Definition unique (s : list string) : list string := unique_acc [] s.

(** Stable insertion into a list sorted by descending count: the new entry
    goes before the first entry whose count is not larger than its own. *)
Fixpoint insert_by_count (e : string * nat) (l : list (string * nat))
  : list (string * nat) :=
  match l with
  | [] => [e]
  | f :: t =>
      if (snd f <=? snd e)%nat then e :: f :: t
      else f :: insert_by_count e t
  end.

Definition sort_by_count (l : list (string * nat)) : list (string * nat) :=
  fold_right insert_by_count [] l.

Definition value_counts (s : list string) : list (string * nat) :=
  sort_by_count (map (fun x => (x, count_label x s)) (unique s)).

(** Position of the first occurrence of a label in a column (the length of
    the column when it does not occur). *)
Fixpoint first_index (x : string) (s : list string) : nat :=
  match s with
  | [] => 0
  | y :: t => if String.eqb x y then 0 else S (first_index x t)
  end.

(** What the specification asks of the most frequent label [top] of a
    column [s]: it occurs, no label occurs more often, and among the labels
    that occur as often it is the one that appears first. *)
Definition most_frequent_first (s : list string) (top : string) : Prop :=
  In top s /\
  (forall k, count_label k s <= count_label top s)%nat /\
  (forall k, In k s -> count_label k s = count_label top s ->
             (first_index top s <= first_index k s)%nat).

End Pandas.

(** ** data_processor.py *)

(** A value stored in a dictionary whose keys depend on the path taken. *)
Inductive pyval : Type :=
  | VFloat (x : pyfloat)
  | VInt (n : Z)
  | VStr (s : string).

Module DataProcessor.

Import Pandas.
Local Open Scope R_scope.

(** The dictionaries built by [calculate_metrics].  The four renderings of
    the two dates ([strftime]) are kept as the dates themselves. *)
Record CurrentWeek : Type := {
  cw_sales : R;
  cw_orders : Z;
  cw_top_product : string;
  cw_top_customer : string;
  cw_week_start : Z;
  cw_week_end : Z
}.

Record PreviousWeek : Type := {
  pw_sales : R;
  pw_orders : Z
}.

Record Changes : Type := {
  sales_change : pyfloat;
  orders_change : pyfloat;
  sales_absolute_change : R;
  orders_absolute_change : Z
}.

Record Aov : Type := {
  aov_current : R;
  aov_previous : R;
  aov_change : pyfloat
}.

Record Historical : Type := {
  total_sales : R;
  total_orders : Z;
  average_weekly_sales : pyfloat;
  average_weekly_orders : pyfloat;
  max_weekly_sales : pyfloat;
  min_weekly_sales : pyfloat;
  sales_std_dev : pyfloat;
  weeks_count : nat;
  sales_growth_rate : pyfloat;
  orders_growth_rate : pyfloat
}.

Record Products : Type := {
  most_frequent_top_product : string;
  product_frequency : list (string * nat);
  unique_products_count : nat;
  current_top_product : string
}.

Record Customers : Type := {
  most_frequent_top_customer : string;
  customer_frequency : list (string * nat);
  unique_customers_count : nat;
  current_top_customer : string
}.

(** The snapshot.  The consumer tests the last four keys with [in] before
    it reads them, so they are optional here; [calculate_metrics] always
    sets them. *)
Record Metrics : Type := {
  current_week : CurrentWeek;
  previous_week : PreviousWeek;
  changes : Changes;
  aov : Aov;
  historical : option Historical;
  products : option Products;
  customers : option Customers;
  trends : option (gmap string pyval)
}.

Definition negative_values_msg : string :=
  "Data contains negative values for sales or orders".
Definition high_sales_msg : string :=
  "Data contains unusually high sales values".
Definition date_order_msg : string :=
  "Data contains weeks where end date is before start date".

(** The frame of [load_sample_data], which [clean_data] leaves as it is.
    Dates are day numbers within 2025. *)
Definition sample_data : DataFrame :=
  [ mkWeek  6 12 12500 45 "Laptop" "Alpha Corp";
    mkWeek 13 19 15800 52 "Smartphone" "Beta Ltd";
    mkWeek 20 26 14200 48 "Tablet" "Gamma LLC";
    mkWeek 27 33 16950 55 "Monitor" "Delta Inc";
    mkWeek 34 40 18100 60 "Printer" "Epsilon Co";
    mkWeek 41 47 17500 57 "Keyboard" "Zeta Enterprises";
    mkWeek 48 54 19000 62 "Mouse" "Eta Traders";
    mkWeek 55 61 20050 65 "Headphones" "Theta Solutions" ].

(** [_validate_data_integrity] *)
Definition _validate_data_integrity (data : DataFrame) : Py unit :=
  run (if existsb (fun r => Rltb (Total_Sales r) 0) data
          || existsb (fun r => (Total_Orders r <? 0)%Z) data
       then raise (ValueError negative_values_msg)
       else ret tt);
  let max_reasonable_sales := fmul (median (map Total_Sales data)) (Fin 10) in
  run (if existsb (fun r => fgt (Fin (Total_Sales r)) max_reasonable_sales) data
       then logger WARNING high_sales_msg
       else ret tt);
  let date_issues := List.filter (fun r => (Week_End r <=? Week_Start r)%Z) data in
  if negb (match date_issues with [] => true | _ => false end)
  then raise (ValueError date_order_msg)
  else ret tt.

(** The order of the checks as the specification lists them: negative
    values, then the dates, then the soft check on high sales.  It is
    compared with [_validate_data_integrity] below. *)
Definition validate_in_listed_order (data : DataFrame) : Py unit :=
  run (if existsb (fun r => Rltb (Total_Sales r) 0) data
          || existsb (fun r => (Total_Orders r <? 0)%Z) data
       then raise (ValueError negative_values_msg)
       else ret tt);
  run (if existsb (fun r => (Week_End r <=? Week_Start r)%Z) data
       then raise (ValueError date_order_msg)
       else ret tt);
  let max_reasonable_sales := fmul (median (map Total_Sales data)) (Fin 10) in
  if existsb (fun r => fgt (Fin (Total_Sales r)) max_reasonable_sales) data
  then logger WARNING high_sales_msg
  else ret tt.

(** Three weeks on which the two orders differ: the third has sales above
    ten times the median and ends on the day it starts. *)
Definition high_sales_and_inverted_week : DataFrame :=
  [ mkWeek  6 12 100 5 "Laptop" "Alpha Corp";
    mkWeek 13 19 100 5 "Tablet" "Beta Ltd";
    mkWeek 20 20 5000 5 "Monitor" "Gamma LLC" ].

(** Four weeks in which two products, and two customers, lead twice each;
    the label that appears first is not the first in alphabetical order. *)
Definition tied_labels_data : DataFrame :=
  [ mkWeek  6 12 12500 45 "Tablet" "Gamma LLC";
    mkWeek 13 19 15800 52 "Laptop" "Alpha Corp";
    mkWeek 20 26 14200 48 "Laptop" "Alpha Corp";
    mkWeek 27 33 16950 55 "Tablet" "Gamma LLC" ].

(** [_calculate_percentage_change] *)
Definition _calculate_percentage_change (current previous : R) : R :=
  if Reqb previous 0 then (if Rltb 0 current then 100 else 0)
  else ((current - previous) / previous) * 100.

(** [_calculate_growth_rate] *)
Definition _calculate_growth_rate (data : DataFrame) (c : numeric_column)
  : Py pyfloat :=
  if (length data <? 2)%nat then ret (Fin 0)
  else
    do first_value <- iloc (column data c) 0;
    do last_value <- iloc_neg (column data c) 1;
    let periods := (length data - 1)%nat in
    if Rleb first_value 0 then ret (Fin 0)
    else
      let growth_rate :=
        fmul (fsub (np_power (last_value / first_value) (1 / INR periods))
                   (Fin 1))
             (Fin 100) in
      ret growth_rate.

(** [_calculate_historical_metrics] *)
Definition _calculate_historical_metrics (data : DataFrame) : Py Historical :=
  let sales := map Total_Sales data in
  let orders := map Total_Orders data in
  do sales_growth <- _calculate_growth_rate data Total_Sales_column;
  do orders_growth <- _calculate_growth_rate data Total_Orders_column;
  ret {| total_sales := sum sales;
         total_orders := sumZ orders;
         average_weekly_sales := mean sales;
         average_weekly_orders := mean (map IZR orders);
         max_weekly_sales := max sales;
         min_weekly_sales := min sales;
         sales_std_dev := std sales;
         weeks_count := length data;
         sales_growth_rate := sales_growth;
         orders_growth_rate := orders_growth |}.

(** [str(counts.index[0]) if not counts.empty else 'None'] *)
Definition most_frequent (counts : list (string * nat)) : string :=
  match counts with
  | [] => "None"
  | (label, _) :: _ => label
  end.

(** [_analyze_products] *)
Definition _analyze_products (data : DataFrame) : Py Products :=
  let product_counts := value_counts (map Top_Product data) in
  do last_row <- iloc_neg data 1;
  ret {| most_frequent_top_product := most_frequent product_counts;
         product_frequency := product_counts;
         unique_products_count := length product_counts;
         current_top_product := Top_Product last_row |}.

(** [_analyze_customers] *)
Definition _analyze_customers (data : DataFrame) : Py Customers :=
  let customer_counts := value_counts (map Top_Customer data) in
  do last_row <- iloc_neg data 1;
  ret {| most_frequent_top_customer := most_frequent customer_counts;
         customer_frequency := customer_counts;
         unique_customers_count := length customer_counts;
         current_top_customer := Top_Customer last_row |}.

(** ['increasing' if t > 0 else 'decreasing' if t < 0 else 'stable'] *)
Definition trend_direction (t : R) : string :=
  if Rltb 0 t then "increasing"
  else if Rltb t 0 then "decreasing"
  else "stable".

(** [float(x) if not pd.isna(x) else 0] *)
Definition float_or_zero (x : pyfloat) : pyval :=
  if negb (isna x) then VFloat x else VInt 0.

(** [_calculate_trends] *)
Definition _calculate_trends (data : DataFrame) : Py (gmap string pyval) :=
  if (length data <? 3)%nat
  then ret {[ "status" := VStr "insufficient_data" ]}
  else
    let sales := column data Total_Sales_column in
    let orders := column data Total_Orders_column in
    let sales_ma3 := rolling3_mean sales in
    let orders_ma3 := rolling3_mean orders in
    let sales_trend := polyfit_slope sales in
    let orders_trend := polyfit_slope orders in
    let sales_cv := fdiv (std sales) (mean sales) in
    let orders_cv := fdiv (std orders) (mean orders) in
    do latest_sales_ma3 <- iloc_neg sales_ma3 1;
    do latest_orders_ma3 <- iloc_neg orders_ma3 1;
    ret (list_to_map
           [ ("sales_trend_slope", VFloat (Fin sales_trend));
             ("orders_trend_slope", VFloat (Fin orders_trend));
             ("sales_trend_direction", VStr (trend_direction sales_trend));
             ("orders_trend_direction", VStr (trend_direction orders_trend));
             ("sales_volatility", VFloat sales_cv);
             ("orders_volatility", VFloat orders_cv);
             ("latest_ma3_sales", float_or_zero latest_sales_ma3);
             ("latest_ma3_orders", float_or_zero latest_orders_ma3) ]).

(** [calculate_metrics]; [processed_data] is the attribute of that name,
    [None] until [clean_data] has run. *)
Definition calculate_metrics (processed_data : option DataFrame) : Py Metrics :=
  match processed_data with
  | None =>
      raise (ValueError "No processed data available. Call clean_data() first.")
  | Some data =>
      try_log_reraise "Error calculating metrics: "
        (do latest_week <- iloc_neg data 1;
         do previous_week <-
           (if (1 <? length data)%nat then iloc_neg data 2 else ret latest_week);
         let cw := {| cw_sales := Total_Sales latest_week;
                      cw_orders := Total_Orders latest_week;
                      cw_top_product := Top_Product latest_week;
                      cw_top_customer := Top_Customer latest_week;
                      cw_week_start := Week_Start latest_week;
                      cw_week_end := Week_End latest_week |} in
         let pw := {| pw_sales := Total_Sales previous_week;
                      pw_orders := Total_Orders previous_week |} in
         let current_sales := cw_sales cw in
         let previous_sales := pw_sales pw in
         let current_orders := cw_orders cw in
         let previous_orders := pw_orders pw in
         let ch :=
           {| sales_change :=
                Fin (_calculate_percentage_change current_sales previous_sales);
              orders_change :=
                Fin (_calculate_percentage_change (IZR current_orders)
                                                  (IZR previous_orders));
              sales_absolute_change := current_sales - previous_sales;
              orders_absolute_change := (current_orders - previous_orders)%Z |} in
         let current_aov :=
           if (0 <? current_orders)%Z
           then current_sales / IZR current_orders else 0 in
         let previous_aov :=
           if (0 <? previous_orders)%Z
           then previous_sales / IZR previous_orders else 0 in
         let av :=
           {| aov_current := current_aov;
              aov_previous := previous_aov;
              aov_change :=
                Fin (_calculate_percentage_change current_aov previous_aov) |} in
         do hist <- _calculate_historical_metrics data;
         do prods <- _analyze_products data;
         do custs <- _analyze_customers data;
         do tr <- _calculate_trends data;
         run logger INFO "Metrics calculated successfully";
         ret {| current_week := cw;
                previous_week := pw;
                changes := ch;
                aov := av;
                historical := Some hist;
                products := Some prods;
                customers := Some custs;
                trends := Some tr |})
  end.

End DataProcessor.

(** ** insights_generator.py *)

Module InsightsGenerator.

Import DataProcessor.
Local Open Scope R_scope.
Local Open Scope list_scope.

(** [_get_performance_qualifier] *)
Definition _get_performance_qualifier (change : pyfloat) : string :=
  if fge (fabs change) (Fin 20) then "dramatically"
  else if fge (fabs change) (Fin 10) then "significantly"
  else if fge (fabs change) (Fin 5) then "moderately"
  else "slightly".

(** [_get_status_level] *)
Definition _get_status_level (change : pyfloat) : string :=
  if fge change (Fin 10) then "excellent"
  else if fge change (Fin 5) then "good"
  else if fge change (Fin 0) then "fair"
  else if fge change (Fin (-5)) then "concerning"
  else "critical".

Record Recommendation : Type := {
  priority : string;
  category : string;
  title : string;
  description : string;
  expected_impact : string;
  timeline : string;
  icon : string
}.

Definition sales_recovery : Recommendation :=
  {| priority := "High";
     category := "Sales Recovery";
     title := "Implement Sales Recovery Plan";
     description := "Sales have declined significantly. Consider promotional campaigns, customer outreach, or market analysis.";
     expected_impact := "High";
     timeline := "1-2 weeks";
     icon := "🚨" |}.

Definition growth_optimization : Recommendation :=
  {| priority := "Medium";
     category := "Growth Optimization";
     title := "Scale Successful Strategies";
     description := "Strong sales growth achieved. Identify and replicate successful strategies to sustain momentum.";
     expected_impact := "High";
     timeline := "2-4 weeks";
     icon := "🚀" |}.

Definition customer_acquisition : Recommendation :=
  {| priority := "Medium";
     category := "Customer Acquisition";
     title := "Focus on Customer Acquisition";
     description := "Fewer orders but higher AOV suggests need for broader customer reach while maintaining quality.";
     expected_impact := "Medium";
     timeline := "3-4 weeks";
     icon := "🎯" |}.

Definition revenue_optimization : Recommendation :=
  {| priority := "Medium";
     category := "Revenue Optimization";
     title := "Implement Upselling Strategies";
     description := "More orders but lower AOV. Consider product bundling, premium options, or cross-selling.";
     expected_impact := "Medium";
     timeline := "2-3 weeks";
     icon := "💰" |}.

Definition product_strategy : Recommendation :=
  {| priority := "Low";
     category := "Product Strategy";
     title := "Diversify Product Portfolio";
     description := "Limited product variety in top performers. Analyze market opportunities for expansion.";
     expected_impact := "Medium";
     timeline := "4-8 weeks";
     icon := "📦" |}.

Definition business_stability : Recommendation :=
  {| priority := "Medium";
     category := "Business Stability";
     title := "Reduce Business Volatility";
     description := "High sales volatility detected. Review operational processes and market factors.";
     expected_impact := "High";
     timeline := "4-6 weeks";
     icon := "⚖️" |}.

Definition growth_acceleration : Recommendation :=
  {| priority := "Low";
     category := "Growth Acceleration";
     title := "Accelerate Growth Initiatives";
     description := "Moderate growth rate suggests room for improvement. Consider market expansion or innovation.";
     expected_impact := "Medium";
     timeline := "6-12 weeks";
     icon := "📈" |}.

(** [d[key]] *)
Definition getitem (d : gmap string pyval) (key : string) : Py pyval :=
  match d !! key with
  | Some v => ret v
  | None => raise (KeyError key)
  end.

(** [v > c] for a dictionary value [v] and a float literal [c] *)
Definition gt_literal (v : pyval) (c : R) : Py bool :=
  match v with
  | VFloat x => ret (fgt x (Fin c))
  | VInt n => ret (Rltb c (IZR n))
  | VStr _ =>
      raise (TypeError "'>' not supported between instances of 'str' and 'float'")
  end.

(** ['trends' in metrics and metrics['trends'].get('status') != 'insufficient_data'];
    gives the dictionary when the test holds. *)
Definition available_trends (metrics : Metrics) : option (gmap string pyval) :=
  match trends metrics with
  | None => None
  | Some t =>
      match t !! "status" with
      | Some (VStr s) => if String.eqb s "insufficient_data" then None else Some t
      | _ => Some t
      end
  end.

(** [_generate_recommendations] *)
Definition _generate_recommendations (metrics : Metrics)
  : Py (list Recommendation) :=
  let recommendations := [] in
  (* Sales-based recommendations *)
  let sales_change := sales_change (changes metrics) in
  let recommendations :=
    if flt sales_change (Fin (-5)) then recommendations ++ [sales_recovery]
    else if fgt sales_change (Fin 10) then recommendations ++ [growth_optimization]
    else recommendations in
  (* Order-based recommendations *)
  let orders_change := orders_change (changes metrics) in
  let aov_change := aov_change (aov metrics) in
  let recommendations :=
    if flt orders_change (Fin 0) && fgt aov_change (Fin 0)
    then recommendations ++ [customer_acquisition]
    else if fgt orders_change (Fin 0) && flt aov_change (Fin 0)
    then recommendations ++ [revenue_optimization]
    else recommendations in
  (* Product recommendations *)
  let recommendations :=
    match products metrics with
    | Some p =>
        if (unique_products_count p <? 3)%nat
        then recommendations ++ [product_strategy]
        else recommendations
    | None => recommendations
    end in
  (* Trend-based recommendations *)
  do recommendations <-
    match available_trends metrics with
    | Some t =>
        do volatility <- getitem t "sales_volatility";
        do high <- gt_literal volatility 0.2;
        ret (if high then recommendations ++ [business_stability]
             else recommendations)
    | None => ret recommendations
    end;
  (* Growth recommendations *)
  let recommendations :=
    match historical metrics with
    | Some h =>
        let growth_rate := sales_growth_rate h in
        if flt (Fin 0) growth_rate && flt growth_rate (Fin 5)
        then recommendations ++ [growth_acceleration]
        else recommendations
    | None => recommendations
    end in
  ret recommendations.

End InsightsGenerator.

From Stdlib Require Import Ascii.

(** ** data_processor.py: the chart feed *)

Module ChartFeed.

Import Pandas DataProcessor.
Local Open Scope R_scope.



End ChartFeed.

(** ** insights_generator.py: the narrative *)

Module Insights.

Import DataProcessor InsightsGenerator.
Local Open Scope R_scope.

(** [self.config.METRICS_CONFIG['currency_symbol']] *)
Definition currency_symbol : string := "R".

Definition nl : string := String "010"%char EmptyString.

(** [v == s] for a dictionary value [v] and a string literal [s] *)
Definition eq_literal (v : pyval) (s : string) : bool :=
  match v with
  | VStr t => String.eqb t s
  | _ => false
  end.

(** [str.title()] on ASCII text: a letter that follows a letter is lowered,
    any other letter is raised. *)
Definition is_lower (c : ascii) : bool :=
  (97 <=? nat_of_ascii c)%nat && (nat_of_ascii c <=? 122)%nat.
Definition is_upper (c : ascii) : bool :=
  (65 <=? nat_of_ascii c)%nat && (nat_of_ascii c <=? 90)%nat.
Definition to_upper (c : ascii) : ascii :=
  if is_lower c then ascii_of_nat (nat_of_ascii c - 32) else c.
Definition to_lower (c : ascii) : ascii :=
  if is_upper c then ascii_of_nat (nat_of_ascii c + 32) else c.

Fixpoint title_from (previous_is_cased : bool) (s : string) : string :=
  match s with
  | EmptyString => EmptyString
  | String c t =>
      if is_lower c then
        String (if previous_is_cased then c else to_upper c) (title_from true t)
      else if is_upper c then
        String (if previous_is_cased then to_lower c else c) (title_from true t)
      else String c (title_from false t)
  end.

Definition str_title (s : string) : string := title_from false s.

Record PerformanceInsight : Type := {
  perf_metric : string;
  perf_status : string;
  perf_message : string;
  perf_icon : string
}.

Record TrendInsight : Type := {
  trend_type : string;
  trend_direction_value : pyval;
  trend_message : string;
  trend_volatility : string;
  trend_icon : string
}.

(** An entry of [_analyze_products] or [_analyze_customers]. *)
Record LabelInsight : Type := {
  label_type : string;
  label_message : string;
  label_action : string;
  label_icon : string
}.

Record Risk : Type := {
  risk_level : string;
  risk_category : string;
  risk_description : string;
  risk_mitigation : string;
  risk_icon : string
}.

Record Opportunity : Type := {
  opp_potential : string;
  opp_category : string;
  opp_description : string;
  opp_action : string;
  opp_icon : string
}.

(** The dictionary of [generate_comprehensive_insights]. *)
Record InsightSet : Type := {
  executive_summary : string;
  performance_analysis : list PerformanceInsight;
  trend_insights : list TrendInsight;
  product_insights : list LabelInsight;
  customer_insights : list LabelInsight;
  recommendations : list Recommendation;
  risk_alerts : list Risk;
  opportunities : list Opportunity
}.

(** [_get_trend_message]; the third argument of the source is not read. *)
Definition _get_trend_message (metric_type : string) (direction : pyval) : string :=
  if eq_literal direction "increasing"
  then str_title metric_type ++ " shows positive upward trend with consistent growth pattern."
  else if eq_literal direction "decreasing"
  then str_title metric_type ++ " shows concerning downward trend requiring intervention."
  else str_title metric_type ++ " remains stable with minimal variation over time.".

(** [_assess_volatility] *)
Definition _assess_volatility (volatility : pyval) : Py string :=
  do high <- gt_literal volatility 0.3;
  if high then ret "high"
  else
    do moderate <- gt_literal volatility 0.15;
    if moderate then ret "moderate" else ret "low".

(** [_analyze_trends] *)
Definition _analyze_trends (metrics : Metrics) : Py (list TrendInsight) :=
  let trend_insights := [] in
  match available_trends metrics with
  | Some trends =>
      (* Sales trend analysis *)
      do sales_trend_direction <- getitem trends "sales_trend_direction";
      do sales_volatility <- getitem trends "sales_volatility";
      do sales_label <- _assess_volatility sales_volatility;
      let sales_trend_insight :=
        {| trend_type := "Sales Trend";
           trend_direction_value := sales_trend_direction;
           trend_message := _get_trend_message "sales" sales_trend_direction;
           trend_volatility := sales_label;
           trend_icon :=
             if eq_literal sales_trend_direction "increasing" then "📈"
             else if eq_literal sales_trend_direction "decreasing" then "📉"
             else "➡️" |} in
      let trend_insights := app trend_insights [sales_trend_insight] in
      (* Orders trend analysis *)
      do orders_trend_direction <- getitem trends "orders_trend_direction";
      do orders_volatility <- getitem trends "orders_volatility";
      do orders_label <- _assess_volatility orders_volatility;
      let orders_trend_insight :=
        {| trend_type := "Orders Trend";
           trend_direction_value := orders_trend_direction;
           trend_message := _get_trend_message "orders" orders_trend_direction;
           trend_volatility := orders_label;
           trend_icon :=
             if eq_literal orders_trend_direction "increasing" then "🛒"
             else if eq_literal orders_trend_direction "decreasing" then "📦"
             else "➡️" |} in
      let trend_insights := app trend_insights [orders_trend_insight] in
      (* Volatility insights *)
      do sales_volatility' <- getitem trends "sales_volatility";
      do sales_high <- gt_literal sales_volatility' 0.2;
      do either_high <-
        (if sales_high then ret true
         else
           do orders_volatility' <- getitem trends "orders_volatility";
           gt_literal orders_volatility' 0.2);
      if either_high then
        ret (app trend_insights
               [ {| trend_type := "Volatility Alert";
                    trend_direction_value := VStr "variable";
                    trend_message := "Business metrics show high volatility, indicating inconsistent performance that may require operational review.";
                    trend_volatility := "high";
                    trend_icon := "⚠️" |} ])
      else ret trend_insights
  | None => ret trend_insights
  end.

(** [_identify_opportunities] needs no formatting except for one number;
    the functions that format numbers come in the section below. *)

Section Formatting.

(** Python's built-in [format(value, spec)], which an f-string applies to
    each replacement field; [spec] is empty when the field has none. *)
Variable py_format : pyval -> string -> string.

(** [Timestamp.strftime(fmt)] *)
Variable strftime : Z -> string -> string.

Definition fmt_float (x : pyfloat) (spec : string) : string :=
  py_format (VFloat x) spec.
Definition fmt_int (n : Z) (spec : string) : string :=
  py_format (VInt n) spec.

(** [_generate_executive_summary]; the text is the template after
    [strip()], which removes the line break and the indentation at both
    ends. *)
Definition _generate_executive_summary (metrics : Metrics) : string :=
  let cw := current_week metrics in
  let ch := changes metrics in
  let sales_trend := if fge (sales_change ch) (Fin 0) then "increased" else "decreased" in
  let orders_trend := if fge (orders_change ch) (Fin 0) then "increased" else "decreased" in
  let sales_qualifier := _get_performance_qualifier (sales_change ch) in
  let orders_qualifier := _get_performance_qualifier (orders_change ch) in
  "Week ending " ++ strftime (cw_week_end cw) "%d %b %Y" ++ " Performance Summary:" ++ nl
  ++ "        " ++ nl
  ++ "        Sales " ++ sales_trend ++ " " ++ sales_qualifier ++ " by "
  ++ fmt_float (fabs (sales_change ch)) ".1f" ++ "% to " ++ currency_symbol
  ++ fmt_float (Fin (cw_sales cw)) ",.0f" ++ ", " ++ nl
  ++ "        while orders " ++ orders_trend ++ " " ++ orders_qualifier ++ " by "
  ++ fmt_float (fabs (orders_change ch)) ".1f" ++ "% to "
  ++ fmt_int (cw_orders cw) "," ++ " units." ++ nl
  ++ "        " ++ nl
  ++ "        The average order value is currently " ++ currency_symbol
  ++ fmt_float (Fin (aov_current (aov metrics))) ".0f" ++ ", " ++ nl
  ++ "        representing a " ++ fmt_float (fabs (aov_change (aov metrics))) ".1f"
  ++ "% " ++ (if fge (aov_change (aov metrics)) (Fin 0) then "increase" else "decrease")
  ++ " from the previous week.".

(** [_get_sales_performance_message] *)
Definition _get_sales_performance_message (change : pyfloat) (metrics : Metrics)
  : string :=
  let current_sales := cw_sales (current_week metrics) in
  let qualifier := _get_performance_qualifier change in
  if fge change (Fin 0)
  then "Sales performance is strong with " ++ qualifier ++ " growth of "
       ++ fmt_float change ".1f" ++ "% to " ++ currency_symbol
       ++ fmt_float (Fin current_sales) ",.0f" ++ "."
  else "Sales declined " ++ qualifier ++ " by " ++ fmt_float (fabs change) ".1f"
       ++ "% to " ++ currency_symbol ++ fmt_float (Fin current_sales) ",.0f"
       ++ ", requiring attention.".

(** [_get_orders_performance_message] *)
Definition _get_orders_performance_message (change : pyfloat) (metrics : Metrics)
  : string :=
  let current_orders := cw_orders (current_week metrics) in
  let qualifier := _get_performance_qualifier change in
  if fge change (Fin 0)
  then "Order volume shows " ++ qualifier ++ " improvement of "
       ++ fmt_float change ".1f" ++ "% to " ++ fmt_int current_orders ","
       ++ " orders."
  else "Order volume decreased " ++ qualifier ++ " by "
       ++ fmt_float (fabs change) ".1f" ++ "% to " ++ fmt_int current_orders ","
       ++ " orders.".

(** [_get_aov_performance_message] *)
Definition _get_aov_performance_message (change : pyfloat) (metrics : Metrics)
  : string :=
  let current_aov := aov_current (aov metrics) in
  let qualifier := _get_performance_qualifier change in
  if fge change (Fin 0)
  then "Average order value increased " ++ qualifier ++ " by "
       ++ fmt_float change ".1f" ++ "% to " ++ currency_symbol
       ++ fmt_float (Fin current_aov) ".0f" ++ "."
  else "Average order value declined " ++ qualifier ++ " by "
       ++ fmt_float (fabs change) ".1f" ++ "% to " ++ currency_symbol
       ++ fmt_float (Fin current_aov) ".0f" ++ ".".

(** [_analyze_performance] *)
Definition _analyze_performance (metrics : Metrics) : list PerformanceInsight :=
  let performance_insights := [] in
  (* Sales performance analysis *)
  let sales_change := sales_change (changes metrics) in
  let sales_insight :=
    {| perf_metric := "Sales Performance";
       perf_status := _get_status_level sales_change;
       perf_message := _get_sales_performance_message sales_change metrics;
       perf_icon := if fge sales_change (Fin 0) then "📈" else "📉" |} in
  let performance_insights := app performance_insights [sales_insight] in
  (* Orders performance analysis *)
  let orders_change := orders_change (changes metrics) in
  let orders_insight :=
    {| perf_metric := "Order Volume";
       perf_status := _get_status_level orders_change;
       perf_message := _get_orders_performance_message orders_change metrics;
       perf_icon := if fge orders_change (Fin 0) then "🛒" else "📦" |} in
  let performance_insights := app performance_insights [orders_insight] in
  (* AOV analysis *)
  let aov_change := aov_change (aov metrics) in
  let aov_insight :=
    {| perf_metric := "Average Order Value";
       perf_status := _get_status_level aov_change;
       perf_message := _get_aov_performance_message aov_change metrics;
       perf_icon := if fge aov_change (Fin 0) then "💰" else "💸" |} in
  let performance_insights := app performance_insights [aov_insight] in
  (* Growth rate analysis *)
  match historical metrics with
  | Some h =>
      let growth_rate := sales_growth_rate h in
      let growth_insight :=
        {| perf_metric := "Overall Growth Trend";
           perf_status := _get_status_level growth_rate;
           perf_message :=
             "Overall growth rate is " ++ fmt_float growth_rate ".1f"
             ++ "% over the analyzed period, indicating "
             ++ (if fgt growth_rate (Fin 5) then "strong momentum"
                 else if fgt growth_rate (Fin 0) then "steady progress"
                 else "declining performance")
             ++ ".";
           perf_icon := "📊" |} in
      app performance_insights [growth_insight]
  | None => performance_insights
  end.

(** [_analyze_products] of [InsightsGenerator] *)
Definition _analyze_products (metrics : Metrics) : list LabelInsight :=
  let product_insights := [] in
  match products metrics with
  | Some products =>
      let current_product := current_top_product products in
      let most_frequent := most_frequent_top_product products in
      let product_insights :=
        if negb (String.eqb current_product most_frequent)
        then app product_insights
               [ {| label_type := "Product Leadership Change";
                    label_message :=
                      current_product ++ " is currently the top performer, while "
                      ++ most_frequent
                      ++ " has been the most consistent leader historically.";
                    label_action := "Monitor performance of new top product and analyze factors driving the change.";
                    label_icon := "🔄" |} ]
        else app product_insights
               [ {| label_type := "Product Consistency";
                    label_message :=
                      current_product
                      ++ " maintains its position as both current and historical top performer.";
                    label_action := "Continue supporting this strong performer while exploring growth opportunities.";
                    label_icon := "⭐" |} ] in
      (* Product diversity *)
      let unique_products := unique_products_count products in
      if (unique_products <? 3)%nat
      then app product_insights
             [ {| label_type := "Product Concentration Risk";
                  label_message :=
                    "Only " ++ fmt_int (Z.of_nat unique_products) ""
                    ++ " different products have been top performers, indicating high concentration.";
                  label_action := "Consider diversifying product portfolio or boosting underperforming products.";
                  label_icon := "⚠️" |} ]
      else app product_insights
             [ {| label_type := "Product Diversity";
                  label_message :=
                    "Good product diversity with " ++ fmt_int (Z.of_nat unique_products) ""
                    ++ " different top performers shows balanced portfolio.";
                  label_action := "Maintain this diversity while identifying patterns in successful products.";
                  label_icon := "🎯" |} ]
  | None => product_insights
  end.

(** [_analyze_customers] of [InsightsGenerator] *)
Definition _analyze_customers (metrics : Metrics) : list LabelInsight :=
  let customer_insights := [] in
  match customers metrics with
  | Some customers =>
      let current_customer := current_top_customer customers in
      let most_frequent := most_frequent_top_customer customers in
      let unique_customers := unique_customers_count customers in
      (* Customer loyalty analysis *)
      let customer_insights :=
        if String.eqb current_customer most_frequent
        then app customer_insights
               [ {| label_type := "Customer Loyalty";
                    label_message :=
                      current_customer
                      ++ " demonstrates strong loyalty as both current and most frequent top customer.";
                    label_action := "Strengthen relationship with this key customer and understand their success factors.";
                    label_icon := "🏆" |} ]
        else app customer_insights
               [ {| label_type := "Customer Dynamics";
                    label_message :=
                      "Customer leadership has shifted from " ++ most_frequent
                      ++ " to " ++ current_customer ++ ".";
                    label_action := "Investigate reasons for customer ranking changes and address any service issues.";
                    label_icon := "🔄" |} ] in
      (* Customer base diversity *)
      if (unique_customers <? 4)%nat
      then app customer_insights
             [ {| label_type := "Customer Concentration Risk";
                  label_message :=
                    "High customer concentration with only "
                    ++ fmt_int (Z.of_nat unique_customers) ""
                    ++ " different top customers.";
                  label_action := "Develop strategies to expand customer base and reduce dependency on few key accounts.";
                  label_icon := "⚠️" |} ]
      else app customer_insights
             [ {| label_type := "Customer Base Health";
                  label_message :=
                    "Healthy customer diversity with "
                    ++ fmt_int (Z.of_nat unique_customers) ""
                    ++ " different top customers.";
                  label_action := "Continue building strong relationships across diverse customer base.";
                  label_icon := "👥" |} ]
  | None => customer_insights
  end.

(** [_identify_risks] *)
Definition _identify_risks (metrics : Metrics) : Py (list Risk) :=
  let risks := [] in
  (* Performance risks *)
  let sales_change := sales_change (changes metrics) in
  let orders_change := orders_change (changes metrics) in
  let risks :=
    if flt sales_change (Fin (-10))
    then app risks
           [ {| risk_level := "High";
                risk_category := "Revenue Risk";
                risk_description :=
                  "Significant sales decline of " ++ fmt_float (fabs sales_change) ".1f"
                  ++ "% poses immediate revenue risk.";
                risk_mitigation := "Immediate action required: analyze root causes and implement corrective measures.";
                risk_icon := "🚨" |} ]
    else risks in
  let risks :=
    if flt orders_change (Fin (-15))
    then app risks
           [ {| risk_level := "High";
                risk_category := "Demand Risk";
                risk_description :=
                  "Sharp decline in orders (" ++ fmt_float (fabs orders_change) ".1f"
                  ++ "%) indicates potential demand issues.";
                risk_mitigation := "Review market conditions, customer feedback, and competitive landscape.";
                risk_icon := "⚠️" |} ]
    else risks in
  (* Customer concentration risk *)
  let risks :=
    match customers metrics with
    | Some c =>
        let unique_customers := unique_customers_count c in
        if (unique_customers <? 3)%nat
        then app risks
               [ {| risk_level := "Medium";
                    risk_category := "Customer Risk";
                    risk_description :=
                      "High customer concentration with only "
                      ++ fmt_int (Z.of_nat unique_customers) ""
                      ++ " key customers creates dependency risk.";
                    risk_mitigation := "Diversify customer base and strengthen relationships with existing customers.";
                    risk_icon := "👥" |} ]
        else risks
    | None => risks
    end in
  (* Product concentration risk *)
  let risks :=
    match products metrics with
    | Some p =>
        let unique_products := unique_products_count p in
        if (unique_products <? 3)%nat
        then app risks
               [ {| risk_level := "Medium";
                    risk_category := "Product Risk";
                    risk_description :=
                      "Limited product diversity with only "
                      ++ fmt_int (Z.of_nat unique_products) ""
                      ++ " top performers.";
                    risk_mitigation := "Expand product portfolio or improve performance of existing products.";
                    risk_icon := "📦" |} ]
        else risks
    | None => risks
    end in
  (* Volatility risk *)
  match available_trends metrics with
  | Some t =>
      do volatility <- getitem t "sales_volatility";
      do high <- gt_literal volatility 0.3;
      ret (if high
           then app risks
                  [ {| risk_level := "Medium";
                       risk_category := "Volatility Risk";
                       risk_description := "High business volatility creates unpredictable performance patterns.";
                       risk_mitigation := "Implement stabilization measures and improve forecasting capabilities.";
                       risk_icon := "📊" |} ]
           else risks)
  | None => ret risks
  end.

(** [_identify_opportunities] *)
Definition _identify_opportunities (metrics : Metrics) : Py (list Opportunity) :=
  let opportunities := [] in
  (* Growth opportunities *)
  let sales_change := sales_change (changes metrics) in
  let orders_change := orders_change (changes metrics) in
  let aov_change := aov_change (aov metrics) in
  let opportunities :=
    if fgt sales_change (Fin 5) && fgt orders_change (Fin 5)
    then app opportunities
           [ {| opp_potential := "High";
                opp_category := "Market Expansion";
                opp_description := "Strong performance in both sales and orders suggests market opportunity for expansion.";
                opp_action := "Consider scaling operations, expanding territory, or increasing marketing investment.";
                opp_icon := "🚀" |} ]
    else opportunities in
  let opportunities :=
    if fgt aov_change (Fin 10)
    then app opportunities
           [ {| opp_potential := "Medium";
                opp_category := "Premium Strategy";
                opp_description :=
                  "AOV increased by " ++ fmt_float aov_change ".1f"
                  ++ "%, indicating customer willingness to pay premium prices.";
                opp_action := "Explore premium product lines or value-added services.";
                opp_icon := "💎" |} ]
    else opportunities in
  (* Product opportunities *)
  let opportunities :=
    match products metrics with
    | Some p =>
        let current_product := current_top_product p in
        app opportunities
          [ {| opp_potential := "Medium";
               opp_category := "Product Development";
               opp_description :=
                 current_product ++ " is performing well as current top product.";
               opp_action :=
                 "Analyze " ++ current_product
                 ++ " success factors and apply to other products or develop complementary offerings.";
               opp_icon := "⭐" |} ]
    | None => opportunities
    end in
  (* Customer opportunities *)
  let opportunities :=
    match customers metrics with
    | Some c =>
        let current_customer := current_top_customer c in
        app opportunities
          [ {| opp_potential := "Medium";
               opp_category := "Customer Success";
               opp_description :=
                 current_customer
                 ++ " is the current top customer showing strong engagement.";
               opp_action :=
                 "Study " ++ current_customer
                 ++ " relationship model and replicate with other customers.";
               opp_icon := "🏆" |} ]
    | None => opportunities
    end in
  (* Trend opportunities *)
  match available_trends metrics with
  | Some t =>
      do direction <- getitem t "sales_trend_direction";
      ret (if eq_literal direction "increasing"
           then app opportunities
                  [ {| opp_potential := "High";
                       opp_category := "Momentum Capture";
                       opp_description := "Positive sales trend provides opportunity to accelerate growth.";
                       opp_action := "Increase investment in successful channels and strategies while trend continues.";
                       opp_icon := "📈" |} ]
           else opportunities)
  | None => ret opportunities
  end.

(** [generate_comprehensive_insights] *)
Definition generate_comprehensive_insights (metrics : Metrics) : Py InsightSet :=
  try_log_reraise "Error generating insights: "
    (let summary := _generate_executive_summary metrics in
     let performance := _analyze_performance metrics in
     do trend <- _analyze_trends metrics;
     let product := _analyze_products metrics in
     let customer := _analyze_customers metrics in
     do recs <- _generate_recommendations metrics;
     do risks <- _identify_risks metrics;
     do opps <- _identify_opportunities metrics;
     let insights :=
       {| executive_summary := summary;
          performance_analysis := performance;
          trend_insights := trend;
          product_insights := product;
          customer_insights := customer;
          recommendations := recs;
          risk_alerts := risks;
          opportunities := opps |} in
     run logger INFO "Comprehensive insights generated successfully";
     ret insights).

End Formatting.

(** The lines that [generate_insights_summary] collects in
    [summary_parts]. *)
Definition summary_parts (insights : InsightSet) : list string :=
  let summary_parts := [] in
  (* Add executive summary *)
  let summary_parts := app summary_parts ["📊 EXECUTIVE SUMMARY"] in
  let summary_parts := app summary_parts [executive_summary insights] in
  let summary_parts := app summary_parts [""] in
  (* Add key performance highlights *)
  let performance := performance_analysis insights in
  let summary_parts := app summary_parts ["🎯 KEY PERFORMANCE HIGHLIGHTS"] in
  let summary_parts :=
    app summary_parts
      (map (fun perf => perf_icon perf ++ " " ++ perf_metric perf ++ ": "
                        ++ perf_message perf)
           (firstn 3 performance)) in
  let summary_parts := app summary_parts [""] in
  (* Add top recommendations *)
  let summary_parts :=
    match recommendations insights with
    | [] => summary_parts
    | _ =>
        let summary_parts := app summary_parts ["💡 TOP RECOMMENDATIONS"] in
        let high_priority_recs :=
          List.filter (fun r => String.eqb (priority r) "High")
                      (recommendations insights) in
        let summary_parts :=
          app summary_parts
            (map (fun rec => icon rec ++ " " ++ title rec ++ ": " ++ description rec)
                 (firstn 2 high_priority_recs)) in
        app summary_parts [""]
    end in
  (* Add critical risks *)
  let high_risks :=
    List.filter (fun r => String.eqb (risk_level r) "High") (risk_alerts insights) in
  let summary_parts :=
    match high_risks with
    | [] => summary_parts
    | _ =>
        let summary_parts := app summary_parts ["⚠️ CRITICAL RISKS"] in
        let summary_parts :=
          app summary_parts
            (map (fun risk => risk_icon risk ++ " " ++ risk_category risk ++ ": "
                              ++ risk_description risk)
                 (firstn 2 high_risks)) in
        app summary_parts [""]
    end in
  (* Add top opportunities *)
  match opportunities insights with
  | [] => summary_parts
  | _ =>
      let summary_parts := app summary_parts ["🚀 KEY OPPORTUNITIES"] in
      let high_potential_ops :=
        List.filter (fun o => String.eqb (opp_potential o) "High")
                    (opportunities insights) in
      app summary_parts
        (map (fun opp => opp_icon opp ++ " " ++ opp_category opp ++ ": "
                         ++ opp_description opp)
             (firstn 2 high_potential_ops))
  end.

(** [generate_insights_summary] *)
Definition generate_insights_summary (insights : InsightSet) : string :=
  String.concat nl (summary_parts insights).

End Insights.

(** * Verification *)

Import Pandas DataProcessor InsightsGenerator.

(** ** Comparisons and the monad *)

Section Comparisons.

Local Open Scope R_scope.

Lemma Rltb_true (x y : R) : Rltb x y = true <-> x < y.
Proof. unfold Rltb. destruct (Rlt_dec x y); split; intros; try easy. Qed.

Lemma Rltb_false (x y : R) : Rltb x y = false <-> y <= x.
Proof.
  unfold Rltb. destruct (Rlt_dec x y); split; intros; try easy; lra.
Qed.

Lemma Rleb_true (x y : R) : Rleb x y = true <-> x <= y.
Proof. unfold Rleb. destruct (Rle_dec x y); split; intros; try easy. Qed.

Lemma Rleb_false (x y : R) : Rleb x y = false <-> y < x.
Proof.
  unfold Rleb. destruct (Rle_dec x y); split; intros; try easy; lra.
Qed.

Lemma Reqb_true (x y : R) : Reqb x y = true <-> x = y.
Proof. unfold Reqb. destruct (Req_dec_T x y); split; intros; try easy. Qed.


End Comparisons.

(** Decide every real comparison in the goal, closing the impossible
    branches by linear arithmetic. *)
Ltac real_cases :=
  unfold Rltb, Rleb, Reqb in *;
  repeat match goal with
    | |- context [Rlt_dec ?x ?y] => destruct (Rlt_dec x y); try lra
    | |- context [Rle_dec ?x ?y] => destruct (Rle_dec x y); try lra
    | |- context [Req_dec_T ?x ?y] => destruct (Req_dec_T x y); try lra
    end.

Lemma bind_ret {A B} (a : A) (k : A -> Py B) : bind (ret a) k = k a.
Proof. unfold bind, ret. destruct (k a); reflexivity. Qed.

Lemma bind_raise {A B} (e : exn) (k : A -> Py B) : bind (raise e) k = raise e.
Proof. reflexivity. Qed.

Lemma bind_returns {A B} (c : Py A) (k : A -> Py B) (l : list log_entry) (b : B) :
  bind c k = (l, Return b) ->
  exists l1 a l2, c = (l1, Return a) /\ k a = (l2, Return b) /\ l = app l1 l2.
Proof.
  unfold bind. destruct c as [l1 [a | e]]; [| discriminate].
  destruct (k a) as [l2 r] eqn:Hk. intros H. inversion H; subst.
  exists l1, a, l2. auto.
Qed.

(** ** Positional indexing *)

Lemma iloc_neg_last {A} (s : list A) (x : A) :
  iloc_neg (app s [x]) 1 = ret x.
Proof.
  unfold iloc_neg, iloc. rewrite length_app. cbn [length].
  destruct (Nat.leb_spec 1 (length s + 1)); [| lia].
  replace (length s + 1 - 1)%nat with (length s) by lia.
  rewrite nth_error_app2 by lia. rewrite Nat.sub_diag. reflexivity.
Qed.

Lemma iloc_neg_second_last {A} (s : list A) (x y : A) :
  iloc_neg (app s [x; y]) 2 = ret x.
Proof.
  unfold iloc_neg, iloc. rewrite length_app. cbn [length].
  destruct (Nat.leb_spec 2 (length s + 2)); [| lia].
  replace (length s + 2 - 2)%nat with (length s) by lia.
  rewrite nth_error_app2 by lia. rewrite Nat.sub_diag. reflexivity.
Qed.

Lemma nonempty_snoc {A} (s : list A) :
  s <> [] -> exists t x, s = app t [x].
Proof.
  intros H. destruct (exists_last H) as (t & x & ->). eauto.
Qed.

Lemma iloc_first {A} (x : A) (s : list A) : iloc (x :: s) 0 = ret x.
Proof. reflexivity. Qed.

Lemma snoc_cases {A} (s : list A) : s = [] \/ exists t x, s = app t [x].
Proof.
  destruct s as [| a s]; [left; reflexivity | right].
  apply nonempty_snoc. discriminate.
Qed.

Lemma column_length (data : DataFrame) (c : numeric_column) :
  length (column data c) = length data.
Proof. destruct c; simpl; apply length_map. Qed.

(** ** The sub-computations of [calculate_metrics] return *)

Section Returns.

Local Open Scope R_scope.

Lemma growth_rate_short (data : DataFrame) (c : numeric_column) :
  (length data < 2)%nat -> _calculate_growth_rate data c = ret (Fin 0).
Proof.
  intros H. unfold _calculate_growth_rate.
  destruct (Nat.ltb_spec (length data) 2); [reflexivity | lia].
Qed.

Lemma growth_rate_long (data : DataFrame) (c : numeric_column)
      (v0 vN : R) (mid : list R) :
  column data c = v0 :: app mid [vN] ->
  _calculate_growth_rate data c =
  ret (if Rleb v0 0 then Fin 0
       else fmul (fsub (np_power (vN / v0) (1 / INR (length mid + 1))) (Fin 1))
                 (Fin 100)).
Proof.
  intros Hcol. unfold _calculate_growth_rate.
  assert (Hlen : length data = (length mid + 2)%nat).
  { rewrite <- (column_length data c), Hcol. simpl. rewrite length_app. simpl. lia. }
  destruct (Nat.ltb_spec (length data) 2); [lia |].
  rewrite Hcol, iloc_first, bind_ret.
  change (v0 :: app mid [vN]) with (app (v0 :: mid) [vN]).
  rewrite iloc_neg_last, bind_ret.
  replace (length data - 1)%nat with (length mid + 1)%nat by lia.
  destruct (Rleb v0 0); reflexivity.
Qed.

Lemma column_ends (data : DataFrame) (c : numeric_column) :
  (2 <= length data)%nat ->
  exists v0 mid vN, column data c = v0 :: app mid [vN].
Proof.
  intros H. rewrite <- (column_length data c) in H.
  destruct (column data c) as [| v0 rest]; [simpl in H; lia |].
  destruct (snoc_cases rest) as [-> | (mid & vN & ->)]; [simpl in H; lia |].
  eauto.
Qed.

Lemma growth_rate_returns (data : DataFrame) (c : numeric_column) :
  exists g, _calculate_growth_rate data c = ret g.
Proof.
  destruct (Nat.lt_ge_cases (length data) 2) as [H | H].
  - eexists. apply growth_rate_short, H.
  - destruct (column_ends data c H) as (v0 & mid & vN & Hcol).
    eexists. apply (growth_rate_long _ _ _ _ _ Hcol).
Qed.

Lemma historical_returns (data : DataFrame) :
  exists gs go,
    _calculate_growth_rate data Total_Sales_column = ret gs /\
    _calculate_growth_rate data Total_Orders_column = ret go /\
    _calculate_historical_metrics data =
    ret {| total_sales := sum (map Total_Sales data);
           total_orders := sumZ (map Total_Orders data);
           average_weekly_sales := mean (map Total_Sales data);
           average_weekly_orders := mean (map IZR (map Total_Orders data));
           max_weekly_sales := max (map Total_Sales data);
           min_weekly_sales := min (map Total_Sales data);
           sales_std_dev := std (map Total_Sales data);
           weeks_count := length data;
           sales_growth_rate := gs;
           orders_growth_rate := go |}.
Proof.
  destruct (growth_rate_returns data Total_Sales_column) as [gs Hs].
  destruct (growth_rate_returns data Total_Orders_column) as [go Ho].
  exists gs, go. repeat split; trivial.
  unfold _calculate_historical_metrics. rewrite Hs, bind_ret, Ho, bind_ret.
  reflexivity.
Qed.

Lemma analyze_products_snoc (t : DataFrame) (x : WeeklyRecord) :
  _analyze_products (app t [x]) =
  ret {| most_frequent_top_product :=
           most_frequent (value_counts (map Top_Product (app t [x])));
         product_frequency := value_counts (map Top_Product (app t [x]));
         unique_products_count :=
           length (value_counts (map Top_Product (app t [x])));
         current_top_product := Top_Product x |}.
Proof.
  unfold _analyze_products. rewrite iloc_neg_last, bind_ret. reflexivity.
Qed.

Lemma analyze_customers_snoc (t : DataFrame) (x : WeeklyRecord) :
  _analyze_customers (app t [x]) =
  ret {| most_frequent_top_customer :=
           most_frequent (value_counts (map Top_Customer (app t [x])));
         customer_frequency := value_counts (map Top_Customer (app t [x]));
         unique_customers_count :=
           length (value_counts (map Top_Customer (app t [x])));
         current_top_customer := Top_Customer x |}.
Proof.
  unfold _analyze_customers. rewrite iloc_neg_last, bind_ret. reflexivity.
Qed.

Lemma rolling3_mean_length (s : list R) :
  length (rolling3_mean s) = length s.
Proof. unfold rolling3_mean. rewrite length_map, length_seq. reflexivity. Qed.

Lemma iloc_neg_returns {A} (s : list A) :
  s <> [] -> exists a, iloc_neg s 1 = ret a.
Proof.
  intros H. destruct (nonempty_snoc s H) as (t & x & ->).
  exists x. apply iloc_neg_last.
Qed.

Lemma rolling3_last_returns (s : list R) :
  (3 <= length s)%nat -> exists a, iloc_neg (rolling3_mean s) 1 = ret a.
Proof.
  intros H. apply iloc_neg_returns. intros E.
  apply (f_equal (@length _)) in E. rewrite rolling3_mean_length in E.
  simpl in E. lia.
Qed.

End Returns.

Section Snapshot.

Local Open Scope R_scope.

Lemma trends_short (data : DataFrame) :
  (length data < 3)%nat ->
  _calculate_trends data = ret {[ "status" := VStr "insufficient_data" ]}.
Proof.
  intros H. unfold _calculate_trends.
  destruct (Nat.ltb_spec (length data) 3); [reflexivity | lia].
Qed.

Lemma trends_long (data : DataFrame) :
  (3 <= length data)%nat ->
  exists ma_sales ma_orders,
    _calculate_trends data =
    ret (list_to_map
           [ ("sales_trend_slope",
              VFloat (Fin (polyfit_slope (column data Total_Sales_column))));
             ("orders_trend_slope",
              VFloat (Fin (polyfit_slope (column data Total_Orders_column))));
             ("sales_trend_direction",
              VStr (trend_direction
                      (polyfit_slope (column data Total_Sales_column))));
             ("orders_trend_direction",
              VStr (trend_direction
                      (polyfit_slope (column data Total_Orders_column))));
             ("sales_volatility",
              VFloat (fdiv (std (column data Total_Sales_column))
                           (mean (column data Total_Sales_column))));
             ("orders_volatility",
              VFloat (fdiv (std (column data Total_Orders_column))
                           (mean (column data Total_Orders_column))));
             ("latest_ma3_sales", float_or_zero ma_sales);
             ("latest_ma3_orders", float_or_zero ma_orders) ]).
Proof.
  intros H. unfold _calculate_trends.
  destruct (Nat.ltb_spec (length data) 3); [lia |].
  destruct (rolling3_last_returns (column data Total_Sales_column)) as [a Ha].
  { rewrite column_length. exact H. }
  destruct (rolling3_last_returns (column data Total_Orders_column)) as [b Hb].
  { rewrite column_length. exact H. }
  exists a, b. rewrite Ha, bind_ret, Hb, bind_ret. reflexivity.
Qed.

Lemma trends_returns (data : DataFrame) :
  exists tr, _calculate_trends data = ret tr.
Proof.
  destruct (Nat.lt_ge_cases (length data) 3) as [H | H].
  - eexists. apply trends_short, H.
  - destruct (trends_long data H) as (a & b & E). eexists. exact E.
Qed.

(** On a frame with a last row [x], [calculate_metrics] returns, logs one
    line, and the snapshot is the one written out here. *)
Lemma calculate_metrics_snoc (t : DataFrame) (x : WeeklyRecord) :
  let data := app t [x] in
  let p := List.last t x in
  let current_aov :=
    if (0 <? Total_Orders x)%Z then Total_Sales x / IZR (Total_Orders x) else 0 in
  let previous_aov :=
    if (0 <? Total_Orders p)%Z then Total_Sales p / IZR (Total_Orders p) else 0 in
  exists hist prods custs tr,
    _calculate_historical_metrics data = ret hist /\
    _analyze_products data = ret prods /\
    _analyze_customers data = ret custs /\
    _calculate_trends data = ret tr /\
    calculate_metrics (Some data) =
    ([(INFO, "Metrics calculated successfully")],
     Return
       {| current_week :=
            {| cw_sales := Total_Sales x;
               cw_orders := Total_Orders x;
               cw_top_product := Top_Product x;
               cw_top_customer := Top_Customer x;
               cw_week_start := Week_Start x;
               cw_week_end := Week_End x |};
          previous_week :=
            {| pw_sales := Total_Sales p; pw_orders := Total_Orders p |};
          changes :=
            {| sales_change :=
                 Fin (_calculate_percentage_change (Total_Sales x) (Total_Sales p));
               orders_change :=
                 Fin (_calculate_percentage_change (IZR (Total_Orders x))
                                                   (IZR (Total_Orders p)));
               sales_absolute_change := Total_Sales x - Total_Sales p;
               orders_absolute_change := (Total_Orders x - Total_Orders p)%Z |};
          aov :=
            {| aov_current := current_aov;
               aov_previous := previous_aov;
               aov_change :=
                 Fin (_calculate_percentage_change current_aov previous_aov) |};
          historical := Some hist;
          products := Some prods;
          customers := Some custs;
          trends := Some tr |}).
Proof.
  intros data p current_aov previous_aov.
  destruct (historical_returns data) as (gs & go & _ & _ & Hh).
  destruct (trends_returns data) as [tr Ht].
  eexists _, _, _, tr.
  split; [exact Hh |].
  split; [apply analyze_products_snoc |].
  split; [apply analyze_customers_snoc |].
  split; [exact Ht |].
  unfold calculate_metrics. fold data.
  assert (Hprev : (if (1 <? length data)%nat then iloc_neg data 2 else ret x)
                  = ret p).
  { subst data p. destruct (snoc_cases t) as [-> | (t' & y & ->)].
    - reflexivity.
    - rewrite last_last, !length_app. cbn [length].
      destruct (Nat.ltb_spec 1 (length t' + 1 + 1)); [| lia].
      rewrite <- app_assoc. apply iloc_neg_second_last. }
  unfold data at 1. rewrite iloc_neg_last, bind_ret, Hprev, bind_ret.
  cbv zeta. cbn [cw_sales cw_orders pw_sales pw_orders].
  rewrite Hh, bind_ret.
  unfold data at 1. rewrite analyze_products_snoc, bind_ret.
  unfold data at 1. rewrite analyze_customers_snoc, bind_ret.
  rewrite Ht, bind_ret.
  reflexivity.
Qed.

End Snapshot.

(** ** Percentage change *)

Section PercentageChange.

Local Open Scope R_scope.

Lemma percentage_change_zero_previous_up (curr : R) :
  0 < curr -> _calculate_percentage_change curr 0 = 100.
Proof. intros H. unfold _calculate_percentage_change. real_cases. Qed.

Lemma percentage_change_zero_previous_flat (curr : R) :
  curr <= 0 -> _calculate_percentage_change curr 0 = 0.
Proof. intros H. unfold _calculate_percentage_change. real_cases. Qed.

Lemma percentage_change_formula (curr prev : R) :
  prev <> 0 ->
  _calculate_percentage_change curr prev = (curr - prev) / prev * 100.
Proof.
  intros H. unfold _calculate_percentage_change, Reqb.
  destruct (Req_dec_T prev 0); [contradiction | reflexivity].
Qed.

Lemma percentage_change_same (v : R) : _calculate_percentage_change v v = 0.
Proof.
  unfold _calculate_percentage_change, Reqb, Rltb.
  destruct (Req_dec_T v 0) as [-> | H].
  - destruct (Rlt_dec 0 0); [lra | reflexivity].
  - unfold Rminus. rewrite Rplus_opp_r. unfold Rdiv. rewrite !Rmult_0_l.
    reflexivity.
Qed.

(** C1. The percentage change is 100 when the previous value is zero and
    the current one is positive, 0 when the previous value is zero and the
    current one is not positive, and [(curr - prev) / prev * 100] otherwise;
    the snapshot's sales change, orders change and AOV change are all this
    one function of the current and the previous value. *)
Theorem percentage_change_rule :
  (forall curr prev : R,
      (prev = 0 -> 0 < curr -> _calculate_percentage_change curr prev = 100) /\
      (prev = 0 -> curr <= 0 -> _calculate_percentage_change curr prev = 0) /\
      (prev <> 0 ->
       _calculate_percentage_change curr prev = (curr - prev) / prev * 100)) /\
  (forall data : DataFrame,
      data <> [] ->
      exists log m,
        calculate_metrics (Some data) = (log, Return m) /\
        sales_change (changes m) =
          Fin (_calculate_percentage_change (cw_sales (current_week m))
                                            (pw_sales (previous_week m))) /\
        orders_change (changes m) =
          Fin (_calculate_percentage_change (IZR (cw_orders (current_week m)))
                                            (IZR (pw_orders (previous_week m)))) /\
        aov_change (aov m) =
          Fin (_calculate_percentage_change (aov_current (aov m))
                                            (aov_previous (aov m)))).
Proof.
  split.
  - intros curr prev. repeat split.
    + intros -> H. apply percentage_change_zero_previous_up, H.
    + intros -> H. apply percentage_change_zero_previous_flat, H.
    + apply percentage_change_formula.
  - intros data Hne. destruct (nonempty_snoc data Hne) as (t & x & ->).
    destruct (calculate_metrics_snoc t x) as (h & p & c & tr & _ & _ & _ & _ & E).
    do 2 eexists. split; [exact E |]. cbn. auto.
Qed.

Lemma percentage_change_rule_witness :
  _calculate_percentage_change 5 0 = 100 /\
  _calculate_percentage_change 0 0 = 0 /\
  _calculate_percentage_change 20050 19000 = (20050 - 19000) / 19000 * 100.
Proof.
  destruct percentage_change_rule as [H _].
  destruct (H 5 0) as (H1 & _ & _).
  destruct (H 0 0) as (_ & H2 & _).
  destruct (H 20050 19000) as (_ & _ & H3).
  repeat split; [apply H1 | apply H2 | apply H3]; lra.
Defined.

End PercentageChange.

(** ** Classification thresholds *)

Section Classification.

Local Open Scope R_scope.

(** C8. Status: excellent from 10, good from 5, fair from 0, concerning
    from -5, critical below; qualifier on the absolute value: dramatically
    from 20, significantly from 10, moderately from 5, slightly below.  So
    5.526 is good and moderately. *)
Theorem status_and_qualifier_thresholds :
  (forall c : R,
      (10 <= c -> _get_status_level (Fin c) = "excellent") /\
      (5 <= c < 10 -> _get_status_level (Fin c) = "good") /\
      (0 <= c < 5 -> _get_status_level (Fin c) = "fair") /\
      (-5 <= c < 0 -> _get_status_level (Fin c) = "concerning") /\
      (c < -5 -> _get_status_level (Fin c) = "critical") /\
      (20 <= Rabs c -> _get_performance_qualifier (Fin c) = "dramatically") /\
      (10 <= Rabs c < 20 -> _get_performance_qualifier (Fin c) = "significantly") /\
      (5 <= Rabs c < 10 -> _get_performance_qualifier (Fin c) = "moderately") /\
      (Rabs c < 5 -> _get_performance_qualifier (Fin c) = "slightly")) /\
  _get_status_level (Fin 5.526) = "good" /\
  _get_performance_qualifier (Fin 5.526) = "moderately".
Proof.
  assert (Hall : forall c : R,
      (10 <= c -> _get_status_level (Fin c) = "excellent") /\
      (5 <= c < 10 -> _get_status_level (Fin c) = "good") /\
      (0 <= c < 5 -> _get_status_level (Fin c) = "fair") /\
      (-5 <= c < 0 -> _get_status_level (Fin c) = "concerning") /\
      (c < -5 -> _get_status_level (Fin c) = "critical") /\
      (20 <= Rabs c -> _get_performance_qualifier (Fin c) = "dramatically") /\
      (10 <= Rabs c < 20 -> _get_performance_qualifier (Fin c) = "significantly") /\
      (5 <= Rabs c < 10 -> _get_performance_qualifier (Fin c) = "moderately") /\
      (Rabs c < 5 -> _get_performance_qualifier (Fin c) = "slightly")).
  { intros c.
    unfold _get_status_level, _get_performance_qualifier, fge, fle, fabs.
    repeat split; intros H; real_cases; reflexivity. }
  split; [exact Hall |].
  destruct (Hall 5.526) as (_ & Hgood & _ & _ & _ & _ & _ & Hmod & _).
  split; [apply Hgood; lra |].
  apply Hmod. rewrite Rabs_pos_eq; lra.
Qed.

Lemma status_and_qualifier_thresholds_witness :
  _get_status_level (Fin 12) = "excellent" /\
  _get_status_level (Fin (-7)) = "critical" /\
  _get_performance_qualifier (Fin (-25)) = "dramatically".
Proof.
  destruct status_and_qualifier_thresholds as [H _].
  destruct (H 12) as (H1 & _).
  destruct (H (-7)) as (_ & _ & _ & _ & H2 & _).
  destruct (H (-25)) as (_ & _ & _ & _ & _ & H3 & _).
  repeat split; [apply H1; lra | apply H2; lra | apply H3].
  rewrite Rabs_left; lra.
Defined.

End Classification.

(** ** Small datasets *)

Section SmallDatasets.

Local Open Scope R_scope.

Lemma calculate_metrics_nil :
  calculate_metrics (Some []) =
  ([(ERROR, "Error calculating metrics: single positional indexer is out-of-bounds")],
   Raise (IndexError "single positional indexer is out-of-bounds")).
Proof. reflexivity. Qed.

(** C5. On an empty dataset [calculate_metrics] raises: reading the current
    week, [data.iloc[-1]], is out of bounds.  The error is logged and raised
    again, and no snapshot is returned. *)
Theorem empty_dataset_raises :
  calculate_metrics (Some []) =
  ([(ERROR, "Error calculating metrics: single positional indexer is out-of-bounds")],
   Raise (IndexError "single positional indexer is out-of-bounds")) /\
  (forall log m, calculate_metrics (Some []) <> (log, Return m)).
Proof.
  split; [exact calculate_metrics_nil |].
  intros log m H. rewrite calculate_metrics_nil in H. discriminate.
Qed.

(** C7. On a dataset of one record the previous week is the current week,
    and the sales, orders and AOV changes are all 0. *)
Theorem single_record_changes (x : WeeklyRecord) :
  exists log m,
    calculate_metrics (Some [x]) = (log, Return m) /\
    pw_sales (previous_week m) = cw_sales (current_week m) /\
    pw_orders (previous_week m) = cw_orders (current_week m) /\
    sales_change (changes m) = Fin 0 /\
    orders_change (changes m) = Fin 0 /\
    aov_change (aov m) = Fin 0 /\
    sales_absolute_change (changes m) = 0 /\
    orders_absolute_change (changes m) = 0%Z.
Proof.
  destruct (calculate_metrics_snoc [] x) as (h & p & c & tr & _ & _ & _ & _ & E).
  cbn [app List.last] in E.
  do 2 eexists. split; [exact E |]. cbn.
  rewrite !percentage_change_same.
  repeat split; try reflexivity; [lra | lia].
Qed.

(** C10. On a dataset of one record [calculate_metrics] returns a snapshot
    whose historical sales standard deviation is [nan]: it is neither 0 nor
    an error.  The insufficient-data marker of that snapshot is in the
    trends only. *)
Theorem single_record_std_dev_is_nan (x : WeeklyRecord) :
  exists log m h tr,
    calculate_metrics (Some [x]) = (log, Return m) /\
    historical m = Some h /\
    sales_std_dev h = NaN /\
    sales_std_dev h <> Fin 0 /\
    weeks_count h = 1%nat /\
    total_sales h = Total_Sales x /\
    trends m = Some tr /\
    tr !! "status" = Some (VStr "insufficient_data").
Proof.
  destruct (calculate_metrics_snoc [] x) as (h & p & c & tr & Hh & _ & _ & Ht & E).
  cbn [app List.last] in *.
  destruct (historical_returns [x]) as (gs & go & _ & _ & Hh').
  rewrite Hh' in Hh. injection Hh as <-.
  rewrite (trends_short [x]) in Ht by (simpl; lia). injection Ht as <-.
  do 4 eexists. split; [exact E |]. cbn.
  repeat split; try reflexivity; try discriminate.
  unfold sum. simpl. lra.
Qed.

Lemma sum_squares_nonneg (c : R) (l : list R) :
  0 <= sum (map (fun x => (x - c) * (x - c)) l).
Proof.
  induction l as [| x t IH]; simpl; [lra |].
  pose proof (Rle_0_sqr (x - c)) as Hsq. unfold Rsqr in Hsq. lra.
Qed.

(** With two points or more the denominator of the least-squares slope is
    positive: the slope in the trends is a quotient of reals. *)
Lemma polyfit_denominator_pos (n : nat) (c : R) :
  (2 <= n)%nat ->
  0 < sum (map (fun x => (x - c) * (x - c)) (map INR (seq 0 n))).
Proof.
  intros H. destruct n as [| [| n]]; [lia | lia |].
  cbn [seq map sum fold_right].
  pose proof (sum_squares_nonneg c (map INR (seq 2 n))) as Hrest.
  unfold sum in Hrest. cbn [INR]. nra.
Qed.

(** C4. The trends carry the insufficient-data marker exactly when the
    dataset has fewer than 3 records, and then no slope, direction or
    volatility; with 3 records or more they carry the slope, the direction
    and the volatility of sales and of orders, and no marker. *)
Theorem trend_fields_by_length (data : DataFrame) :
  exists tr,
    _calculate_trends data = ret tr /\
    (tr !! "status" = Some (VStr "insufficient_data") <-> (length data < 3)%nat) /\
    ((length data < 3)%nat ->
     tr !! "sales_trend_slope" = None /\
     tr !! "orders_trend_slope" = None /\
     tr !! "sales_trend_direction" = None /\
     tr !! "orders_trend_direction" = None /\
     tr !! "sales_volatility" = None /\
     tr !! "orders_volatility" = None) /\
    ((3 <= length data)%nat ->
     tr !! "status" = None /\
     tr !! "sales_trend_slope" =
       Some (VFloat (Fin (polyfit_slope (column data Total_Sales_column)))) /\
     tr !! "orders_trend_slope" =
       Some (VFloat (Fin (polyfit_slope (column data Total_Orders_column)))) /\
     tr !! "sales_trend_direction" =
       Some (VStr (trend_direction (polyfit_slope (column data Total_Sales_column)))) /\
     tr !! "orders_trend_direction" =
       Some (VStr (trend_direction (polyfit_slope (column data Total_Orders_column)))) /\
     tr !! "sales_volatility" =
       Some (VFloat (fdiv (std (column data Total_Sales_column))
                          (mean (column data Total_Sales_column)))) /\
     tr !! "orders_volatility" =
       Some (VFloat (fdiv (std (column data Total_Orders_column))
                          (mean (column data Total_Orders_column))))).
Proof.
  destruct (Nat.lt_ge_cases (length data) 3) as [H | H].
  - eexists. split; [apply trends_short, H |].
    split; [| split].
    + split; [intros _; exact H | intros _; reflexivity].
    + intros _. repeat split; reflexivity.
    + intros H'. lia.
  - destruct (trends_long data H) as (a & b & E).
    eexists. split; [exact E |].
    split; [| split].
    + split; [intros H'; discriminate H' | intros H'; lia].
    + intros H'. lia.
    + intros _. repeat split; reflexivity.
Qed.

Lemma trend_fields_by_length_witness :
  (exists tr,
      _calculate_trends (firstn 2 sample_data) = ret tr /\
      tr !! "status" = Some (VStr "insufficient_data") /\
      tr !! "sales_trend_slope" = None /\
      tr !! "sales_volatility" = None) /\
  (exists tr,
      _calculate_trends sample_data = ret tr /\
      tr !! "status" = None /\
      tr !! "sales_trend_slope" =
        Some (VFloat (Fin (polyfit_slope (column sample_data Total_Sales_column)))) /\
      tr !! "orders_trend_direction" =
        Some (VStr (trend_direction
                      (polyfit_slope (column sample_data Total_Orders_column))))).
Proof.
  split.
  - destruct (trend_fields_by_length (firstn 2 sample_data))
      as (tr & E & Hmark & Hshort & _).
    assert (Hlen : (length (firstn 2 sample_data) < 3)%nat) by (simpl; lia).
    exists tr. split; [exact E |]. split; [apply Hmark, Hlen |].
    destruct (Hshort Hlen) as (H1 & _ & _ & _ & H2 & _). auto.
  - destruct (trend_fields_by_length sample_data) as (tr & E & _ & _ & Hlong).
    assert (Hlen : (3 <= length sample_data)%nat) by (simpl; lia).
    exists tr. split; [exact E |].
    destruct (Hlong Hlen) as (H0 & H1 & _ & _ & H2 & _). auto.
Defined.

End SmallDatasets.

(** ** Growth rate *)

Section GrowthRate.

Local Open Scope R_scope.

Lemma INR_periods_pos (n : nat) : 0 < INR (n + 1).
Proof. apply lt_0_INR. lia. Qed.

(** The [n]-th root, as the code computes it, raised to the power [n]. *)
Lemma root_pow (q : R) (n : nat) :
  0 < q -> (1 <= n)%nat -> Rpower q (1 / INR n) ^ n = q.
Proof.
  intros Hq Hn.
  assert (Hpos : 0 < INR n) by (apply lt_0_INR; lia).
  rewrite <- Rpower_pow by apply exp_pos.
  rewrite Rpower_mult.
  replace (1 / INR n * INR n) with 1 by (field; lra).
  apply Rpower_1, Hq.
Qed.

Lemma root_lt (q b : R) (n : nat) :
  0 < q -> 0 < b -> (1 <= n)%nat -> q < b ^ n -> Rpower q (1 / INR n) < b.
Proof.
  intros Hq Hb Hn Hlt.
  assert (Hpos : 0 < INR n) by (apply lt_0_INR; lia).
  assert (Hinv : 0 < 1 / INR n).
  { unfold Rdiv. rewrite Rmult_1_l. apply Rinv_0_lt_compat, Hpos. }
  replace b with (Rpower (b ^ n) (1 / INR n)).
  - apply Rlt_Rpower_l; [exact Hinv | lra].
  - rewrite <- Rpower_pow by exact Hb. rewrite Rpower_mult.
    replace (INR n * (1 / INR n)) with 1 by (field; lra).
    apply Rpower_1, Hb.
Qed.

Lemma root_gt (q b : R) (n : nat) :
  0 < b -> (1 <= n)%nat -> b ^ n < q -> b < Rpower q (1 / INR n).
Proof.
  intros Hb Hn Hlt.
  assert (Hpos : 0 < INR n) by (apply lt_0_INR; lia).
  assert (Hinv : 0 < 1 / INR n).
  { unfold Rdiv. rewrite Rmult_1_l. apply Rinv_0_lt_compat, Hpos. }
  assert (Hbn : 0 < b ^ n) by (apply pow_lt, Hb).
  replace b with (Rpower (b ^ n) (1 / INR n)).
  - apply Rlt_Rpower_l; [exact Hinv | lra].
  - rewrite <- Rpower_pow by exact Hb. rewrite Rpower_mult.
    replace (INR n * (1 / INR n)) with 1 by (field; lra).
    apply Rpower_1, Hb.
Qed.

Lemma np_power_positive (x y : R) : 0 < x -> np_power x y = Fin (Rpower x y).
Proof. intros H. unfold np_power. real_cases. reflexivity. Qed.

Lemma np_power_zero (y : R) : 0 < y -> np_power 0 y = Fin 0.
Proof. intros H. unfold np_power. real_cases. reflexivity. Qed.

(** C3. With a first value [v0 > 0], a last value [vN] (not negative, as
    in every validated dataset) and [N = count - 1 >= 1] periods, the growth
    rate [rate] satisfies [v0 * (1 + rate/100)^N = vN]; over the reals the
    equation is exact.  With [v0 <= 0] or [N < 1] the growth rate is 0. *)
Theorem growth_rate_round_trip (data : DataFrame) (c : numeric_column) :
  (forall (v0 vN : R) (mid : list R),
      column data c = v0 :: app mid [vN] ->
      0 < v0 -> 0 <= vN ->
      exists rate,
        _calculate_growth_rate data c = ret (Fin rate) /\
        v0 * (1 + rate / 100) ^ (length data - 1) = vN) /\
  (forall (v0 : R) (rest : list R),
      column data c = v0 :: rest -> v0 <= 0 ->
      _calculate_growth_rate data c = ret (Fin 0)) /\
  ((length data - 1 < 1)%nat -> _calculate_growth_rate data c = ret (Fin 0)).
Proof.
  split; [| split].
  - intros v0 vN mid Hcol Hv0 HvN.
    assert (Hlen : (length data - 1 = length mid + 1)%nat).
    { rewrite <- (column_length data c), Hcol. simpl. rewrite length_app.
      simpl. lia. }
    rewrite (growth_rate_long data c v0 vN mid Hcol), Hlen.
    destruct (Rleb v0 0) eqn:Hle; [apply Rleb_true in Hle; lra |].
    assert (Hy : 0 < 1 / INR (length mid + 1)).
    { unfold Rdiv. rewrite Rmult_1_l.
      apply Rinv_0_lt_compat, INR_periods_pos. }
    destruct HvN as [HvN | <-].
    + assert (Hq : 0 < vN / v0) by (apply Rdiv_lt_0_compat; assumption).
      rewrite (np_power_positive _ _ Hq). cbn [fsub fmul].
      eexists. split; [reflexivity |].
      match goal with
      | |- v0 * ?b ^ _ = _ =>
          replace b with (Rpower (vN / v0) (1 / INR (length mid + 1)))
            by (field; lra)
      end.
      rewrite root_pow by (trivial; lia). field. lra.
    + replace (0 / v0) with 0 by (unfold Rdiv; rewrite Rmult_0_l; reflexivity).
      rewrite (np_power_zero _ Hy). cbn [fsub fmul].
      eexists. split; [reflexivity |].
      replace (1 + (0 - 1) * 100 / 100) with 0 by lra.
      rewrite Nat.add_1_r. simpl. lra.
  - intros v0 rest Hcol Hv0.
    destruct (snoc_cases rest) as [-> | (mid & vN & ->)].
    + apply growth_rate_short. rewrite <- (column_length data c), Hcol.
      simpl. lia.
    + rewrite (growth_rate_long data c v0 vN mid Hcol).
      destruct (Rleb v0 0) eqn:Hle; [reflexivity |].
      apply Rleb_false in Hle. lra.
  - intros H. apply growth_rate_short. lia.
Qed.

Lemma growth_rate_round_trip_witness :
  exists rate,
    _calculate_growth_rate sample_data Total_Sales_column = ret (Fin rate) /\
    12500 * (1 + rate / 100) ^ 7 = 20050.
Proof.
  destruct (growth_rate_round_trip sample_data Total_Sales_column) as [H _].
  apply (H 12500 20050 [15800; 14200; 16950; 18100; 17500; 19000]).
  - reflexivity.
  - lra.
  - lra.
Defined.

(** The growth rate of sales in the sample scenario: about 6.97 percent. *)
Lemma sample_growth_rate :
  exists g,
    _calculate_growth_rate sample_data Total_Sales_column = ret (Fin g) /\
    6.9 < g < 7.
Proof.
  rewrite (growth_rate_long sample_data Total_Sales_column 12500 20050
             [15800; 14200; 16950; 18100; 17500; 19000] eq_refl).
  destruct (Rleb 12500 0) eqn:Hle; [apply Rleb_true in Hle; lra |].
  rewrite np_power_positive by lra. cbn [fsub fmul length Nat.add].
  eexists. split; [reflexivity |].
  assert (Hlo : 1.069 < Rpower (20050 / 12500) (1 / INR 7)).
  { apply root_gt; [lra | lia | simpl; lra]. }
  assert (Hhi : Rpower (20050 / 12500) (1 / INR 7) < 1.07).
  { apply root_lt; [lra | lra | lia | simpl; lra]. }
  lra.
Qed.

End GrowthRate.

(** ** Recommendations *)

Section Recommendations.

Local Open Scope R_scope.

Lemma between_0_and_5 (g : pyfloat) :
  flt (Fin 0) g && flt g (Fin 5) = true <-> exists x, g = Fin x /\ 0 < x < 5.
Proof.
  rewrite andb_true_iff. destruct g as [x | | |]; simpl.
  - rewrite !Rltb_true. split.
    + intros [H1 H2]. exists x. auto.
    + intros (y & [= <-] & H). exact H.
  - split; [intros [_ H]; discriminate | intros (y & H & _); discriminate].
  - split; [intros [H _]; discriminate | intros (y & H & _); discriminate].
  - split; [intros [H _]; discriminate | intros (y & H & _); discriminate].
Qed.

Lemma trend_stage_result (m : Metrics) (base : list Recommendation)
      (l : list log_entry) (a : list Recommendation) :
  match available_trends m with
  | Some t =>
      do volatility <- getitem t "sales_volatility";
      do high <- gt_literal volatility 0.2;
      ret (if high then app base [business_stability] else base)
  | None => ret base
  end = (l, Return a) ->
  a = base \/ a = app base [business_stability].
Proof.
  destruct (available_trends m) as [t |].
  - unfold getitem. destruct (t !! "sales_volatility") as [[v | n | s] |].
    + rewrite bind_ret. cbn [gt_literal]. rewrite bind_ret.
      destruct (fgt v (Fin 0.2)); intros [= _ <-]; auto.
    + rewrite bind_ret. cbn [gt_literal]. rewrite bind_ret.
      destruct (Rltb 0.2 (IZR n)); intros [= _ <-]; auto.
    + rewrite bind_ret. cbn [gt_literal]. rewrite bind_raise. discriminate.
    + rewrite bind_raise. discriminate.
  - intros [= _ <-]. auto.
Qed.

(** Every rule before the growth rule appends a recommendation of another
    category; the growth rule then appends its own or nothing. *)
Lemma recommendations_shape (m : Metrics) (log : list log_entry)
      (recs : list Recommendation) :
  _generate_recommendations m = (log, Return recs) ->
  exists base,
    Forall (fun r => category r <> "Growth Acceleration") base /\
    recs = app base
               (match historical m with
                | Some h =>
                    if flt (Fin 0) (sales_growth_rate h)
                       && flt (sales_growth_rate h) (Fin 5)
                    then [growth_acceleration] else []
                | None => []
                end).
Proof.
  unfold _generate_recommendations. cbv zeta. intros H.
  apply bind_returns in H as (l1 & a & l2 & Hstage & Hret & _).
  injection Hret as _ <-.
  exists a. split.
  - assert (Hother : forall r,
               In r [sales_recovery; growth_optimization; customer_acquisition;
                     revenue_optimization; product_strategy; business_stability] ->
               category r <> "Growth Acceleration").
    { intros r Hr. simpl in Hr.
      repeat (destruct Hr as [<- | Hr]; [discriminate |]). contradiction. }
    apply List.Forall_forall. intros r Hr. apply Hother. clear Hother.
    revert Hstage Hr.
    destruct (flt (sales_change (changes m)) (Fin (-5)));
      [| destruct (fgt (sales_change (changes m)) (Fin 10))];
      (destruct (flt (orders_change (changes m)) (Fin 0)
                 && fgt (aov_change (aov m)) (Fin 0));
       [| destruct (fgt (orders_change (changes m)) (Fin 0)
                    && flt (aov_change (aov m)) (Fin 0))]);
      (destruct (products m) as [p |];
       [destruct (unique_products_count p <? 3)%nat |]);
      cbv iota; intros Hstage; apply trend_stage_result in Hstage;
      destruct Hstage as [-> | ->]; simpl; tauto.
  - destruct (historical m) as [h |]; [| symmetry; apply app_nil_r].
    change (match sales_growth_rate h with
            | Fin y => Rltb 0 y
            | PInf => true
            | _ => false
            end) with (flt (Fin 0) (sales_growth_rate h)).
    destruct (flt (Fin 0) (sales_growth_rate h) && flt (sales_growth_rate h) (Fin 5));
      [reflexivity | symmetry; apply app_nil_r].
Qed.

Lemma recommendations_return (m : Metrics) :
  match available_trends m with
  | Some t => exists v, t !! "sales_volatility" = Some (VFloat v)
  | None => True
  end ->
  exists recs, _generate_recommendations m = ret recs.
Proof.
  intros Hwf. unfold _generate_recommendations.
  destruct (available_trends m) as [t |].
  - destruct Hwf as [v Hv]. unfold getitem. rewrite Hv, bind_ret.
    cbn [gt_literal]. rewrite bind_ret, bind_ret. eexists. reflexivity.
  - rewrite bind_ret. eexists. reflexivity.
Qed.

Lemma snapshot_trends_well_formed (data : DataFrame) (log : list log_entry)
      (m : Metrics) :
  calculate_metrics (Some data) = (log, Return m) ->
  match available_trends m with
  | Some t => exists v, t !! "sales_volatility" = Some (VFloat v)
  | None => True
  end.
Proof.
  intros H. destruct (snoc_cases data) as [-> | (t & x & ->)].
  - pose proof (eq_trans (eq_sym calculate_metrics_nil) H) as E. discriminate E.
  - destruct (calculate_metrics_snoc t x) as (h & p & c & tr & _ & _ & _ & Ht & E).
    cbv zeta in E. pose proof (eq_trans (eq_sym E) H) as E'.
    injection E' as _ <-.
    unfold available_trends. cbn [trends].
    destruct (Nat.lt_ge_cases (length (app t [x])) 3) as [Hlen | Hlen].
    + rewrite (trends_short _ Hlen) in Ht. injection Ht as <-.
      rewrite lookup_singleton_eq. reflexivity.
    + destruct (trends_long _ Hlen) as (a & b & Ht').
      rewrite Ht' in Ht. injection Ht as <-.
      change (list_to_map _ !! "status") with (@None pyval).
      eexists. reflexivity.
Qed.

(** C9. A recommendation of category Growth Acceleration is in the list
    exactly when the historical sales growth rate is strictly between 0 and
    5; a rate of 0, of 5 or above 5 does not fire it, and it does not fire
    on the sample scenario.  On every snapshot of [calculate_metrics] the
    list is produced. *)
Theorem growth_acceleration_rule :
  (forall m log recs,
      _generate_recommendations m = (log, Return recs) ->
      (In "Growth Acceleration" (map category recs) <->
       exists h g,
         historical m = Some h /\ sales_growth_rate h = Fin g /\ 0 < g < 5)) /\
  (forall m log recs h g,
      _generate_recommendations m = (log, Return recs) ->
      historical m = Some h -> sales_growth_rate h = Fin g ->
      g <= 0 \/ 5 <= g ->
      ~ In "Growth Acceleration" (map category recs)) /\
  (forall data log m,
      calculate_metrics (Some data) = (log, Return m) ->
      exists recs, _generate_recommendations m = ret recs) /\
  (exists log m recs,
      calculate_metrics (Some sample_data) = (log, Return m) /\
      _generate_recommendations m = ret recs /\
      ~ In "Growth Acceleration" (map category recs)).
Proof.
  assert (Hiff : forall m log recs,
      _generate_recommendations m = (log, Return recs) ->
      (In "Growth Acceleration" (map category recs) <->
       exists h g,
         historical m = Some h /\ sales_growth_rate h = Fin g /\ 0 < g < 5)).
  { intros m log recs H.
    destruct (recommendations_shape m log recs H) as (base & Hbase & ->).
    rewrite List.map_app, List.in_app_iff.
    assert (Hnot : ~ In "Growth Acceleration" (map category base)).
    { rewrite List.in_map_iff. intros (r & Hr & Hin).
      rewrite List.Forall_forall in Hbase. exact (Hbase r Hin Hr). }
    destruct (historical m) as [h |].
    - destruct (flt (Fin 0) (sales_growth_rate h)
                && flt (sales_growth_rate h) (Fin 5)) eqn:Hb.
      + apply between_0_and_5 in Hb as (x & Hx & Hrange).
        split; [| intros _; right; left; reflexivity].
        intros _. exists h, x. auto.
      + split.
        * intros [Hin | []]. contradiction.
        * intros (h' & g & [= <-] & Hg & Hrange).
          assert (Ht : flt (Fin 0) (sales_growth_rate h)
                       && flt (sales_growth_rate h) (Fin 5) = true).
          { apply between_0_and_5. exists g. auto. }
          rewrite Hb in Ht. discriminate.
    - split.
      + intros [Hin | []]. contradiction.
      + intros (h & g & Hh & _). discriminate. }
  assert (Htotal : forall data log m,
      calculate_metrics (Some data) = (log, Return m) ->
      exists recs, _generate_recommendations m = ret recs).
  { intros data log m H. apply recommendations_return.
    apply (snapshot_trends_well_formed data log m H). }
  split; [exact Hiff |].
  split; [| split; [exact Htotal |]].
  - intros m log recs h g H Hh Hg Hout Hin.
    apply (Hiff m log recs H) in Hin as (h' & g' & Hh' & Hg' & Hrange).
    rewrite Hh in Hh'. injection Hh' as <-.
    rewrite Hg in Hg'. injection Hg' as <-. lra.
  - destruct (calculate_metrics_snoc (removelast sample_data)
                (mkWeek 55 61 20050 65 "Headphones" "Theta Solutions"))
      as (h & p & c & tr & Hh & _ & _ & _ & E).
    change (app (removelast sample_data) _) with sample_data in *.
    cbv zeta in E.
    destruct (Htotal _ _ _ E) as [recs Hrecs].
    do 3 eexists. split; [exact E |]. split; [exact Hrecs |].
    intros Hin. apply (Hiff _ _ _ Hrecs) in Hin as (h' & g & Hh' & Hg & Hrange).
    cbn [historical] in Hh'. injection Hh' as <-.
    destruct (historical_returns sample_data) as (gs & go & Hgs & _ & Hh2).
    rewrite Hh2 in Hh. injection Hh as <-. cbn [sales_growth_rate] in Hg.
    destruct sample_growth_rate as (g' & Hg' & Hbound).
    rewrite Hg' in Hgs. injection Hgs as <-.
    injection Hg as <-. lra.
Qed.

Lemma growth_acceleration_rule_witness :
  let m :=
    {| current_week := {| cw_sales := 100; cw_orders := 10;
                          cw_top_product := "Laptop"; cw_top_customer := "Alpha Corp";
                          cw_week_start := 13; cw_week_end := 19 |};
       previous_week := {| pw_sales := 100; pw_orders := 10 |};
       changes := {| sales_change := Fin 0; orders_change := Fin 0;
                     sales_absolute_change := 0; orders_absolute_change := 0 |};
       aov := {| aov_current := 10; aov_previous := 10; aov_change := Fin 0 |};
       historical :=
         Some {| total_sales := 200; total_orders := 20;
                 average_weekly_sales := Fin 100; average_weekly_orders := Fin 10;
                 max_weekly_sales := Fin 100; min_weekly_sales := Fin 100;
                 sales_std_dev := Fin 0; weeks_count := 2;
                 sales_growth_rate := Fin 3; orders_growth_rate := Fin 0 |};
       products := None;
       customers := None;
       trends := None |} in
  _generate_recommendations m = ret [growth_acceleration] /\
  In "Growth Acceleration" (map category [growth_acceleration]).
Proof.
  intros m.
  assert (E : _generate_recommendations m = ret [growth_acceleration]).
  { unfold _generate_recommendations, m. cbn. real_cases. reflexivity. }
  split; [exact E |].
  destruct growth_acceleration_rule as [H _].
  apply (H m [] [growth_acceleration] E).
  exists {| total_sales := 200; total_orders := 20;
            average_weekly_sales := Fin 100; average_weekly_orders := Fin 10;
            max_weekly_sales := Fin 100; min_weekly_sales := Fin 100;
            sales_std_dev := Fin 0; weeks_count := 2;
            sales_growth_rate := Fin 3; orders_growth_rate := Fin 0 |}, 3.
  repeat split; try reflexivity; lra.
Defined.

End Recommendations.

(** ** Validation *)

Section Validation.

Local Open Scope R_scope.

Lemma median_cases (s : list R) :
  median s = NaN \/ exists m, median s = Fin m.
Proof.
  unfold median. destruct (length s); [left; reflexivity | right].
  destruct (Nat.even (S n)); eexists; reflexivity.
Qed.

Lemma negative_check (data : DataFrame) :
  existsb (fun r => Rltb (Total_Sales r) 0) data
  || existsb (fun r => (Total_Orders r <? 0)%Z) data = true <->
  exists r, In r data /\ (Total_Sales r < 0 \/ (Total_Orders r < 0)%Z).
Proof.
  rewrite orb_true_iff, !List.existsb_exists. split.
  - intros [(r & Hin & H) | (r & Hin & H)]; exists r; split; trivial.
    + left. apply Rltb_true, H.
    + right. apply Z.ltb_lt, H.
  - intros (r & Hin & [H | H]); [left | right]; exists r; split; trivial.
    + apply Rltb_true, H.
    + apply Z.ltb_lt, H.
Qed.

Lemma high_sales_check (data : DataFrame) :
  existsb (fun r => fgt (Fin (Total_Sales r))
                        (fmul (median (map Total_Sales data)) (Fin 10))) data
  = true <->
  exists r med,
    In r data /\ median (map Total_Sales data) = Fin med /\
    med * 10 < Total_Sales r.
Proof.
  rewrite List.existsb_exists.
  destruct (median_cases (map Total_Sales data)) as [-> | [m ->]].
  - split.
    + intros (r & _ & H). discriminate H.
    + intros (r & med & _ & H & _). discriminate H.
  - split.
    + intros (r & Hin & H). exists r, m. repeat split; trivial.
      apply Rltb_true, H.
    + intros (r & med & Hin & [= <-] & H). exists r. split; trivial.
      apply Rltb_true, H.
Qed.

Lemma date_check (data : DataFrame) :
  negb (match List.filter (fun r => (Week_End r <=? Week_Start r)%Z) data with
        | [] => true
        | _ => false
        end) = true <->
  exists r, In r data /\ (Week_End r <= Week_Start r)%Z.
Proof.
  split.
  - destruct (List.filter _ data) as [| r rest] eqn:E; [discriminate |].
    intros _. exists r.
    assert (Hin : In r (List.filter (fun r => (Week_End r <=? Week_Start r)%Z) data)).
    { rewrite E. left. reflexivity. }
    apply List.filter_In in Hin as [Hin H]. split; trivial. apply Z.leb_le, H.
  - intros (r & Hin & H).
    assert (Hf : In r (List.filter (fun r => (Week_End r <=? Week_Start r)%Z) data)).
    { apply List.filter_In. split; trivial. apply Z.leb_le, H. }
    destruct (List.filter _ data); [contradiction | reflexivity].
Qed.

Lemma bool_of_prop (b : bool) (P : Prop) :
  (b = true <-> P) -> (P -> b = true) /\ (~ P -> b = false).
Proof.
  intros [H1 H2]. split; [exact H2 |].
  intros HnP. destruct b; [exfalso; auto | reflexivity].
Qed.

(** C6, as the code has it.  The checks run in this order: negative sales
    or orders raise; then sales above ten times the median are logged as a
    warning and never raise; then a week that does not end after it starts
    raises, with a message of its own. *)
Theorem validation_checks_in_order (data : DataFrame) :
  let negative :=
    exists r, In r data /\ (Total_Sales r < 0 \/ (Total_Orders r < 0)%Z) in
  let high :=
    exists r med,
      In r data /\ median (map Total_Sales data) = Fin med /\
      med * 10 < Total_Sales r in
  let inverted := exists r, In r data /\ (Week_End r <= Week_Start r)%Z in
  (negative ->
   _validate_data_integrity data = ([], Raise (ValueError negative_values_msg))) /\
  (~ negative -> high -> inverted ->
   _validate_data_integrity data =
   ([(WARNING, high_sales_msg)], Raise (ValueError date_order_msg))) /\
  (~ negative -> high -> ~ inverted ->
   _validate_data_integrity data = ([(WARNING, high_sales_msg)], Return tt)) /\
  (~ negative -> ~ high -> inverted ->
   _validate_data_integrity data = ([], Raise (ValueError date_order_msg))) /\
  (~ negative -> ~ high -> ~ inverted ->
   _validate_data_integrity data = ([], Return tt)) /\
  negative_values_msg <> date_order_msg.
Proof.
  intros negative high inverted.
  destruct (bool_of_prop _ _ (negative_check data)) as [Hn1 Hn0].
  destruct (bool_of_prop _ _ (high_sales_check data)) as [Hh1 Hh0].
  destruct (bool_of_prop _ _ (date_check data)) as [Hd1 Hd0].
  unfold _validate_data_integrity.
  repeat split.
  - intros H. rewrite (Hn1 H). reflexivity.
  - intros Hn Hh Hd. rewrite (Hn0 Hn), (Hh1 Hh), (Hd1 Hd). reflexivity.
  - intros Hn Hh Hd. rewrite (Hn0 Hn), (Hh1 Hh), (Hd0 Hd). reflexivity.
  - intros Hn Hh Hd. rewrite (Hn0 Hn), (Hh0 Hh), (Hd1 Hd). reflexivity.
  - intros Hn Hh Hd. rewrite (Hn0 Hn), (Hh0 Hh), (Hd0 Hd). reflexivity.
  - discriminate.
Qed.

End Validation.

Section ValidationExample.

Local Open Scope R_scope.

Lemma example_median :
  median (map Total_Sales high_sales_and_inverted_week) = Fin 100.
Proof.
  unfold median, sort_values, high_sales_and_inverted_week.
  cbn [map Total_Sales length Nat.even Nat.div Nat.divmod fst Nat.sub
       fold_right insert_sorted].
  real_cases. cbn [insert_sorted]. real_cases. reflexivity.
Qed.

Lemma example_not_negative :
  ~ exists r, In r high_sales_and_inverted_week /\
              (Total_Sales r < 0 \/ (Total_Orders r < 0)%Z).
Proof.
  intros (r & Hin & H). simpl in Hin.
  destruct Hin as [<- | [<- | [<- | []]]]; simpl in H; destruct H; lra || lia.
Qed.

Lemma example_high :
  exists r med,
    In r high_sales_and_inverted_week /\
    median (map Total_Sales high_sales_and_inverted_week) = Fin med /\
    med * 10 < Total_Sales r.
Proof.
  exists (mkWeek 20 20 5000 5 "Monitor" "Gamma LLC"), 100.
  split; [simpl; auto |]. split; [apply example_median | simpl; lra].
Qed.

Lemma example_inverted :
  exists r, In r high_sales_and_inverted_week /\ (Week_End r <= Week_Start r)%Z.
Proof.
  exists (mkWeek 20 20 5000 5 "Monitor" "Gamma LLC").
  split; [simpl; auto | simpl; lia].
Qed.

Lemma validation_checks_in_order_witness :
  _validate_data_integrity high_sales_and_inverted_week =
  ([(WARNING, high_sales_msg)], Raise (ValueError date_order_msg)).
Proof.
  destruct (validation_checks_in_order high_sales_and_inverted_week)
    as (_ & H & _).
  apply H.
  - exact example_not_negative.
  - exact example_high.
  - exact example_inverted.
Defined.

(** C6, as the specification lists the checks (dates before the soft
    check): on these three weeks the code logs the warning and then raises
    for the dates, whereas in the listed order the date error would come
    first and no warning would be logged. *)
Lemma validation_listed_order_counterexample :
  _validate_data_integrity high_sales_and_inverted_week =
    ([(WARNING, high_sales_msg)], Raise (ValueError date_order_msg)) /\
  validate_in_listed_order high_sales_and_inverted_week =
    ([], Raise (ValueError date_order_msg)) /\
  _validate_data_integrity high_sales_and_inverted_week <>
  validate_in_listed_order high_sales_and_inverted_week.
Proof.
  assert (Hcode : _validate_data_integrity high_sales_and_inverted_week =
                  ([(WARNING, high_sales_msg)], Raise (ValueError date_order_msg))).
  { unfold _validate_data_integrity.
    destruct (bool_of_prop _ _ (negative_check high_sales_and_inverted_week))
      as [_ ->]; [| exact example_not_negative].
    destruct (bool_of_prop _ _ (high_sales_check high_sales_and_inverted_week))
      as [-> _]; [| exact example_high].
    reflexivity. }
  assert (Hlisted : validate_in_listed_order high_sales_and_inverted_week =
                    ([], Raise (ValueError date_order_msg))).
  { unfold validate_in_listed_order.
    destruct (bool_of_prop _ _ (negative_check high_sales_and_inverted_week))
      as [_ ->]; [| exact example_not_negative].
    reflexivity. }
  split; [exact Hcode |]. split; [exact Hlisted |].
  rewrite Hcode, Hlisted. discriminate.
Qed.

End ValidationExample.

(** ** Frequency analysis *)

Section Frequency.

Lemma mem_label_In (x : string) (s : list string) :
  mem_label x s = true <-> In x s.
Proof.
  induction s as [| y t IH]; simpl.
  - split; [discriminate | contradiction].
  - rewrite orb_true_iff, IH, String.eqb_eq. split; intros [H | H]; auto.
Qed.

Lemma unique_acc_In (s seen : list string) (y : string) :
  In y (unique_acc seen s) <-> In y s /\ ~ In y seen.
Proof.
  revert seen. induction s as [| x t IH]; intros seen; simpl.
  - tauto.
  - destruct (mem_label x seen) eqn:M.
    + apply mem_label_In in M. rewrite IH. split.
      * intros [H1 H2]. auto.
      * intros [[-> | H1] H2]; [contradiction | auto].
    + assert (Hx : ~ In x seen).
      { intros H. apply mem_label_In in H. congruence. }
      simpl. rewrite IH. simpl. split.
      * intros [<- | [H1 H2]]; [auto | split; [auto | tauto]].
      * intros [[<- | H1] H2]; [auto |].
        destruct (string_dec x y) as [-> | Hne]; [auto | right].
        split; [exact H1 | intros [E | E]; auto].
Qed.

Lemma first_index_other (a x : string) (t : list string) :
  a <> x -> first_index a (x :: t) = S (first_index a t).
Proof.
  intros H. simpl. apply String.eqb_neq in H. rewrite H. reflexivity.
Qed.

(** [unique] lists the labels in the order of their first occurrences. *)
Lemma unique_acc_order (s seen k1 k2 : list string) (a b : string) :
  unique_acc seen s = app k1 (a :: k2) -> In b k2 ->
  first_index a s < first_index b s.
Proof.
  revert seen k1. induction s as [| x t IH]; intros seen k1 H Hb.
  - simpl in H. destruct k1; discriminate.
  - simpl in H. destruct (mem_label x seen) eqn:M.
    + apply mem_label_In in M.
      assert (Ha : In a (unique_acc seen t)).
      { rewrite H. apply List.in_app_iff. right. left. reflexivity. }
      assert (Hb' : In b (unique_acc seen t)).
      { rewrite H. apply List.in_app_iff. right. right. exact Hb. }
      apply unique_acc_In in Ha as [_ Ha]. apply unique_acc_In in Hb' as [_ Hb'].
      rewrite !first_index_other by (intros ->; contradiction).
      apply -> Nat.succ_lt_mono. exact (IH seen k1 H Hb).
    + destruct k1 as [| y k1'].
      * simpl in H. injection H as -> Hk2.
        assert (Hb' : In b (unique_acc (a :: seen) t)) by (rewrite Hk2; exact Hb).
        apply unique_acc_In in Hb' as [_ Hb'].
        rewrite (first_index_other b a) by (intros ->; apply Hb'; left; reflexivity).
        simpl. rewrite String.eqb_refl. lia.
      * simpl in H. injection H as <- Hrest.
        assert (Ha : In a (unique_acc (x :: seen) t)).
        { rewrite Hrest. apply List.in_app_iff. right. left. reflexivity. }
        assert (Hb' : In b (unique_acc (x :: seen) t)).
        { rewrite Hrest. apply List.in_app_iff. right. right. exact Hb. }
        apply unique_acc_In in Ha as [_ Ha]. apply unique_acc_In in Hb' as [_ Hb'].
        rewrite (first_index_other a x) by (intros ->; apply Ha; left; reflexivity).
        rewrite (first_index_other b x) by (intros ->; apply Hb'; left; reflexivity).
        apply -> Nat.succ_lt_mono. exact (IH (x :: seen) k1' Hrest Hb).
Qed.

Lemma count_label_absent (k : string) (s : list string) :
  ~ In k s -> count_label k s = 0.
Proof.
  induction s as [| y t IH]; simpl; [reflexivity |].
  intros H. destruct (String.eqb_spec k y) as [-> | Hne].
  - exfalso. apply H. left. reflexivity.
  - apply IH. intros Hin. apply H. right. exact Hin.
Qed.

(** The head of the stable descending sort is the first entry that carries
    the largest count. *)
Lemma sort_by_count_head (l : list (string * nat)) :
  match sort_by_count l with
  | [] => l = []
  | e :: _ =>
      exists l1 l2,
        l = app l1 (e :: l2) /\
        (forall f, In f l1 -> snd f < snd e) /\
        (forall f, In f l2 -> snd f <= snd e)
  end.
Proof.
  induction l as [| a l' IH]; [reflexivity |].
  unfold sort_by_count in *. simpl.
  destruct (fold_right insert_by_count [] l') as [| f rest].
  - subst l'. simpl. exists [], []. repeat split; intros g [].
  - destruct IH as (l1 & l2 & -> & H1 & H2). simpl.
    destruct (Nat.leb_spec (snd f) (snd a)) as [Hle | Hgt].
    + exists [], (app l1 (f :: l2)). split; [reflexivity |].
      split; [intros g [] |].
      intros g Hg. apply List.in_app_iff in Hg as [Hg | [<- | Hg]].
      * specialize (H1 g Hg). lia.
      * exact Hle.
      * specialize (H2 g Hg). lia.
    + exists (a :: l1), l2. split; [reflexivity |].
      split; [| exact H2].
      intros g [<- | Hg]; [exact Hgt | exact (H1 g Hg)].
Qed.

Lemma value_counts_top (s : list string) :
  s <> [] -> most_frequent_first s (most_frequent (value_counts s)).
Proof.
  intros Hne. unfold value_counts, most_frequent.
  pose proof (sort_by_count_head
                (map (fun x => (x, count_label x s)) (unique s))) as Hhead.
  destruct (sort_by_count _) as [| [top n] rest].
  - exfalso. apply List.map_eq_nil in Hhead.
    destruct s as [| x t]; [congruence |].
    assert (Hx : In x (unique (x :: t))).
    { apply unique_acc_In. split; [left; reflexivity | intros []]. }
    rewrite Hhead in Hx. contradiction.
  - destruct Hhead as (l1 & l2 & Hsplit & Hbefore & Hafter).
    apply List.map_eq_app in Hsplit as (k1 & krest & Hkeys & Hl1 & Hrest).
    apply List.map_eq_cons in Hrest as (top' & k2 & -> & [= -> <-] & Hl2).
    subst l1 l2. cbn [snd] in *.
    assert (Hcases : forall k, In k s ->
               (In k k1 /\ count_label k s < count_label top s) \/
               k = top \/
               (In k k2 /\ count_label k s <= count_label top s)).
    { intros k Hk.
      assert (Hin : In k (unique s)).
      { apply unique_acc_In. split; [exact Hk | intros []]. }
      rewrite Hkeys in Hin. apply List.in_app_iff in Hin as [Hin | [-> | Hin]].
      - left. split; [exact Hin |].
        apply (Hbefore (k, count_label k s)).
        apply List.in_map_iff. exists k. auto.
      - right. left. reflexivity.
      - right. right. split; [exact Hin |].
        apply (Hafter (k, count_label k s)).
        apply List.in_map_iff. exists k. auto. }
    repeat split.
    + assert (Hin : In top (unique s)).
      { rewrite Hkeys. apply List.in_app_iff. right. left. reflexivity. }
      apply unique_acc_In in Hin as [Hin _]. exact Hin.
    + intros k. destruct (in_dec string_dec k s) as [Hk | Hk].
      * destruct (Hcases k Hk) as [[_ H] | [-> | [_ H]]]; lia.
      * rewrite (count_label_absent k s Hk). lia.
    + intros k Hk Heq.
      destruct (Hcases k Hk) as [[_ H] | [-> | [Hin _]]]; [lia | lia |].
      apply Nat.lt_le_incl. apply (unique_acc_order s [] k1 k2 top k Hkeys Hin).
Qed.

(** C2. On a non-empty dataset the most frequent product and the most
    frequent customer occur in the dataset, no label occurs more often, and
    among the labels that occur as often each is the first to appear; two
    computations on the same dataset give the same labels. *)
Theorem most_frequent_labels (data : DataFrame) :
  data <> [] ->
  exists p c,
    _analyze_products data = ret p /\
    _analyze_customers data = ret c /\
    most_frequent_first (map Top_Product data) (most_frequent_top_product p) /\
    most_frequent_first (map Top_Customer data) (most_frequent_top_customer c) /\
    (forall log' p', _analyze_products data = (log', Return p') ->
                     most_frequent_top_product p' = most_frequent_top_product p) /\
    (forall log' c', _analyze_customers data = (log', Return c') ->
                     most_frequent_top_customer c' = most_frequent_top_customer c).
Proof.
  intros Hne. destruct (nonempty_snoc data Hne) as (t & x & ->).
  do 2 eexists.
  split; [apply analyze_products_snoc |].
  split; [apply analyze_customers_snoc |].
  cbn [most_frequent_top_product most_frequent_top_customer].
  assert (Hmap : forall f : WeeklyRecord -> string, map f (app t [x]) <> []).
  { intros f E. apply List.map_eq_nil in E. destruct t; discriminate. }
  split; [apply value_counts_top, Hmap |].
  split; [apply value_counts_top, Hmap |].
  split.
  - intros log' p' H. rewrite analyze_products_snoc in H.
    injection H as _ <-. reflexivity.
  - intros log' c' H. rewrite analyze_customers_snoc in H.
    injection H as _ <-. reflexivity.
Qed.

Lemma most_frequent_labels_witness :
  exists p c,
    _analyze_products tied_labels_data = ret p /\
    _analyze_customers tied_labels_data = ret c /\
    most_frequent_top_product p = "Tablet" /\
    most_frequent_top_customer c = "Gamma LLC" /\
    most_frequent_first (map Top_Product tied_labels_data) "Tablet" /\
    most_frequent_first (map Top_Customer tied_labels_data) "Gamma LLC".
Proof.
  assert (Hne : tied_labels_data <> []) by discriminate.
  destruct (most_frequent_labels tied_labels_data Hne)
    as (p & c & Hp & Hc & Hfp & Hfc & _).
  assert (Ep : most_frequent_top_product p = "Tablet").
  { change (_analyze_products tied_labels_data)
      with (ret {| most_frequent_top_product := "Tablet";
                   product_frequency := [("Tablet", 2); ("Laptop", 2)];
                   unique_products_count := 2;
                   current_top_product := "Tablet" |}) in Hp.
    injection Hp as <-. reflexivity. }
  assert (Ec : most_frequent_top_customer c = "Gamma LLC").
  { change (_analyze_customers tied_labels_data)
      with (ret {| most_frequent_top_customer := "Gamma LLC";
                   customer_frequency := [("Gamma LLC", 2); ("Alpha Corp", 2)];
                   unique_customers_count := 2;
                   current_top_customer := "Gamma LLC" |}) in Hc.
    injection Hc as <-. reflexivity. }
  exists p, c. rewrite Ep in Hfp. rewrite Ec in Hfc. auto 10.
Defined.

End Frequency.

(** ** The sample scenario *)

Section SampleScenario.

Local Open Scope R_scope.

(** The eight sample weeks: week 8 against week 7, the average order value,
    the classification of the sales change and the growth rate. *)
Example sample_scenario :
  exists log m h g,
    calculate_metrics (Some sample_data) = (log, Return m) /\
    sales_change (changes m) = Fin ((20050 - 19000) / 19000 * 100) /\
    orders_change (changes m) = Fin ((65 - 62) / 62 * 100) /\
    aov_current (aov m) = 20050 / 65 /\
    _get_status_level (sales_change (changes m)) = "good" /\
    _get_performance_qualifier (sales_change (changes m)) = "moderately" /\
    historical m = Some h /\
    sales_growth_rate h = Fin g /\
    6.9 < g < 7.
Proof.
  destruct (calculate_metrics_snoc (removelast sample_data)
              (mkWeek 55 61 20050 65 "Headphones" "Theta Solutions"))
    as (h & p & c & tr & Hh & _ & _ & _ & E).
  change (app (removelast sample_data) _) with sample_data in *.
  cbv zeta in E.
  destruct (historical_returns sample_data) as (gs & go & Hgs & _ & Hh2).
  rewrite Hh2 in Hh. injection Hh as <-.
  destruct sample_growth_rate as (g & Hg & Hbound).
  rewrite Hg in Hgs. injection Hgs as <-.
  exists [(INFO, "Metrics calculated successfully")]. eexists. eexists. exists g.
  split; [exact E |].
  cbn [changes sales_change orders_change aov aov_current historical
       sales_growth_rate removelast sample_data List.last
       Total_Sales Total_Orders].
  assert (Hs : _calculate_percentage_change 20050 19000
               = (20050 - 19000) / 19000 * 100).
  { apply percentage_change_formula. lra. }
  assert (Ho : _calculate_percentage_change 65 62 = (65 - 62) / 62 * 100).
  { apply percentage_change_formula. lra. }
  rewrite Hs, Ho.
  repeat split; try reflexivity; try lra.
  - unfold _get_status_level, fge, fle. real_cases. reflexivity.
  - unfold _get_performance_qualifier, fge, fle, fabs.
    rewrite Rabs_pos_eq by lra. real_cases. reflexivity.
Qed.

End SampleScenario.

(** * Further properties of the metrics engine *)

Section MetricsReturn.

Local Open Scope R_scope.



End MetricsReturn.

Section Aggregates.

Local Open Scope R_scope.

Lemma fold_left_Rmin_spec (t : list R) (x : R) :
  In (fold_left Rmin t x) (x :: t) /\
  (forall y, In y (x :: t) -> fold_left Rmin t x <= y).
Proof.
  revert x. induction t as [| z t IH]; intros x; simpl.
  - split; [auto | intros y [<- | []]; lra].
  - destruct (IH (Rmin x z)) as [Hin Hle]. split.
    + simpl in Hin. destruct Hin as [Hin | Hin]; [| auto].
      rewrite <- Hin. unfold Rmin. destruct (Rle_dec x z); auto.
    + intros y Hy.
      assert (Hm : fold_left Rmin t (Rmin x z) <= Rmin x z).
      { apply Hle. left. reflexivity. }
      destruct Hy as [<- | [<- | Hy]].
      * pose proof (Rmin_l x z). lra.
      * pose proof (Rmin_r x z). lra.
      * apply Hle. right. exact Hy.
Qed.

Lemma fold_left_Rmax_spec (t : list R) (x : R) :
  In (fold_left Rmax t x) (x :: t) /\
  (forall y, In y (x :: t) -> y <= fold_left Rmax t x).
Proof.
  revert x. induction t as [| z t IH]; intros x; simpl.
  - split; [auto | intros y [<- | []]; lra].
  - destruct (IH (Rmax x z)) as [Hin Hle]. split.
    + simpl in Hin. destruct Hin as [Hin | Hin]; [| auto].
      rewrite <- Hin. unfold Rmax. destruct (Rle_dec x z); auto.
    + intros y Hy.
      assert (Hm : Rmax x z <= fold_left Rmax t (Rmax x z)).
      { apply Hle. left. reflexivity. }
      destruct Hy as [<- | [<- | Hy]].
      * pose proof (Rmax_l x z). lra.
      * pose proof (Rmax_r x z). lra.
      * apply Hle. right. exact Hy.
Qed.

Lemma sum_lower_bound (lo : R) (s : list R) :
  (forall y, In y s -> lo <= y) -> INR (length s) * lo <= sum s.
Proof.
  induction s as [| x t IH]; intros H.
  - simpl. lra.
  - change (sum (x :: t)) with (x + sum t).
    change (length (x :: t)) with (S (length t)). rewrite S_INR.
    assert (Hx : lo <= x) by (apply H; left; reflexivity).
    assert (Ht : INR (length t) * lo <= sum t).
    { apply IH. intros y Hy. apply H. right. exact Hy. }
    lra.
Qed.

Lemma sum_upper_bound (hi : R) (s : list R) :
  (forall y, In y s -> y <= hi) -> sum s <= INR (length s) * hi.
Proof.
  induction s as [| x t IH]; intros H.
  - simpl. lra.
  - change (sum (x :: t)) with (x + sum t).
    change (length (x :: t)) with (S (length t)). rewrite S_INR.
    assert (Hx : x <= hi) by (apply H; left; reflexivity).
    assert (Ht : sum t <= INR (length t) * hi).
    { apply IH. intros y Hy. apply H. right. exact Hy. }
    lra.
Qed.

(** On a dataset with at least one week the historical minimum, average
    and maximum of sales are numbers, the minimum and the maximum are the
    sales of some week, the average lies between them, and the average
    times the number of weeks is the total. *)
Theorem historical_aggregates_ordered (data : DataFrame) :
  data <> [] ->
  exists h lo avg hi,
    _calculate_historical_metrics data = ret h /\
    min_weekly_sales h = Fin lo /\
    average_weekly_sales h = Fin avg /\
    max_weekly_sales h = Fin hi /\
    lo <= avg <= hi /\
    In lo (map Total_Sales data) /\
    In hi (map Total_Sales data) /\
    avg * INR (weeks_count h) = total_sales h.
Proof.
  intros Hne.
  destruct (historical_returns data) as (gs & go & _ & _ & Hh).
  destruct data as [| r rest]; [congruence |].
  set (s := map Total_Sales (r :: rest)) in *.
  assert (Hs : s = Total_Sales r :: map Total_Sales rest) by reflexivity.
  destruct (fold_left_Rmin_spec (map Total_Sales rest) (Total_Sales r)) as [Hmin_in Hmin].
  destruct (fold_left_Rmax_spec (map Total_Sales rest) (Total_Sales r)) as [Hmax_in Hmax].
  assert (Hn : 0 < INR (length s)).
  { rewrite Hs. apply lt_0_INR. simpl. lia. }
  eexists _, (fold_left Rmin (map Total_Sales rest) (Total_Sales r)),
             (sum s / INR (length s)),
             (fold_left Rmax (map Total_Sales rest) (Total_Sales r)).
  split; [exact Hh |]. cbn [min_weekly_sales average_weekly_sales max_weekly_sales
                           weeks_count total_sales].
  split; [reflexivity |]. split; [reflexivity |]. split; [reflexivity |].
  rewrite <- Hs in Hmin_in, Hmin, Hmax_in, Hmax.
  pose proof (sum_lower_bound _ s Hmin) as Hlo.
  pose proof (sum_upper_bound _ s Hmax) as Hhi.
  split; [split |].
  - apply Rmult_le_reg_l with (r := INR (length s)); [exact Hn |].
    replace (INR (length s) * (sum s / INR (length s))) with (sum s)
      by (field; lra).
    exact Hlo.
  - apply Rmult_le_reg_l with (r := INR (length s)); [exact Hn |].
    replace (INR (length s) * (sum s / INR (length s))) with (sum s)
      by (field; lra).
    exact Hhi.
  - split; [exact Hmin_in |]. split; [exact Hmax_in |].
    replace (length (r :: rest)) with (length s) by (unfold s; apply length_map).
    field. lra.
Qed.

Lemma historical_aggregates_ordered_witness :
  exists h lo avg hi,
    _calculate_historical_metrics sample_data = ret h /\
    min_weekly_sales h = Fin lo /\
    average_weekly_sales h = Fin avg /\
    max_weekly_sales h = Fin hi /\
    lo <= avg <= hi /\
    In lo (map Total_Sales sample_data) /\
    In hi (map Total_Sales sample_data) /\
    avg * INR (weeks_count h) = total_sales h.
Proof.
  apply historical_aggregates_ordered. discriminate.
Defined.

End Aggregates.

Section GrowthFacts.

Local Open Scope R_scope.








End GrowthFacts.

Section ChangeFacts.

Local Open Scope R_scope.

(** Sales are orders times average order value, and so are their growth
    factors: when the previous week has orders and sales and the current
    week has orders, [1 + sales_change/100] is the product of
    [1 + orders_change/100] and [1 + aov_change/100]. *)
Theorem change_factors_multiply (t : DataFrame) (x : WeeklyRecord) :
  let p := List.last t x in
  (0 < Total_Orders x)%Z -> (0 < Total_Orders p)%Z -> 0 < Total_Sales p ->
  exists log m s o a,
    calculate_metrics (Some (app t [x])) = (log, Return m) /\
    sales_change (changes m) = Fin s /\
    orders_change (changes m) = Fin o /\
    aov_change (aov m) = Fin a /\
    1 + s / 100 = (1 + o / 100) * (1 + a / 100).
Proof.
  intros p Hox Hop Hsp.
  destruct (calculate_metrics_snoc t x) as (h & pr & c & tr & _ & _ & _ & _ & E).
  cbv zeta in E. fold p in E.
  do 5 eexists. split; [exact E |].
  cbn [changes sales_change orders_change aov aov_change].
  split; [reflexivity |]. split; [reflexivity |]. split; [reflexivity |].
  destruct (Z.ltb_spec 0 (Total_Orders x)); [| lia].
  destruct (Z.ltb_spec 0 (Total_Orders p)); [| lia].
  apply IZR_lt in Hox, Hop.
  assert (Hprev : Total_Sales p / IZR (Total_Orders p) <> 0).
  { intros Hzero. apply (f_equal (fun z => z * IZR (Total_Orders p))) in Hzero.
    unfold Rdiv in Hzero.
    rewrite Rmult_assoc, Rinv_l, Rmult_1_r, Rmult_0_l in Hzero by lra. lra. }
  rewrite !percentage_change_formula by lra.
  field. repeat split; lra.
Qed.

Lemma change_factors_multiply_witness :
  exists log m s o a,
    calculate_metrics (Some sample_data) = (log, Return m) /\
    sales_change (changes m) = Fin s /\
    orders_change (changes m) = Fin o /\
    aov_change (aov m) = Fin a /\
    1 + s / 100 = (1 + o / 100) * (1 + a / 100).
Proof.
  apply (change_factors_multiply (removelast sample_data)
           (mkWeek 55 61 20050 65 "Headphones" "Theta Solutions")).
  - simpl. lia.
  - simpl. lia.
  - simpl. lra.
Defined.

End ChangeFacts.

Section ValidationFacts.

Local Open Scope R_scope.



End ValidationFacts.

Section ChartFacts.

Import ChartFeed.
Local Open Scope R_scope.



End ChartFacts.

Section ValidatedData.

Local Open Scope R_scope.





End ValidatedData.

(** * Further properties of the trends *)

Section TrendFacts.

Local Open Scope R_scope.

Lemma sum_app (l1 l2 : list R) : sum (app l1 l2) = sum l1 + sum l2.
Proof.
  induction l1 as [| x t IH]; simpl; [lra |].
  change (fold_right Rplus 0 (app t l2)) with (sum (app t l2)).
  rewrite IH. unfold sum. lra.
Qed.

Lemma sum_map_affine (a b : R) (l : list R) :
  sum (map (fun x => a + b * x) l) = INR (length l) * a + b * sum l.
Proof.
  induction l as [| x t IH].
  - simpl. lra.
  - change (sum (map (fun x => a + b * x) (x :: t)))
      with (a + b * x + sum (map (fun x => a + b * x) t)).
    change (sum (x :: t)) with (x + sum t).
    change (length (x :: t)) with (S (length t)).
    rewrite IH, S_INR. lra.
Qed.

Lemma sum_map_scaled (b : R) (f g : R -> R) (l : list R) :
  (forall x, f x = b * g x) -> sum (map f l) = b * sum (map g l).
Proof.
  intros H. induction l as [| x t IH].
  - simpl. lra.
  - change (sum (map f (x :: t))) with (f x + sum (map f t)).
    change (sum (map g (x :: t))) with (g x + sum (map g t)).
    rewrite IH, H. lra.
Qed.

Lemma combine_map_self (f : R -> R) (l : list R) :
  combine l (map f l) = map (fun x => (x, f x)) l.
Proof.
  induction l as [| x t IH]; simpl; [reflexivity | rewrite IH; reflexivity].
Qed.

(** The least-squares slope of the exact line [a + b * i] is [b]. *)
Lemma polyfit_slope_of_line (a b : R) (n : nat) :
  (2 <= n)%nat ->
  polyfit_slope (map (fun i => a + b * INR i) (seq 0 n)) = b.
Proof.
  intros Hn. unfold polyfit_slope.
  rewrite length_map, length_seq.
  set (xs := map INR (seq 0 n)).
  assert (Hy : map (fun i => a + b * INR i) (seq 0 n)
               = map (fun x => a + b * x) xs).
  { unfold xs. rewrite List.map_map. reflexivity. }
  rewrite Hy, combine_map_self, List.map_map. cbn [fst snd].
  assert (Hlen : length xs = n) by (unfold xs; rewrite length_map; apply length_seq).
  assert (Hpos : 0 < INR n) by (apply lt_0_INR; lia).
  set (xbar := sum xs / INR n).
  assert (Hybar : sum (map (fun x => a + b * x) xs) / INR n = a + b * xbar).
  { rewrite sum_map_affine, Hlen. unfold xbar. field. lra. }
  rewrite Hybar.
  rewrite (sum_map_scaled b _ (fun x => (x - xbar) * (x - xbar))) by (intros; ring).
  pose proof (polyfit_denominator_pos n xbar Hn) as Hden. fold xs in Hden.
  field. lra.
Qed.

Lemma trends_long_values (data : DataFrame) :
  (3 <= length data)%nat ->
  exists ma_sales ma_orders,
    iloc_neg (rolling3_mean (column data Total_Sales_column)) 1 = ret ma_sales /\
    iloc_neg (rolling3_mean (column data Total_Orders_column)) 1 = ret ma_orders /\
    _calculate_trends data =
    ret (list_to_map
           [ ("sales_trend_slope",
              VFloat (Fin (polyfit_slope (column data Total_Sales_column))));
             ("orders_trend_slope",
              VFloat (Fin (polyfit_slope (column data Total_Orders_column))));
             ("sales_trend_direction",
              VStr (trend_direction
                      (polyfit_slope (column data Total_Sales_column))));
             ("orders_trend_direction",
              VStr (trend_direction
                      (polyfit_slope (column data Total_Orders_column))));
             ("sales_volatility",
              VFloat (fdiv (std (column data Total_Sales_column))
                           (mean (column data Total_Sales_column))));
             ("orders_volatility",
              VFloat (fdiv (std (column data Total_Orders_column))
                           (mean (column data Total_Orders_column))));
             ("latest_ma3_sales", float_or_zero ma_sales);
             ("latest_ma3_orders", float_or_zero ma_orders) ]).
Proof.
  intros H. unfold _calculate_trends.
  destruct (Nat.ltb_spec (length data) 3); [lia |].
  destruct (rolling3_last_returns (column data Total_Sales_column)) as [a Ha].
  { rewrite column_length. exact H. }
  destruct (rolling3_last_returns (column data Total_Orders_column)) as [b Hb].
  { rewrite column_length. exact H. }
  exists a, b. split; [exact Ha |]. split; [exact Hb |].
  rewrite Ha, bind_ret, Hb, bind_ret. reflexivity.
Qed.

(** When the sales (or the orders) lie exactly on a line [a + b * i] over
    three weeks or more, the reported slope is [b] and the direction is
    increasing, decreasing or stable as [b] is positive, negative or zero. *)
Theorem trend_of_linear_series (data : DataFrame) (c : numeric_column) (a b : R) :
  (3 <= length data)%nat ->
  column data c = map (fun i => a + b * INR i) (seq 0 (length data)) ->
  exists tr,
    _calculate_trends data = ret tr /\
    tr !! (match c with
           | Total_Sales_column => "sales_trend_slope"
           | Total_Orders_column => "orders_trend_slope"
           end) = Some (VFloat (Fin b)) /\
    exists direction,
      tr !! (match c with
             | Total_Sales_column => "sales_trend_direction"
             | Total_Orders_column => "orders_trend_direction"
             end) = Some (VStr direction) /\
      (0 < b -> direction = "increasing") /\
      (b < 0 -> direction = "decreasing") /\
      (b = 0 -> direction = "stable").
Proof.
  intros Hlen Hcol.
  destruct (trends_long data Hlen) as (ma & mo & E).
  eexists. split; [exact E |].
  assert (Hslope : polyfit_slope (column data c) = b).
  { rewrite Hcol. apply polyfit_slope_of_line. lia. }
  assert (Hdir : (0 < b -> trend_direction b = "increasing") /\
                 (b < 0 -> trend_direction b = "decreasing") /\
                 (b = 0 -> trend_direction b = "stable")).
  { unfold trend_direction. repeat split; intros H; real_cases; reflexivity. }
  destruct c; rewrite Hslope; (split; [reflexivity |]);
    exists (trend_direction b); (split; [reflexivity | exact Hdir]).
Qed.

Lemma trend_of_linear_series_witness :
  let data :=
    [ mkWeek  6 12 100 10 "Laptop" "Alpha Corp";
      mkWeek 13 19 150 12 "Laptop" "Alpha Corp";
      mkWeek 20 26 200 14 "Tablet" "Beta Ltd" ] in
  exists tr,
    _calculate_trends data = ret tr /\
    tr !! "sales_trend_slope" = Some (VFloat (Fin 50)) /\
    tr !! "sales_trend_direction" = Some (VStr "increasing").
Proof.
  intros data.
  destruct (trend_of_linear_series data Total_Sales_column 100 50)
    as (tr & E & Hs & d & Hd & Hup & _).
  - simpl. lia.
  - simpl. repeat f_equal; lra.
  - exists tr. split; [exact E |]. split; [exact Hs |].
    cbv iota in Hd. rewrite Hd, Hup by lra. reflexivity.
Defined.

End TrendFacts.

Section MovingAverage.

Local Open Scope R_scope.

Lemma rolling3_last (pre : list R) (x y z : R) :
  iloc_neg (rolling3_mean (app pre [x; y; z])) 1 = ret (Fin ((x + y + z) / 3)).
Proof.
  unfold rolling3_mean. rewrite length_app. cbn [length].
  replace (length pre + 3)%nat with (S (length pre + 2)) by lia.
  rewrite seq_S, List.map_app. cbn [map Nat.add].
  rewrite iloc_neg_last.
  destruct (Nat.ltb_spec (length pre + 2) 2); [lia |].
  replace (length pre + 2 - 2)%nat with (length pre) by lia.
  replace (length pre + 2 - 1)%nat with (S (length pre)) by lia.
  replace (length pre + 2)%nat with (S (S (length pre))) by lia.
  rewrite !app_nth2 by lia.
  rewrite Nat.sub_diag.
  replace (S (length pre) - length pre)%nat with 1%nat by lia.
  replace (S (S (length pre)) - length pre)%nat with 2%nat by lia.
  reflexivity.
Qed.

(** Whenever the trends are computed, the latest three-week moving average
    of sales is the mean of the last three weeks; the fallback 0 of the
    source for an undefined average is never what is reported. *)
Theorem latest_moving_average (data : DataFrame) (pre : list R) (x y z : R) :
  column data Total_Sales_column = app pre [x; y; z] ->
  exists tr,
    _calculate_trends data = ret tr /\
    tr !! "latest_ma3_sales" = Some (VFloat (Fin ((x + y + z) / 3))).
Proof.
  intros Hcol.
  assert (Hlen : (3 <= length data)%nat).
  { rewrite <- (column_length data Total_Sales_column), Hcol, length_app.
    simpl. lia. }
  destruct (trends_long_values data Hlen) as (ma & mo & Hma & _ & E).
  rewrite Hcol, rolling3_last in Hma. injection Hma as <-.
  eexists. split; [exact E |]. reflexivity.
Qed.

Lemma latest_moving_average_witness :
  exists tr,
    _calculate_trends sample_data = ret tr /\
    tr !! "latest_ma3_sales" = Some (VFloat (Fin ((17500 + 19000 + 20050) / 3))).
Proof.
  apply (latest_moving_average sample_data [12500; 15800; 14200; 16950; 18100]).
  reflexivity.
Defined.

End MovingAverage.

Section Volatility.

Local Open Scope R_scope.

Lemma sum_nonneg (s : list R) : (forall v, In v s -> 0 <= v) -> 0 <= sum s.
Proof.
  induction s as [| x t IH]; intros H; [simpl; lra |].
  change (sum (x :: t)) with (x + sum t).
  assert (0 <= x) by (apply H; left; reflexivity).
  assert (0 <= sum t) by (apply IH; intros v Hv; apply H; right; exact Hv).
  lra.
Qed.

Lemma sum_pos (s : list R) :
  (forall v, In v s -> 0 <= v) -> (exists v, In v s /\ 0 < v) -> 0 < sum s.
Proof.
  induction s as [| x t IH]; intros Hnn (v & Hin & Hpos); [contradiction |].
  change (sum (x :: t)) with (x + sum t).
  assert (Hx : 0 <= x) by (apply Hnn; left; reflexivity).
  assert (Ht : 0 <= sum t) by (apply sum_nonneg; intros w Hw; apply Hnn; right; exact Hw).
  destruct Hin as [-> | Hin]; [lra |].
  assert (0 < sum t).
  { apply IH; [intros w Hw; apply Hnn; right; exact Hw | eauto]. }
  lra.
Qed.

(** On three weeks or more of sales that are not negative, with some sale
    positive, the sales volatility is a number and is not negative. *)
Theorem sales_volatility_is_number (data : DataFrame) :
  (3 <= length data)%nat ->
  (forall r, In r data -> 0 <= Total_Sales r) ->
  (exists r, In r data /\ 0 < Total_Sales r) ->
  exists tr v,
    _calculate_trends data = ret tr /\
    tr !! "sales_volatility" = Some (VFloat (Fin v)) /\
    0 <= v.
Proof.
  intros Hlen Hnn (r & Hin & Hpos).
  destruct (trends_long data Hlen) as (ma & mo & E).
  set (s := column data Total_Sales_column) in *.
  assert (Hs : s = map Total_Sales data) by reflexivity.
  assert (Hsum : 0 < sum s).
  { apply sum_pos.
    - intros v Hv. rewrite Hs in Hv. apply List.in_map_iff in Hv as (w & <- & Hw).
      apply Hnn, Hw.
    - exists (Total_Sales r). split; [| exact Hpos].
      rewrite Hs. apply List.in_map. exact Hin. }
  assert (Hn : 0 < INR (length s)).
  { rewrite Hs, length_map. apply lt_0_INR. lia. }
  assert (Hmean : mean s = Fin (sum s / INR (length s))).
  { unfold mean. destruct s; [simpl in Hsum; lra | reflexivity]. }
  assert (Hmpos : 0 < sum s / INR (length s)) by (apply Rdiv_lt_0_compat; assumption).
  assert (Hstd : exists d, std s = Fin d /\ 0 <= d).
  { unfold std. destruct (Nat.ltb_spec (length s) 2).
    - rewrite Hs, length_map in *. lia.
    - eexists. split; [reflexivity | apply sqrt_pos]. }
  destruct Hstd as (d & Hd & Hdpos).
  exists (list_to_map
            [("sales_trend_slope", VFloat (Fin (polyfit_slope s)));
             ("orders_trend_slope",
              VFloat (Fin (polyfit_slope (column data Total_Orders_column))));
             ("sales_trend_direction", VStr (trend_direction (polyfit_slope s)));
             ("orders_trend_direction",
              VStr (trend_direction
                      (polyfit_slope (column data Total_Orders_column))));
             ("sales_volatility", VFloat (fdiv (std s) (mean s)));
             ("orders_volatility",
              VFloat (fdiv (std (column data Total_Orders_column))
                           (mean (column data Total_Orders_column))));
             ("latest_ma3_sales", float_or_zero ma);
             ("latest_ma3_orders", float_or_zero mo)]),
         (d / (sum s / INR (length s))).
  split; [exact E |]. split.
  - change (Some (VFloat (fdiv (std s) (mean s)))
            = Some (VFloat (Fin (d / (sum s / INR (length s)))))).
    rewrite Hd, Hmean. unfold fdiv.
    destruct (Reqb (sum s / INR (length s)) 0) eqn:Hz; [| reflexivity].
    apply Reqb_true in Hz. lra.
  - apply Rmult_le_pos; [exact Hdpos |].
    apply Rlt_le, Rinv_0_lt_compat, Hmpos.
Qed.

Lemma sales_volatility_is_number_witness :
  exists tr v,
    _calculate_trends sample_data = ret tr /\
    tr !! "sales_volatility" = Some (VFloat (Fin v)) /\
    0 <= v.
Proof.
  apply sales_volatility_is_number.
  - simpl. lia.
  - intros r Hin. simpl in Hin.
    repeat (destruct Hin as [<- | Hin]; [simpl; lra |]). contradiction.
  - exists (mkWeek 6 12 12500 45 "Laptop" "Alpha Corp").
    split; [left; reflexivity | simpl; lra].
Defined.







End Volatility.

(** * Further properties of the frequency tables *)

From Stdlib Require Import Sorted.

Section FrequencyTables.

Lemma insert_by_count_In (e f : string * nat) (l : list (string * nat)) :
  In f (insert_by_count e l) <-> f = e \/ In f l.
Proof.
  induction l as [| g t IH]; simpl.
  - split; intros [H | H]; auto.
  - destruct (snd g <=? snd e)%nat; simpl.
    + split; intros [H | H]; auto.
    + rewrite IH. split; intros H; tauto.
Qed.

Lemma sort_by_count_In (f : string * nat) (l : list (string * nat)) :
  In f (sort_by_count l) <-> In f l.
Proof.
  induction l as [| e t IH]; simpl; [tauto |].
  change (fold_right insert_by_count [] t) with (sort_by_count t).
  rewrite insert_by_count_In, IH. split; intros [H | H]; auto.
Qed.

Lemma insert_by_count_keys (e : string * nat) (l : list (string * nat)) :
  List.NoDup (map fst (insert_by_count e l)) <->
  ~ In (fst e) (map fst l) /\ List.NoDup (map fst l).
Proof.
  induction l as [| g t IH]; simpl.
  - split.
    + intros _. split; [tauto | constructor].
    + intros _. constructor; [simpl; tauto | constructor].
  - destruct (snd g <=? snd e)%nat; simpl.
    + rewrite !List.NoDup_cons_iff. simpl. tauto.
    + rewrite !List.NoDup_cons_iff, IH.
      assert (Hin : In (fst g) (map fst (insert_by_count e t)) <->
                    fst g = fst e \/ In (fst g) (map fst t)).
      { rewrite !List.in_map_iff. split.
        - intros (f & Hf & Hin). apply insert_by_count_In in Hin as [-> | Hin];
            [left; auto | right; eauto].
        - intros [H | (f & Hf & Hin)].
          + exists e. split; [auto | apply insert_by_count_In; auto].
          + exists f. split; [auto | apply insert_by_count_In; auto]. }
      rewrite Hin. tauto.
Qed.

Lemma sort_by_count_keys (l : list (string * nat)) :
  List.NoDup (map fst l) -> List.NoDup (map fst (sort_by_count l)).
Proof.
  induction l as [| e t IH]; simpl; intros H; [constructor |].
  change (fold_right insert_by_count [] t) with (sort_by_count t).
  apply List.NoDup_cons_iff in H as [Hnot Hnd].
  apply insert_by_count_keys. split; [| apply IH, Hnd].
  intros Hin. apply Hnot.
  apply List.in_map_iff in Hin as (f & Hf & Hin).
  apply -> sort_by_count_In in Hin. apply List.in_map_iff. eauto.
Qed.

Lemma insert_by_count_total (e : string * nat) (l : list (string * nat)) :
  list_sum (map snd (insert_by_count e l)) = snd e + list_sum (map snd l).
Proof.
  induction l as [| g t IH]; simpl; [reflexivity |].
  destruct (snd g <=? snd e)%nat; simpl; [reflexivity |].
  rewrite IH. lia.
Qed.

Lemma sort_by_count_total (l : list (string * nat)) :
  list_sum (map snd (sort_by_count l)) = list_sum (map snd l).
Proof.
  induction l as [| e t IH]; simpl; [reflexivity |].
  change (fold_right insert_by_count [] t) with (sort_by_count t).
  rewrite insert_by_count_total, IH. reflexivity.
Qed.

Lemma sort_by_count_length (l : list (string * nat)) :
  length (sort_by_count l) = length l.
Proof.
  induction l as [| e t IH]; simpl; [reflexivity |].
  change (fold_right insert_by_count [] t) with (sort_by_count t).
  rewrite <- IH. generalize (sort_by_count t). intros s.
  induction s as [| g u IHs]; simpl; [reflexivity |].
  destruct (snd g <=? snd e)%nat; simpl; [reflexivity | rewrite IHs; reflexivity].
Qed.

Lemma insert_by_count_sorted (e : string * nat) (l : list (string * nat)) :
  Sorted (fun a b => snd b <= snd a) l ->
  Sorted (fun a b => snd b <= snd a) (insert_by_count e l).
Proof.
  induction l as [| g t IH]; simpl; intros H.
  - repeat constructor.
  - destruct (Nat.leb_spec (snd g) (snd e)) as [Hle | Hgt].
    + constructor; [exact H | constructor; exact Hle].
    + apply Sorted_inv in H as [Hs Hhd]. constructor; [apply IH, Hs |].
      destruct t as [| k u]; simpl.
      * constructor. lia.
      * destruct (snd k <=? snd e)%nat; constructor.
        -- lia.
        -- apply HdRel_inv in Hhd. exact Hhd.
Qed.

Lemma sort_by_count_sorted (l : list (string * nat)) :
  Sorted (fun a b => snd b <= snd a) (sort_by_count l).
Proof.
  induction l as [| e t IH]; simpl; [constructor |].
  apply insert_by_count_sorted, IH.
Qed.

Lemma unique_acc_NoDup (s seen : list string) : List.NoDup (unique_acc seen s).
Proof.
  revert seen. induction s as [| x t IH]; intros seen; simpl; [constructor |].
  destruct (mem_label x seen); [apply IH |].
  constructor; [| apply IH].
  intros Hin. apply unique_acc_In in Hin as [_ Hnot]. apply Hnot. left. reflexivity.
Qed.

Lemma unseen_split (x : string) (seen t : list string) :
  ~ In x seen ->
  length (List.filter (fun y => negb (mem_label y seen)) t) =
  count_label x t + length (List.filter (fun y => negb (mem_label y (x :: seen))) t).
Proof.
  intros Hx. induction t as [| y u IH]; [reflexivity |].
  cbn [List.filter count_label].
  change (mem_label y (x :: seen)) with (String.eqb y x || mem_label y seen).
  destruct (String.eqb_spec x y) as [<- | Hne].
  - rewrite String.eqb_refl.
    assert (Hm : mem_label x seen = false).
    { destruct (mem_label x seen) eqn:M; [| reflexivity].
      apply mem_label_In in M. contradiction. }
    rewrite Hm. cbn [negb orb length]. rewrite IH. lia.
  - assert (Hyx : String.eqb y x = false).
    { apply String.eqb_neq. congruence. }
    rewrite Hyx. cbn [orb].
    destruct (mem_label y seen); cbn [negb length]; rewrite IH; lia.
Qed.

Lemma count_label_other (k x : string) (t : list string) :
  k <> x -> count_label k (x :: t) = count_label k t.
Proof.
  intros H. simpl. apply String.eqb_neq in H. rewrite H. reflexivity.
Qed.

Lemma list_sum_counts_ext (x : string) (t ks : list string) :
  ~ In x ks ->
  list_sum (map (fun k => count_label k (x :: t)) ks) =
  list_sum (map (fun k => count_label k t) ks).
Proof.
  induction ks as [| k u IH]; intros H; simpl; [reflexivity |].
  assert (Hk : k <> x) by (intros ->; apply H; left; reflexivity).
  apply String.eqb_neq in Hk. rewrite Hk. simpl.
  rewrite <- IH by (intros Hin; apply H; right; exact Hin). reflexivity.
Qed.

(** The counts of the distinct labels add up to the rows not yet seen. *)
Lemma unique_acc_counts (s seen : list string) :
  list_sum (map (fun k => count_label k s) (unique_acc seen s)) =
  length (List.filter (fun y => negb (mem_label y seen)) s).
Proof.
  revert seen. induction s as [| x t IH]; intros seen; [reflexivity |].
  cbn [unique_acc List.filter].
  destruct (mem_label x seen) eqn:M; cbn [negb].
  - rewrite list_sum_counts_ext, IH; [reflexivity |].
    intros Hin. apply unique_acc_In in Hin as [_ Hnot].
    apply mem_label_In in M. contradiction.
  - assert (Hx : ~ In x seen).
    { intros H. apply mem_label_In in H. congruence. }
    cbn [map length].
    match goal with
    | |- list_sum (?a :: ?l) = _ => change (list_sum (a :: l)) with (a + list_sum l)
    end.
    rewrite list_sum_counts_ext, IH.
    + rewrite (unseen_split x seen t Hx).
      cbn [count_label]. rewrite String.eqb_refl. lia.
    + intros Hin. apply unique_acc_In in Hin as [_ Hnot].
      apply Hnot. left. reflexivity.
Qed.

Lemma filter_all {A} (l : list A) : List.filter (fun _ => true) l = l.
Proof. induction l as [| x t IH]; simpl; [| rewrite IH]; reflexivity. Qed.

Lemma count_label_present (k : string) (s : list string) :
  In k s -> 1 <= count_label k s.
Proof.
  induction s as [| y t IH]; simpl; [contradiction |].
  intros [<- | H]; [rewrite String.eqb_refl; lia |].
  specialize (IH H). lia.
Qed.

(** What [value_counts] keeps: each label once, with its number of
    occurrences; counts that add up to the number of rows; descending
    counts. *)
Lemma value_counts_table (s : list string) :
  List.NoDup (map fst (value_counts s)) /\
  (forall l n, In (l, n) (value_counts s) -> In l s /\ n = count_label l s) /\
  (forall l, In l s -> In (l, count_label l s) (value_counts s)) /\
  list_sum (map snd (value_counts s)) = length s /\
  Sorted (fun a b => snd b <= snd a) (value_counts s) /\
  length (value_counts s) <= length s.
Proof.
  unfold value_counts.
  set (entries := map (fun x => (x, count_label x s)) (unique s)).
  assert (Hfst : map fst entries = unique s).
  { unfold entries. rewrite List.map_map. simpl. apply List.map_id. }
  assert (Hsnd : map snd entries = map (fun k => count_label k s) (unique s)).
  { unfold entries. rewrite List.map_map. reflexivity. }
  assert (Htotal : list_sum (map snd entries) = length s).
  { rewrite Hsnd. unfold unique. rewrite unique_acc_counts.
    simpl. rewrite filter_all. reflexivity. }
  split; [| split; [| split; [| split; [| split]]]].
  - apply sort_by_count_keys. rewrite Hfst. apply unique_acc_NoDup.
  - intros l n Hin. apply -> sort_by_count_In in Hin. unfold entries in Hin.
    apply List.in_map_iff in Hin as (x & [= <- <-] & Hx).
    apply unique_acc_In in Hx as [Hx _]. auto.
  - intros l Hin. apply sort_by_count_In. unfold entries.
    apply List.in_map_iff. exists l. split; [reflexivity |].
    apply unique_acc_In. split; [exact Hin | intros []].
  - rewrite sort_by_count_total. exact Htotal.
  - apply sort_by_count_sorted.
  - rewrite sort_by_count_length. rewrite <- Htotal, Hsnd.
    unfold entries. rewrite length_map.
    assert (Hge : forall ks, (forall k, In k ks -> In k s) ->
                             length ks <= list_sum (map (fun k => count_label k s) ks)).
    { induction ks as [| k u IHu]; intros H; simpl; [lia |].
      pose proof (count_label_present k s (H k (or_introl eq_refl))).
      assert (length u <= list_sum (map (fun k => count_label k s) u)).
      { apply IHu. intros j Hj. apply H. right. exact Hj. }
      lia. }
    apply Hge. intros k Hk. apply unique_acc_In in Hk as [Hk _]. exact Hk.
Qed.

(** The product frequency table of a dataset with at least one week lists
    each product once with the number of weeks it led, in descending order
    of that number; the numbers add up to the number of weeks, and the
    number of distinct products is between 1 and the number of weeks. *)
Theorem product_frequency_table (data : DataFrame) :
  data <> [] ->
  exists p,
    DataProcessor._analyze_products data = ret p /\
    List.NoDup (map fst (product_frequency p)) /\
    (forall l n,
        In (l, n) (product_frequency p) <->
        In l (map Top_Product data) /\ n = count_label l (map Top_Product data)) /\
    list_sum (map snd (product_frequency p)) = length data /\
    Sorted (fun a b => snd b <= snd a) (product_frequency p) /\
    1 <= unique_products_count p <= length data.
Proof.
  intros Hne. destruct (nonempty_snoc data Hne) as (t & x & ->).
  eexists. split; [apply analyze_products_snoc |].
  cbn [product_frequency unique_products_count].
  destruct (value_counts_table (map Top_Product (app t [x])))
    as (Hnd & Hsound & Hcomplete & Htotal & Hsorted & Hlen).
  rewrite length_map in Htotal, Hlen.
  split; [exact Hnd |]. split; [| split; [exact Htotal | split; [exact Hsorted |]]].
  - intros l n. split; [apply Hsound |].
    intros [Hin ->]. apply Hcomplete, Hin.
  - split; [| exact Hlen].
    assert (Hin : In (Top_Product x) (map Top_Product (app t [x]))).
    { apply List.in_map, List.in_app_iff. right. left. reflexivity. }
    apply Hcomplete in Hin.
    destruct (value_counts (map Top_Product (app t [x]))); [contradiction | simpl; lia].
Qed.

Lemma product_frequency_table_witness :
  exists p,
    DataProcessor._analyze_products tied_labels_data = ret p /\
    List.NoDup (map fst (product_frequency p)) /\
    list_sum (map snd (product_frequency p)) = 4 /\
    1 <= unique_products_count p <= 4.
Proof.
  assert (Hne : tied_labels_data <> []) by discriminate.
  destruct (product_frequency_table tied_labels_data Hne)
    as (p & E & Hnd & _ & Htotal & _ & Hcount).
  exists p. auto.
Defined.

End FrequencyTables.

Section DistinctLabels.

Lemma count_label_distinct (x : string) (s : list string) :
  List.NoDup s -> In x s -> count_label x s = 1.
Proof.
  induction s as [| y t IH]; intros Hnd Hin; [contradiction |].
  apply List.NoDup_cons_iff in Hnd as [Hnot Hnd].
  destruct Hin as [-> | Hin].
  - simpl. rewrite String.eqb_refl, (count_label_absent x t Hnot). reflexivity.
  - rewrite count_label_other by (intros ->; contradiction).
    apply IH; assumption.
Qed.

Lemma value_counts_distinct_head (x : string) (t : list string) :
  List.NoDup (x :: t) -> most_frequent (value_counts (x :: t)) = x.
Proof.
  intros Hnd.
  destruct (value_counts_top (x :: t)) as (Hin & _ & Hfirst); [discriminate |].
  set (top := most_frequent (value_counts (x :: t))) in *.
  assert (Hidx : first_index top (x :: t) <= first_index x (x :: t)).
  { apply Hfirst; [left; reflexivity |].
    rewrite !(count_label_distinct _ _ Hnd); auto. left. reflexivity. }
  simpl in Hidx. rewrite String.eqb_refl in Hidx.
  destruct (String.eqb_spec top x) as [E | _]; [exact E | lia].
Qed.

(** When every week has a different top product, over two weeks or more,
    the most frequent product is that of the first week, the current one is
    that of the last week, and they differ. *)
Theorem distinct_products_first_leads (first lastw : WeeklyRecord) (mid : DataFrame) :
  List.NoDup (map Top_Product (first :: app mid [lastw])) ->
  exists p,
    DataProcessor._analyze_products (first :: app mid [lastw]) = ret p /\
    most_frequent_top_product p = Top_Product first /\
    current_top_product p = Top_Product lastw /\
    most_frequent_top_product p <> current_top_product p /\
    unique_products_count p = length (first :: app mid [lastw]).
Proof.
  intros Hnd.
  change (first :: app mid [lastw]) with (app (first :: mid) [lastw]) in *.
  eexists. split; [apply analyze_products_snoc |].
  cbn [most_frequent_top_product current_top_product unique_products_count].
  change (app (first :: mid) [lastw]) with (first :: app mid [lastw]) in *.
  cbn [map] in *.
  rewrite (value_counts_distinct_head _ _ Hnd).
  split; [reflexivity |]. split; [reflexivity |]. split.
  - apply List.NoDup_cons_iff in Hnd as [Hnot _]. intros E. apply Hnot.
    rewrite E, List.map_app. apply List.in_app_iff. right. left. reflexivity.
  - destruct (value_counts_table (Top_Product first :: map Top_Product (app mid [lastw])))
      as (_ & Hsound & _ & Htotal & _ & _).
    assert (Hones : forall e, In e (value_counts
                       (Top_Product first :: map Top_Product (app mid [lastw]))) ->
                              snd e = 1).
    { intros [l n] Hin. destruct (Hsound l n Hin) as [Hl ->].
      apply count_label_distinct; assumption. }
    assert (Hsum : forall l : list (string * nat),
               (forall e, In e l -> snd e = 1) -> list_sum (map snd l) = length l).
    { induction l as [| e u IHu]; intros H; simpl; [reflexivity |].
      rewrite (H e) by (left; reflexivity).
      rewrite IHu by (intros f Hf; apply H; right; exact Hf). reflexivity. }
    rewrite <- (Hsum _ Hones), Htotal. simpl. rewrite !length_map. reflexivity.
Qed.

Lemma distinct_products_first_leads_witness :
  exists p,
    DataProcessor._analyze_products sample_data = ret p /\
    most_frequent_top_product p = "Laptop" /\
    current_top_product p = "Headphones" /\
    most_frequent_top_product p <> current_top_product p /\
    unique_products_count p = 8.
Proof.
  apply (distinct_products_first_leads
           (mkWeek 6 12 12500 45 "Laptop" "Alpha Corp")
           (mkWeek 55 61 20050 65 "Headphones" "Theta Solutions")
           [ mkWeek 13 19 15800 52 "Smartphone" "Beta Ltd";
             mkWeek 20 26 14200 48 "Tablet" "Gamma LLC";
             mkWeek 27 33 16950 55 "Monitor" "Delta Inc";
             mkWeek 34 40 18100 60 "Printer" "Epsilon Co";
             mkWeek 41 47 17500 57 "Keyboard" "Zeta Enterprises";
             mkWeek 48 54 19000 62 "Mouse" "Eta Traders" ]).
  cbn [map app Top_Product].
  repeat (constructor; [simpl; intuition discriminate |]). constructor.
Defined.

End DistinctLabels.

(** * Further properties of the insights *)

Section FloatOrder.

Local Open Scope R_scope.

Lemma flt_weaken (a : pyfloat) (x y : R) :
  flt a (Fin x) = true -> x <= y -> flt a (Fin y) = true.
Proof.
  destruct a as [z | | |]; simpl; try discriminate; [| reflexivity].
  rewrite !Rltb_true. lra.
Qed.

Lemma fgt_weaken (a : pyfloat) (x y : R) :
  fgt a (Fin x) = true -> y <= x -> fgt a (Fin y) = true.
Proof.
  unfold fgt. destruct a as [z | | |]; simpl; try discriminate; [| reflexivity].
  rewrite !Rltb_true. lra.
Qed.

Lemma flt_fgt_exclusive (a : pyfloat) (x y : R) :
  x <= y -> flt a (Fin x) = true -> fgt a (Fin y) = true -> False.
Proof.
  unfold fgt. destruct a as [z | | |]; simpl; try discriminate.
  rewrite !Rltb_true. lra.
Qed.

Lemma gt_literal_weaken (v : pyval) (c1 c2 : R) :
  c2 <= c1 -> gt_literal v c1 = ret true -> gt_literal v c2 = ret true.
Proof.
  intros Hc. destruct v as [x | n | s]; simpl; try discriminate.
  - intros [= H]. unfold ret. do 2 f_equal. apply (fgt_weaken x c1 c2 H Hc).
  - intros [= H]. unfold ret. do 2 f_equal.
    apply Rltb_true in H. apply Rltb_true. lra.
Qed.

End FloatOrder.

Section Stages.

Local Open Scope R_scope.

(** The last step of [_generate_recommendations] before the growth rule and
    of [_identify_risks]: one entry more when the sales volatility exceeds
    the threshold [c]. *)
Lemma volatility_stage {A} (m : Metrics) (c : R) (base : list A) (extra : A)
      (l : list log_entry) (a : list A) :
  match available_trends m with
  | Some t =>
      do volatility <- getitem t "sales_volatility";
      do high <- gt_literal volatility c;
      ret (if high then app base [extra] else base)
  | None => ret base
  end = (l, Return a) ->
  a = app base
          (match available_trends m with
           | Some t =>
               match t !! "sales_volatility" with
               | Some v =>
                   match gt_literal v c with
                   | (_, Return true) => [extra]
                   | _ => []
                   end
               | None => []
               end
           | None => []
           end).
Proof.
  destruct (available_trends m) as [t |].
  - unfold getitem. destruct (t !! "sales_volatility") as [[v | n | s] |].
    + rewrite bind_ret. cbn [gt_literal]. rewrite bind_ret. unfold ret at 2.
      destruct (fgt v (Fin c)); intros [= _ <-];
        [reflexivity | symmetry; apply app_nil_r].
    + rewrite bind_ret. cbn [gt_literal]. rewrite bind_ret. unfold ret at 2.
      destruct (Rltb c (IZR n)); intros [= _ <-];
        [reflexivity | symmetry; apply app_nil_r].
    + rewrite bind_ret. cbn [gt_literal]. rewrite bind_raise. discriminate.
    + rewrite bind_raise. discriminate.
  - intros [= _ <-]. symmetry. apply app_nil_r.
Qed.

Lemma volatility_stage_returns {A} (m : Metrics) (c : R) (base : list A) (extra : A) :
  match available_trends m with
  | Some t => exists v, t !! "sales_volatility" = Some (VFloat v)
  | None => True
  end ->
  exists a,
    match available_trends m with
    | Some t =>
        do volatility <- getitem t "sales_volatility";
        do high <- gt_literal volatility c;
        ret (if high then app base [extra] else base)
    | None => ret base
    end = ret a.
Proof.
  intros Hwf. destruct (available_trends m) as [t |].
  - destruct Hwf as [v Hv]. unfold getitem. rewrite Hv, bind_ret.
    cbn [gt_literal]. rewrite bind_ret. eexists. reflexivity.
  - eexists. reflexivity.
Qed.

(** The last step of [_identify_opportunities]. *)
Lemma direction_stage {A} (m : Metrics) (base : list A) (extra : A)
      (l : list log_entry) (a : list A) :
  match available_trends m with
  | Some t =>
      do direction <- getitem t "sales_trend_direction";
      ret (if Insights.eq_literal direction "increasing"
           then app base [extra] else base)
  | None => ret base
  end = (l, Return a) ->
  a = app base
          (match available_trends m with
           | Some t =>
               match t !! "sales_trend_direction" with
               | Some d => if Insights.eq_literal d "increasing" then [extra] else []
               | None => []
               end
           | None => []
           end).
Proof.
  destruct (available_trends m) as [t |].
  - unfold getitem. destruct (t !! "sales_trend_direction") as [d |].
    + rewrite bind_ret.
      destruct (Insights.eq_literal d "increasing"); intros [= _ <-];
        [reflexivity | symmetry; apply app_nil_r].
    + rewrite bind_raise. discriminate.
  - intros [= _ <-]. symmetry. apply app_nil_r.
Qed.

(** What the snapshot of [calculate_metrics] offers to the readers of the
    trends. *)
Lemma snapshot_trends (data : DataFrame) (log : list log_entry) (m : Metrics) :
  calculate_metrics (Some data) = (log, Return m) ->
  ((length data < 3)%nat /\ available_trends m = None) \/
  ((3 <= length data)%nat /\
   exists t vs vo,
     available_trends m = Some t /\
     t !! "sales_trend_direction" =
       Some (VStr (trend_direction (polyfit_slope (column data Total_Sales_column)))) /\
     t !! "orders_trend_direction" =
       Some (VStr (trend_direction (polyfit_slope (column data Total_Orders_column)))) /\
     t !! "sales_volatility" = Some (VFloat vs) /\
     t !! "orders_volatility" = Some (VFloat vo)).
Proof.
  intros H. destruct (snoc_cases data) as [-> | (u & x & ->)].
  - pose proof (eq_trans (eq_sym calculate_metrics_nil) H) as E. discriminate E.
  - destruct (calculate_metrics_snoc u x) as (h & p & c & tr & _ & _ & _ & Ht & E).
    cbv zeta in E. pose proof (eq_trans (eq_sym E) H) as E'.
    injection E' as _ <-.
    unfold available_trends. cbn [trends].
    destruct (Nat.lt_ge_cases (length (app u [x])) 3) as [Hlen | Hlen].
    + left. split; [exact Hlen |].
      rewrite (trends_short _ Hlen) in Ht. injection Ht as <-.
      rewrite lookup_singleton_eq. reflexivity.
    + right. split; [exact Hlen |].
      destruct (trends_long _ Hlen) as (a & b & Ht').
      rewrite Ht' in Ht. injection Ht as <-.
      change (list_to_map _ !! "status") with (@None pyval).
      do 3 eexists. split; [reflexivity |].
      repeat split; reflexivity.
Qed.

End Stages.

Section RecommendationFacts.

Local Open Scope R_scope.

(** The categories of the recommendations, rule by rule. *)
Lemma recommendation_categories (m : Metrics) (l : list log_entry)
      (recs : list Recommendation) :
  _generate_recommendations m = (l, Return recs) ->
  map category recs =
  app (if flt (sales_change (changes m)) (Fin (-5)) then ["Sales Recovery"]
       else if fgt (sales_change (changes m)) (Fin 10) then ["Growth Optimization"]
       else [])
 (app (if flt (orders_change (changes m)) (Fin 0) && fgt (aov_change (aov m)) (Fin 0)
       then ["Customer Acquisition"]
       else if fgt (orders_change (changes m)) (Fin 0)
               && flt (aov_change (aov m)) (Fin 0)
       then ["Revenue Optimization"]
       else [])
 (app (match products m with
       | Some p => if (unique_products_count p <? 3)%nat then ["Product Strategy"] else []
       | None => []
       end)
 (app (match available_trends m with
       | Some t =>
           match t !! "sales_volatility" with
           | Some v =>
               match gt_literal v 0.2 with
               | (_, Return true) => ["Business Stability"]
               | _ => []
               end
           | None => []
           end
       | None => []
       end)
      (match historical m with
       | Some h =>
           if flt (Fin 0) (sales_growth_rate h) && flt (sales_growth_rate h) (Fin 5)
           then ["Growth Acceleration"] else []
       | None => []
       end)))).
Proof.
  unfold _generate_recommendations. cbv zeta. intros H.
  apply bind_returns in H as (l1 & a & l2 & Hstage & Hret & _).
  injection Hret as _ <-.
  set (growth := match historical m with
                 | Some h =>
                     if flt (Fin 0) (sales_growth_rate h)
                        && flt (sales_growth_rate h) (Fin 5)
                     then ["Growth Acceleration"] else []
                 | None => []
                 end).
  assert (Hgrowth : forall base : list Recommendation,
             map category
               (match historical m with
                | Some h =>
                    if flt (Fin 0) (sales_growth_rate h)
                       && flt (sales_growth_rate h) (Fin 5)
                    then app base [growth_acceleration] else base
                | None => base
                end) = app (map category base) growth).
  { intros base. unfold growth. destruct (historical m) as [h |].
    - destruct (flt (Fin 0) (sales_growth_rate h) && flt (sales_growth_rate h) (Fin 5)).
      + rewrite List.map_app. reflexivity.
      + symmetry. apply app_nil_r.
    - symmetry. apply app_nil_r. }
  rewrite Hgrowth. clear Hgrowth. generalize growth. intros g.
  revert Hstage.
  destruct (flt (sales_change (changes m)) (Fin (-5)));
    [| destruct (fgt (sales_change (changes m)) (Fin 10))];
    (destruct (flt (orders_change (changes m)) (Fin 0)
               && fgt (aov_change (aov m)) (Fin 0));
     [| destruct (fgt (orders_change (changes m)) (Fin 0)
                  && flt (aov_change (aov m)) (Fin 0))]);
    (destruct (products m) as [p |];
     [destruct (unique_products_count p <? 3)%nat |]);
    cbv iota; intros Hstage; apply volatility_stage in Hstage; subst a;
    (destruct (available_trends m) as [t |];
     [destruct (t !! "sales_volatility") as [v |];
      [destruct (gt_literal v 0.2) as [lg [[|] | e]] |] |]);
    reflexivity.
Qed.

Lemma In_singleton_if (b : bool) (x y : string) :
  In x (if b then [y] else []) <-> b = true /\ y = x.
Proof. destruct b; simpl; intuition discriminate. Qed.

(** No list of recommendations holds both Sales Recovery and Growth
    Optimization, nor both Customer Acquisition and Revenue Optimization;
    no category occurs twice, and there are at most five entries. *)
Theorem recommendations_never_conflict (m : Metrics) (l : list log_entry)
        (recs : list Recommendation) :
  _generate_recommendations m = (l, Return recs) ->
  ~ (In "Sales Recovery" (map category recs) /\
     In "Growth Optimization" (map category recs)) /\
  ~ (In "Customer Acquisition" (map category recs) /\
     In "Revenue Optimization" (map category recs)) /\
  List.NoDup (map category recs) /\
  (length recs <= 5)%nat.
Proof.
  intros H. rewrite <- (length_map category recs).
  rewrite (recommendation_categories m l recs H).
  set (A := if flt (sales_change (changes m)) (Fin (-5)) then ["Sales Recovery"]
            else if fgt (sales_change (changes m)) (Fin 10)
            then ["Growth Optimization"] else []).
  assert (HA : A = [] \/ A = ["Sales Recovery"] \/ A = ["Growth Optimization"]).
  { unfold A. destruct (flt _ _); [auto |]. destruct (fgt _ _); auto. }
  set (B := if flt (orders_change (changes m)) (Fin 0) && fgt (aov_change (aov m)) (Fin 0)
            then ["Customer Acquisition"]
            else if fgt (orders_change (changes m)) (Fin 0)
                    && flt (aov_change (aov m)) (Fin 0)
            then ["Revenue Optimization"] else []).
  assert (HB : B = [] \/ B = ["Customer Acquisition"] \/ B = ["Revenue Optimization"]).
  { unfold B. destruct (_ && _); [auto |]. destruct (_ && _); auto. }
  set (C := match products m with
            | Some p => if (unique_products_count p <? 3)%nat
                        then ["Product Strategy"] else []
            | None => []
            end).
  assert (HC : C = [] \/ C = ["Product Strategy"]).
  { unfold C. destruct (products m) as [p |]; [| auto].
    destruct (_ <? _)%nat; auto. }
  set (T := match available_trends m with
            | Some t =>
                match t !! "sales_volatility" with
                | Some v =>
                    match gt_literal v 0.2 with
                    | (_, Return true) => ["Business Stability"]
                    | _ => []
                    end
                | None => []
                end
            | None => []
            end).
  assert (HT : T = [] \/ T = ["Business Stability"]).
  { unfold T. destruct (available_trends m) as [t |]; [| auto].
    destruct (t !! "sales_volatility") as [v |]; [| auto].
    destruct (gt_literal v 0.2) as [lg [[|] | e]]; auto. }
  set (G := match historical m with
            | Some h =>
                if flt (Fin 0) (sales_growth_rate h) && flt (sales_growth_rate h) (Fin 5)
                then ["Growth Acceleration"] else []
            | None => []
            end).
  assert (HG : G = [] \/ G = ["Growth Acceleration"]).
  { unfold G. destruct (historical m) as [h |]; [| auto].
    destruct (flt (Fin 0) (sales_growth_rate h) && flt (sales_growth_rate h) (Fin 5));
      auto. }
  clearbody A B C T G.
  destruct HA as [-> | [-> | ->]]; destruct HB as [-> | [-> | ->]];
    destruct HC as [-> | ->]; destruct HT as [-> | ->]; destruct HG as [-> | ->];
    cbn [app length];
    (split; [intros [H1 H2]; simpl in H1, H2;
             repeat (destruct H1 as [H1 | H1]; [try discriminate H1 |]);
             try contradiction;
             repeat (destruct H2 as [H2 | H2]; [try discriminate H2 |]);
             contradiction |]);
    (split; [intros [H1 H2]; simpl in H1, H2;
             repeat (destruct H1 as [H1 | H1]; [try discriminate H1 |]);
             try contradiction;
             repeat (destruct H2 as [H2 | H2]; [try discriminate H2 |]);
             contradiction |]);
    (split; [| lia]);
    repeat (constructor;
            [let Hin := fresh in
             intros Hin; simpl in Hin;
             repeat (destruct Hin as [Hin | Hin]; [discriminate Hin |]);
             contradiction |]);
    constructor.
Qed.

Lemma recommendations_never_conflict_witness :
  let m :=
    {| current_week := {| cw_sales := 100; cw_orders := 10;
                          cw_top_product := "Laptop"; cw_top_customer := "Alpha Corp";
                          cw_week_start := 13; cw_week_end := 19 |};
       previous_week := {| pw_sales := 200; pw_orders := 8 |};
       changes := {| sales_change := Fin (-50); orders_change := Fin 25;
                     sales_absolute_change := -100; orders_absolute_change := 2 |};
       aov := {| aov_current := 10; aov_previous := 25; aov_change := Fin (-60) |};
       historical := None;
       products := None;
       customers := None;
       trends := None |} in
  _generate_recommendations m = ret [sales_recovery; revenue_optimization] /\
  ~ (In "Sales Recovery" (map category [sales_recovery; revenue_optimization]) /\
     In "Growth Optimization" (map category [sales_recovery; revenue_optimization])).
Proof.
  intros m.
  assert (E : _generate_recommendations m = ret [sales_recovery; revenue_optimization]).
  { unfold _generate_recommendations, m. cbn. real_cases. reflexivity. }
  split; [exact E |].
  exact (proj1 (recommendations_never_conflict m [] _ E)).
Defined.

End RecommendationFacts.

Section RiskFacts.

Local Open Scope R_scope.

Variable py_format : pyval -> string -> string.

(** The categories of the risks, rule by rule. *)
Lemma risk_categories (m : Metrics) (l : list log_entry) (risks : list Insights.Risk) :
  Insights._identify_risks py_format m = (l, Return risks) ->
  map Insights.risk_category risks =
  app (if flt (sales_change (changes m)) (Fin (-10)) then ["Revenue Risk"] else [])
 (app (if flt (orders_change (changes m)) (Fin (-15)) then ["Demand Risk"] else [])
 (app (match customers m with
       | Some c => if (unique_customers_count c <? 3)%nat then ["Customer Risk"] else []
       | None => []
       end)
 (app (match products m with
       | Some p => if (unique_products_count p <? 3)%nat then ["Product Risk"] else []
       | None => []
       end)
      (match available_trends m with
       | Some t =>
           match t !! "sales_volatility" with
           | Some v =>
               match gt_literal v 0.3 with
               | (_, Return true) => ["Volatility Risk"]
               | _ => []
               end
           | None => []
           end
       | None => []
       end)))).
Proof.
  unfold Insights._identify_risks. cbv zeta.
  set (r1 := Insights.Build_Risk _ "Revenue Risk" _ _ _).
  set (r2 := Insights.Build_Risk _ "Demand Risk" _ _ _).
  set (r5 := Insights.Build_Risk _ "Volatility Risk" _ _ _).
  assert (H1 : Insights.risk_category r1 = "Revenue Risk") by reflexivity.
  assert (H2 : Insights.risk_category r2 = "Demand Risk") by reflexivity.
  assert (H5 : Insights.risk_category r5 = "Volatility Risk") by reflexivity.
  clearbody r1 r2 r5.
  destruct (flt (sales_change (changes m)) (Fin (-10)));
    destruct (flt (orders_change (changes m)) (Fin (-15)));
    (destruct (customers m) as [c |];
     [destruct (unique_customers_count c <? 3)%nat |]);
    (destruct (products m) as [p |];
     [destruct (unique_products_count p <? 3)%nat |]);
    cbv iota; intros Hstage; apply volatility_stage in Hstage; subst risks;
    (destruct (available_trends m) as [t |];
     [destruct (t !! "sales_volatility") as [v |];
      [destruct (gt_literal v 0.3) as [lg [[|] | e]] |] |]);
    cbn [map app Insights.risk_category]; rewrite ?H1, ?H2, ?H5; reflexivity.
Qed.

(** The categories of the opportunities, rule by rule. *)
Lemma opportunity_categories (m : Metrics) (l : list log_entry)
      (opps : list Insights.Opportunity) :
  Insights._identify_opportunities py_format m = (l, Return opps) ->
  map Insights.opp_category opps =
  app (if fgt (sales_change (changes m)) (Fin 5)
          && fgt (orders_change (changes m)) (Fin 5)
       then ["Market Expansion"] else [])
 (app (if fgt (aov_change (aov m)) (Fin 10) then ["Premium Strategy"] else [])
 (app (match products m with Some _ => ["Product Development"] | None => [] end)
 (app (match customers m with Some _ => ["Customer Success"] | None => [] end)
      (match available_trends m with
       | Some t =>
           match t !! "sales_trend_direction" with
           | Some d =>
               if Insights.eq_literal d "increasing" then ["Momentum Capture"] else []
           | None => []
           end
       | None => []
       end)))).
Proof.
  unfold Insights._identify_opportunities. cbv zeta.
  set (o1 := Insights.Build_Opportunity _ "Market Expansion" _ _ _).
  set (o2 := Insights.Build_Opportunity _ "Premium Strategy" _ _ _).
  set (o5 := Insights.Build_Opportunity _ "Momentum Capture" _ _ _).
  assert (H1 : Insights.opp_category o1 = "Market Expansion") by reflexivity.
  assert (H2 : Insights.opp_category o2 = "Premium Strategy") by reflexivity.
  assert (H5 : Insights.opp_category o5 = "Momentum Capture") by reflexivity.
  clearbody o1 o2 o5.
  destruct (fgt (sales_change (changes m)) (Fin 5)
            && fgt (orders_change (changes m)) (Fin 5));
    destruct (fgt (aov_change (aov m)) (Fin 10));
    destruct (products m) as [p |];
    destruct (customers m) as [c |];
    cbv iota; intros Hstage; apply direction_stage in Hstage; subst opps;
    (destruct (available_trends m) as [t |];
     [destruct (t !! "sales_trend_direction") as [d |];
      [destruct (Insights.eq_literal d "increasing") |] |]);
    cbn [map app Insights.opp_category]; rewrite ?H1, ?H2, ?H5; reflexivity.
Qed.

Lemma In_first_of_two (b1 b2 : bool) (y1 y2 x : string) :
  In x (if b1 then [y1] else if b2 then [y2] else []) <->
  (b1 = true /\ y1 = x) \/ (b1 = false /\ b2 = true /\ y2 = x).
Proof. destruct b1, b2; simpl; intuition discriminate. Qed.

Lemma In_products_part (m : Metrics) (y x : string) :
  In x (match products m with
        | Some p => if (unique_products_count p <? 3)%nat then [y] else []
        | None => []
        end) <->
  (exists p, products m = Some p /\ (unique_products_count p < 3)%nat) /\ y = x.
Proof.
  destruct (products m) as [p |].
  - destruct (Nat.ltb_spec (unique_products_count p) 3); simpl.
    + split; [intros [<- | []]; eauto | intros [_ <-]; auto].
    + split; [intros [] | intros [(q & [= <-] & Hq) _]; lia].
  - simpl. split; [intros [] | intros [(q & Hq & _) _]; discriminate].
Qed.

Lemma In_customers_part (m : Metrics) (y x : string) :
  In x (match customers m with
        | Some c => if (unique_customers_count c <? 3)%nat then [y] else []
        | None => []
        end) <->
  (exists c, customers m = Some c /\ (unique_customers_count c < 3)%nat) /\ y = x.
Proof.
  destruct (customers m) as [c |].
  - destruct (Nat.ltb_spec (unique_customers_count c) 3); simpl.
    + split; [intros [<- | []]; eauto | intros [_ <-]; auto].
    + split; [intros [] | intros [(q & [= <-] & Hq) _]; lia].
  - simpl. split; [intros [] | intros [(q & Hq & _) _]; discriminate].
Qed.

Lemma In_volatility_part (m : Metrics) (c : R) (y x : string) :
  In x (match available_trends m with
        | Some t =>
            match t !! "sales_volatility" with
            | Some v =>
                match gt_literal v c with
                | (_, Return true) => [y]
                | _ => []
                end
            | None => []
            end
        | None => []
        end) <->
  (exists t v,
      available_trends m = Some t /\ t !! "sales_volatility" = Some v /\
      gt_literal v c = ret true) /\ y = x.
Proof.
  destruct (available_trends m) as [t |].
  - destruct (t !! "sales_volatility") as [v |] eqn:Hv.
    + destruct (gt_literal v c) as [lg [[|] | e]] eqn:Hgt;
        (assert (Hnil : lg = [])
          by (destruct v; simpl in Hgt; injection Hgt as <-; reflexivity));
        subst lg; simpl.
      * split.
        -- intros [<- | []]. split; [| reflexivity].
           exists t, v. repeat split; assumption.
        -- intros [_ <-]. left. reflexivity.
      * split; [intros [] |].
        intros [(t' & v' & [= <-] & Hv' & Hq) _].
        rewrite Hv in Hv'. injection Hv' as <-.
        rewrite Hq in Hgt. discriminate Hgt.
      * split; [intros [] |].
        intros [(t' & v' & [= <-] & Hv' & Hq) _].
        rewrite Hv in Hv'. injection Hv' as <-.
        rewrite Hq in Hgt. discriminate Hgt.
    + simpl. split; [intros [] |].
      intros [(t' & v' & [= <-] & Hv' & _) _]. rewrite Hv in Hv'. discriminate Hv'.
  - simpl. split; [intros [] | intros [(t' & v' & Hq & _) _]; discriminate].
Qed.

Lemma In_growth_part (m : Metrics) (y x : string) :
  In x (match historical m with
        | Some h =>
            if flt (Fin 0) (sales_growth_rate h) && flt (sales_growth_rate h) (Fin 5)
            then [y] else []
        | None => []
        end) -> y = x.
Proof.
  destruct (historical m) as [h |]; [| intros []].
  destruct (_ && _); simpl; [intros [<- | []]; reflexivity | intros []].
Qed.

(** A risk comes with the recommendation that answers it: a Revenue Risk
    with Sales Recovery, a Volatility Risk with Business Stability, and a
    Product Risk exactly with Product Strategy. *)
Theorem risks_come_with_recommendations (m : Metrics)
        (l1 l2 : list log_entry) (risks : list Insights.Risk)
        (recs : list Recommendation) :
  Insights._identify_risks py_format m = (l1, Return risks) ->
  _generate_recommendations m = (l2, Return recs) ->
  (In "Revenue Risk" (map Insights.risk_category risks) ->
   In "Sales Recovery" (map category recs)) /\
  (In "Volatility Risk" (map Insights.risk_category risks) ->
   In "Business Stability" (map category recs)) /\
  (In "Product Risk" (map Insights.risk_category risks) <->
   In "Product Strategy" (map category recs)).
Proof.
  intros Hrisks Hrecs.
  rewrite (risk_categories m l1 risks Hrisks).
  rewrite (recommendation_categories m l2 recs Hrecs).
  rewrite !List.in_app_iff, !In_singleton_if, !In_first_of_two,
    !In_products_part, !In_customers_part, !In_volatility_part.
  split; [| split].
  - intros [[Hlt _] | [[_ H] | [[_ H] | [[_ H] | [_ H]]]]]; try discriminate H.
    left. left. split; [| reflexivity].
    apply (flt_weaken _ (-10) (-5) Hlt). lra.
  - intros [[_ H] | [[_ H] | [[_ H] | [[_ H] | [Hv _]]]]]; try discriminate H.
    destruct Hv as (t & v & Ht & Hv & Hgt).
    right. right. right. left. split; [| reflexivity].
    exists t, v. repeat split; trivial.
    apply (gt_literal_weaken v 0.3 0.2); [lra | exact Hgt].
  - split.
    + intros [[_ H] | [[_ H] | [[_ H] | [[Hp _] | [_ H]]]]]; try discriminate H.
      right. right. left. split; [exact Hp | reflexivity].
    + intros [[[_ H] | (_ & _ & H)] | [[[_ H] | (_ & _ & H)] | [[Hp _] | [[_ H] | H]]]];
        try discriminate H.
      * right. right. right. left. split; [exact Hp | reflexivity].
      * apply In_growth_part in H. discriminate H.
Qed.

End RiskFacts.

Section RiskExamples.

Local Open Scope R_scope.

Lemma risks_come_with_recommendations_witness :
  let py_format := fun (_ : pyval) (spec : string) => spec in
  let m :=
    {| current_week := {| cw_sales := 100; cw_orders := 10;
                          cw_top_product := "Laptop"; cw_top_customer := "Alpha Corp";
                          cw_week_start := 13; cw_week_end := 19 |};
       previous_week := {| pw_sales := 200; pw_orders := 10 |};
       changes := {| sales_change := Fin (-50); orders_change := Fin 0;
                     sales_absolute_change := -100; orders_absolute_change := 0 |};
       aov := {| aov_current := 10; aov_previous := 20; aov_change := Fin (-50) |};
       historical := None;
       products := None;
       customers := None;
       trends := None |} in
  exists risks,
    Insights._identify_risks py_format m = ret risks /\
    map Insights.risk_category risks = ["Revenue Risk"] /\
    _generate_recommendations m = ret [sales_recovery] /\
    In "Sales Recovery" (map category [sales_recovery]).
Proof.
  intros py_format m.
  assert (Er : exists risks,
             Insights._identify_risks py_format m = ret risks /\
             map Insights.risk_category risks = ["Revenue Risk"]).
  { unfold Insights._identify_risks, m. cbn. real_cases.
    eexists. split; reflexivity. }
  destruct Er as (risks & Er & Hcat).
  assert (E : _generate_recommendations m = ret [sales_recovery]).
  { unfold _generate_recommendations, m. cbn. real_cases. reflexivity. }
  exists risks. split; [exact Er |]. split; [exact Hcat |]. split; [exact E |].
  apply (proj1 (risks_come_with_recommendations py_format m [] [] risks _ Er E)).
  rewrite Hcat. left. reflexivity.
Defined.

End RiskExamples.

Section ClassificationFacts.

Local Open Scope R_scope.

(** Status and qualifier agree on every float: an excellent change is at
    least significant, a slight change is fair or concerning, and the pair
    critical and slightly is given to [nan] and to nothing else. *)
Theorem status_agrees_with_qualifier (c : pyfloat) :
  (_get_status_level c = "excellent" ->
   _get_performance_qualifier c = "significantly" \/
   _get_performance_qualifier c = "dramatically") /\
  (_get_performance_qualifier c = "slightly" ->
   _get_status_level c = "fair" \/ _get_status_level c = "concerning" \/ c = NaN) /\
  (_get_status_level c = "critical" /\ _get_performance_qualifier c = "slightly" <->
   c = NaN).
Proof.
  destruct c as [x | | |].
  - unfold _get_status_level, _get_performance_qualifier, fge, fle, fabs.
    destruct (Rcase_abs x) as [Hneg | Hpos].
    + rewrite (Rabs_left x Hneg).
      repeat split; try (intros H; revert H); real_cases;
        intros; (discriminate || (intuition discriminate) || auto).
    + rewrite (Rabs_right x Hpos).
      repeat split; try (intros H; revert H); real_cases;
        intros; (discriminate || (intuition discriminate) || auto).
  - unfold _get_status_level, _get_performance_qualifier, fge, fle, fabs.
    real_cases. cbn. intuition discriminate.
  - unfold _get_status_level, _get_performance_qualifier, fge, fle, fabs.
    real_cases. cbn. intuition discriminate.
  - cbn. intuition discriminate.
Qed.

Lemma status_agrees_with_qualifier_witness :
  _get_status_level (Fin 12) = "excellent" /\
  (_get_performance_qualifier (Fin 12) = "significantly" \/
   _get_performance_qualifier (Fin 12) = "dramatically") /\
  _get_status_level NaN = "critical" /\
  _get_performance_qualifier NaN = "slightly".
Proof.
  assert (E : _get_status_level (Fin 12) = "excellent").
  { unfold _get_status_level, fge, fle. real_cases. reflexivity. }
  split; [exact E |]. split.
  - exact (proj1 (status_agrees_with_qualifier (Fin 12)) E).
  - exact (proj2 (proj2 (proj2 (status_agrees_with_qualifier NaN))) eq_refl).
Defined.

End ClassificationFacts.

Section SummaryFacts.

(** However many insights there are, the summary collects at most nineteen
    lines and at least five: three highlights, two recommendations, two
    risks and two opportunities at most, besides the headers. *)
Theorem summary_is_bounded (insights : Insights.InsightSet) :
  5 <= length (Insights.summary_parts insights) <= 19.
Proof.
  unfold Insights.summary_parts. cbv zeta.
  assert (Hfirst : forall (A : Type) (n : nat) (l : list A), length (firstn n l) <= n).
  { intros A n l. apply List.firstn_le_length. }
  pose proof (Hfirst _ 3 (Insights.performance_analysis insights)) as Hperf.
  set (perf := firstn 3 (Insights.performance_analysis insights)) in *.
  destruct (Insights.recommendations insights) as [| r0 rs];
    [| set (recs := List.filter _ (r0 :: rs));
       pose proof (Hfirst _ 2 recs) as Hrecs];
    (destruct (List.filter _ (Insights.risk_alerts insights)) as [| k0 ks];
     [| pose proof (Hfirst _ 2 (k0 :: ks)) as Hrisks]);
    (destruct (Insights.opportunities insights) as [| o0 os];
     [| set (opps := List.filter _ (o0 :: os));
        pose proof (Hfirst _ 2 opps) as Hopps]);
    rewrite ?length_app, ?length_map; cbn [length]; lia.
Qed.

End SummaryFacts.

Section SnapshotInsights.

Local Open Scope R_scope.

Variable py_format : pyval -> string -> string.
Variable strftime : Z -> string -> string.

Lemma snapshot_keys (data : DataFrame) (log : list log_entry) (m : Metrics) :
  calculate_metrics (Some data) = (log, Return m) ->
  exists h p c, historical m = Some h /\ products m = Some p /\ customers m = Some c.
Proof.
  intros H. destruct (snoc_cases data) as [-> | (u & x & ->)].
  - pose proof (eq_trans (eq_sym calculate_metrics_nil) H) as E. discriminate E.
  - destruct (calculate_metrics_snoc u x) as (h & p & c & tr & _ & _ & _ & _ & E).
    cbv zeta in E. pose proof (eq_trans (eq_sym E) H) as E'.
    injection E' as _ <-. cbn [historical products customers].
    do 3 eexists. repeat split; reflexivity.
Qed.

Lemma trend_direction_increasing (s : R) :
  Insights.eq_literal (VStr (trend_direction s)) "increasing" = true <-> 0 < s.
Proof.
  unfold trend_direction, Insights.eq_literal.
  destruct (Rltb 0 s) eqn:H1.
  - apply Rltb_true in H1. split; [intros _; exact H1 | reflexivity].
  - apply Rltb_false in H1. destruct (Rltb s 0); simpl; split;
      intros H; (discriminate H || lra).
Qed.

(** On every snapshot of [calculate_metrics] the opportunities are
    produced and are never empty: they name the current top product and the
    current top customer.  Momentum Capture is among them exactly when the
    dataset has three weeks or more and the sales slope is positive. *)
Theorem snapshot_opportunities (data : DataFrame) (log : list log_entry)
        (m : Metrics) :
  calculate_metrics (Some data) = (log, Return m) ->
  exists opps,
    Insights._identify_opportunities py_format m = ret opps /\
    In "Product Development" (map Insights.opp_category opps) /\
    In "Customer Success" (map Insights.opp_category opps) /\
    (In "Momentum Capture" (map Insights.opp_category opps) <->
     (3 <= length data)%nat /\ 0 < polyfit_slope (column data Total_Sales_column)).
Proof.
  intros H.
  destruct (snapshot_keys data log m H) as (h & p & c & Hh & Hp & Hc).
  assert (Hret : exists opps, Insights._identify_opportunities py_format m = ret opps).
  { unfold Insights._identify_opportunities. cbv zeta.
    destruct (snapshot_trends data log m H)
      as [[_ ->] | (_ & t & vs & vo & -> & Hd & _)].
    - eexists. reflexivity.
    - unfold getitem. rewrite Hd, bind_ret. eexists. reflexivity. }
  destruct Hret as [opps Hopps]. exists opps. split; [exact Hopps |].
  rewrite (opportunity_categories py_format m [] opps Hopps), Hp, Hc.
  split; [| split].
  - do 2 (apply List.in_app_iff; right). apply List.in_app_iff. left. left. reflexivity.
  - do 3 (apply List.in_app_iff; right). apply List.in_app_iff. left. left. reflexivity.
  - destruct (snapshot_trends data log m H)
      as [[Hlen ->] | (Hlen & t & vs & vo & -> & Hd & _)].
    + split.
      * intros Hin.
        destruct (fgt (sales_change (changes m)) (Fin 5)
                  && fgt (orders_change (changes m)) (Fin 5));
          destruct (fgt (aov_change (aov m)) (Fin 10));
          simpl in Hin; intuition discriminate.
      * intros [Hge _]. lia.
    + rewrite Hd. split.
      * intros Hin. split; [exact Hlen |].
        apply trend_direction_increasing.
        destruct (Insights.eq_literal _ "increasing"); [reflexivity |].
        destruct (fgt (sales_change (changes m)) (Fin 5)
                  && fgt (orders_change (changes m)) (Fin 5));
          destruct (fgt (aov_change (aov m)) (Fin 10));
          simpl in Hin; intuition discriminate.
      * intros [_ Hpos]. apply trend_direction_increasing in Hpos. rewrite Hpos.
        do 4 (apply List.in_app_iff; right). left. reflexivity.
Qed.

End SnapshotInsights.

Section SnapshotExamples.

Local Open Scope R_scope.

Lemma snapshot_opportunities_witness :
  let py_format := fun (_ : pyval) (spec : string) => spec in
  exists log m opps,
    calculate_metrics (Some sample_data) = (log, Return m) /\
    Insights._identify_opportunities py_format m = ret opps /\
    In "Product Development" (map Insights.opp_category opps) /\
    In "Customer Success" (map Insights.opp_category opps).
Proof.
  intros py_format.
  destruct (calculate_metrics_snoc (removelast sample_data)
              (mkWeek 55 61 20050 65 "Headphones" "Theta Solutions"))
    as (h & p & c & tr & _ & _ & _ & _ & E).
  change (app (removelast sample_data) _) with sample_data in E. cbv zeta in E.
  destruct (snapshot_opportunities py_format sample_data _ _ E) as (opps & Ho & H1 & H2 & _).
  do 3 eexists. split; [exact E |]. split; [exact Ho |]. split; assumption.
Defined.

End SnapshotExamples.

Section ThresholdFacts.

Local Open Scope R_scope.

Variable py_format : pyval -> string -> string.

(** The two readers of the number of distinct top customers use different
    thresholds.  The customer commentary always has two entries; whenever a
    Customer Risk is raised the commentary reports a concentration risk too,
    but with exactly three distinct customers the commentary reports the
    concentration risk and no Customer Risk is raised. *)
Theorem customer_thresholds_differ (m : Metrics) (c : Customers)
        (l : list log_entry) (risks : list Insights.Risk) :
  customers m = Some c ->
  Insights._identify_risks py_format m = (l, Return risks) ->
  exists e1 e2,
    Insights._analyze_customers py_format m = [e1; e2] /\
    (In "Customer Risk" (map Insights.risk_category risks) ->
     Insights.label_type e2 = "Customer Concentration Risk") /\
    (unique_customers_count c = 3%nat ->
     Insights.label_type e2 = "Customer Concentration Risk" /\
     ~ In "Customer Risk" (map Insights.risk_category risks)).
Proof.
  intros Hc Hrisks.
  assert (Hrisk : In "Customer Risk" (map Insights.risk_category risks) ->
                  (unique_customers_count c < 3)%nat).
  { rewrite (risk_categories py_format m l risks Hrisks).
    rewrite !List.in_app_iff, !In_singleton_if, In_products_part,
      In_customers_part, In_volatility_part.
    intros [[_ H] | [[_ H] | [[Hq _] | [[_ H] | [_ H]]]]]; try discriminate H.
    destruct Hq as (c' & Hc' & Hlt). rewrite Hc in Hc'. injection Hc' as <-.
    exact Hlt. }
  unfold Insights._analyze_customers. rewrite Hc. cbv zeta.
  destruct (String.eqb (current_top_customer c) (most_frequent_top_customer c));
    destruct (Nat.ltb_spec (unique_customers_count c) 4);
    cbn [app]; do 2 eexists; (split; [reflexivity |]);
    cbn [Insights.label_type]; split;
    try (intros Hin; specialize (Hrisk Hin); (reflexivity || lia));
    try (intros H3; split; [reflexivity || lia | intros Hin; specialize (Hrisk Hin); lia]).
Qed.

(** A Market Expansion opportunity never comes with a Revenue Risk, a
    Demand Risk or a Sales Recovery recommendation. *)
Theorem market_expansion_excludes_decline (m : Metrics)
        (l1 l2 l3 : list log_entry) (opps : list Insights.Opportunity)
        (risks : list Insights.Risk) (recs : list Recommendation) :
  Insights._identify_opportunities py_format m = (l1, Return opps) ->
  Insights._identify_risks py_format m = (l2, Return risks) ->
  _generate_recommendations m = (l3, Return recs) ->
  In "Market Expansion" (map Insights.opp_category opps) ->
  ~ In "Revenue Risk" (map Insights.risk_category risks) /\
  ~ In "Demand Risk" (map Insights.risk_category risks) /\
  ~ In "Sales Recovery" (map category recs).
Proof.
  intros Hopps Hrisks Hrecs Hin.
  assert (Hboth : fgt (sales_change (changes m)) (Fin 5) = true /\
                  fgt (orders_change (changes m)) (Fin 5) = true).
  { rewrite (opportunity_categories py_format m l1 opps Hopps) in Hin.
    apply andb_true_iff.
    destruct (fgt (sales_change (changes m)) (Fin 5)
              && fgt (orders_change (changes m)) (Fin 5)); [reflexivity |].
    exfalso. revert Hin.
    destruct (fgt (aov_change (aov m)) (Fin 10));
      destruct (products m); destruct (customers m);
      (destruct (available_trends m) as [t |];
       [destruct (t !! "sales_trend_direction") as [d |];
        [destruct (Insights.eq_literal d "increasing") |] |]);
      simpl; intuition discriminate. }
  destruct Hboth as [Hs Ho].
  rewrite (risk_categories py_format m l2 risks Hrisks).
  rewrite (recommendation_categories m l3 recs Hrecs).
  rewrite !List.in_app_iff, !In_singleton_if, !In_first_of_two,
    !In_products_part, !In_customers_part, !In_volatility_part.
  split; [| split].
  - intros [[Hlt _] | [[_ H] | [[_ H] | [[_ H] | [_ H]]]]]; try discriminate H.
    exact (flt_fgt_exclusive _ (-10) 5 ltac:(lra) Hlt Hs).
  - intros [[_ H] | [[Hlt _] | [[_ H] | [[_ H] | [_ H]]]]]; try discriminate H.
    exact (flt_fgt_exclusive _ (-15) 5 ltac:(lra) Hlt Ho).
  - intros [[[Hlt _] | (_ & _ & H)] | [[[_ H] | (_ & _ & H)] | [[_ H] | [[_ H] | H]]]];
      try discriminate H.
    + exact (flt_fgt_exclusive _ (-5) 5 ltac:(lra) Hlt Hs).
    + apply In_growth_part in H. discriminate H.
Qed.

End ThresholdFacts.

Section ThresholdExamples.

Local Open Scope R_scope.

Lemma customer_thresholds_differ_witness :
  let py_format := fun (_ : pyval) (spec : string) => spec in
  let c := {| most_frequent_top_customer := "Alpha Corp";
              customer_frequency :=
                [("Alpha Corp", 2%nat); ("Beta Ltd", 1%nat); ("Gamma LLC", 1%nat)];
              unique_customers_count := 3%nat;
              current_top_customer := "Gamma LLC" |} in
  let m :=
    {| current_week := {| cw_sales := 100; cw_orders := 10;
                          cw_top_product := "Laptop"; cw_top_customer := "Gamma LLC";
                          cw_week_start := 27; cw_week_end := 33 |};
       previous_week := {| pw_sales := 100; pw_orders := 10 |};
       changes := {| sales_change := Fin 0; orders_change := Fin 0;
                     sales_absolute_change := 0; orders_absolute_change := 0 |};
       aov := {| aov_current := 10; aov_previous := 10; aov_change := Fin 0 |};
       historical := None;
       products := None;
       customers := Some c;
       trends := None |} in
  exists e1 e2,
    Insights._analyze_customers py_format m = [e1; e2] /\
    Insights.label_type e2 = "Customer Concentration Risk" /\
    Insights._identify_risks py_format m = ret [].
Proof.
  intros py_format c m.
  assert (Er : Insights._identify_risks py_format m = ret []).
  { unfold Insights._identify_risks, m. cbn. real_cases. reflexivity. }
  destruct (customer_thresholds_differ py_format m c [] [] eq_refl Er)
    as (e1 & e2 & E & _ & H3).
  exists e1, e2. split; [exact E |]. split; [| exact Er].
  apply H3. reflexivity.
Defined.

Lemma market_expansion_excludes_decline_witness :
  let py_format := fun (_ : pyval) (spec : string) => spec in
  let m :=
    {| current_week := {| cw_sales := 120; cw_orders := 12;
                          cw_top_product := "Laptop"; cw_top_customer := "Alpha Corp";
                          cw_week_start := 13; cw_week_end := 19 |};
       previous_week := {| pw_sales := 100; pw_orders := 10 |};
       changes := {| sales_change := Fin 20; orders_change := Fin 20;
                     sales_absolute_change := 20; orders_absolute_change := 2 |};
       aov := {| aov_current := 10; aov_previous := 10; aov_change := Fin 0 |};
       historical := None;
       products := None;
       customers := None;
       trends := None |} in
  exists opps,
    Insights._identify_opportunities py_format m = ret opps /\
    map Insights.opp_category opps = ["Market Expansion"] /\
    Insights._identify_risks py_format m = ret [] /\
    ~ In "Sales Recovery" (map category [growth_optimization]).
Proof.
  intros py_format m.
  assert (Eo : exists opps,
             Insights._identify_opportunities py_format m = ret opps /\
             map Insights.opp_category opps = ["Market Expansion"]).
  { unfold Insights._identify_opportunities, m. cbn. real_cases.
    eexists. split; reflexivity. }
  destruct Eo as (opps & Eo & Hcat).
  assert (Er : Insights._identify_risks py_format m = ret []).
  { unfold Insights._identify_risks, m. cbn. real_cases. reflexivity. }
  assert (E : _generate_recommendations m = ret [growth_optimization]).
  { unfold _generate_recommendations, m. cbn. real_cases. reflexivity. }
  exists opps. split; [exact Eo |]. split; [exact Hcat |]. split; [exact Er |].
  apply (market_expansion_excludes_decline py_format m [] [] [] opps [] _ Eo Er E).
  rewrite Hcat. left. reflexivity.
Defined.

End ThresholdExamples.

Section TrendCommentary.

Local Open Scope R_scope.

Lemma getitem_some (d : gmap string pyval) (k : string) (v : pyval) :
  d !! k = Some v -> getitem d k = ret v.
Proof. intros H. unfold getitem. rewrite H. reflexivity. Qed.

Lemma assess_volatility_float (v : pyfloat) :
  Insights._assess_volatility (VFloat v) =
  ret (if fgt v (Fin 0.3) then "high"
       else if fgt v (Fin 0.15) then "moderate" else "low").
Proof.
  unfold Insights._assess_volatility. cbn [gt_literal]. rewrite bind_ret.
  destruct (fgt v (Fin 0.3)); [reflexivity |].
  rewrite bind_ret. destruct (fgt v (Fin 0.15)); reflexivity.
Qed.

(** With the four keys that [_calculate_trends] writes, [_analyze_trends]
    returns the sales entry, the orders entry and possibly the alert. *)
Lemma analyze_trends_available (m : Metrics) (t : gmap string pyval)
      (dS dO : pyval) (vs vo : pyfloat) :
  available_trends m = Some t ->
  t !! "sales_trend_direction" = Some dS ->
  t !! "orders_trend_direction" = Some dO ->
  t !! "sales_volatility" = Some (VFloat vs) ->
  t !! "orders_volatility" = Some (VFloat vo) ->
  exists e1 e2 rest,
    Insights._analyze_trends m = ret (e1 :: e2 :: rest) /\
    Insights.trend_type e1 = "Sales Trend" /\
    Insights.trend_type e2 = "Orders Trend" /\
    Insights.trend_volatility e1 =
      (if fgt vs (Fin 0.3) then "high"
       else if fgt vs (Fin 0.15) then "moderate" else "low") /\
    (fgt vs (Fin 0.2) || fgt vo (Fin 0.2) = true ->
     exists e3, rest = [e3] /\ Insights.trend_type e3 = "Volatility Alert" /\
                Insights.trend_volatility e3 = "high") /\
    (fgt vs (Fin 0.2) || fgt vo (Fin 0.2) = false -> rest = []).
Proof.
  intros Ht HdS HdO Hvs Hvo.
  apply getitem_some in HdS, HdO, Hvs, Hvo.
  unfold Insights._analyze_trends. rewrite Ht. cbv zeta.
  rewrite HdS, Hvs, HdO, Hvo.
  rewrite !bind_ret, assess_volatility_float, !bind_ret.
  rewrite assess_volatility_float, !bind_ret.
  cbn [gt_literal]. rewrite bind_ret.
  destruct (fgt vs (Fin 0.2)) eqn:Hs.
  - rewrite bind_ret. do 3 eexists. split; [reflexivity |].
    cbn [Insights.trend_type Insights.trend_volatility orb].
    repeat split; try reflexivity.
    + intros _. eexists. repeat split; reflexivity.
    + discriminate.
  - rewrite bind_ret.
    destruct (fgt vo (Fin 0.2)) eqn:Ho.
    + do 3 eexists. split; [reflexivity |].
      cbn [Insights.trend_type Insights.trend_volatility orb].
      repeat split; try reflexivity.
      * intros _. eexists. repeat split; reflexivity.
      * discriminate.
    + do 3 eexists. split; [reflexivity |].
      cbn [Insights.trend_type Insights.trend_volatility orb].
      repeat split; try reflexivity. discriminate.
Qed.

(** The alert and the label of the trend commentary use different
    thresholds: with a sales volatility above 0.2 and at most 0.3 the sales
    entry is labelled moderate while a Volatility Alert labelled high is
    added; without any volatility above 0.2 there is no alert. *)
Theorem volatility_alert_and_label (m : Metrics) (t : gmap string pyval)
        (dS dO : pyval) (vs vo : R) :
  available_trends m = Some t ->
  t !! "sales_trend_direction" = Some dS ->
  t !! "orders_trend_direction" = Some dO ->
  t !! "sales_volatility" = Some (VFloat (Fin vs)) ->
  t !! "orders_volatility" = Some (VFloat (Fin vo)) ->
  exists e1 e2 rest,
    Insights._analyze_trends m = ret (e1 :: e2 :: rest) /\
    (0.2 < vs <= 0.3 ->
     Insights.trend_volatility e1 = "moderate" /\
     exists e3, rest = [e3] /\ Insights.trend_type e3 = "Volatility Alert" /\
                Insights.trend_volatility e3 = "high") /\
    (vs <= 0.2 -> vo <= 0.2 -> rest = []) /\
    (0.2 < vs \/ 0.2 < vo -> length rest = 1%nat).
Proof.
  intros Ht HdS HdO Hvs Hvo.
  destruct (analyze_trends_available m t dS dO (Fin vs) (Fin vo) Ht HdS HdO Hvs Hvo)
    as (e1 & e2 & rest & E & _ & _ & Hlabel & Halert & Hnone).
  exists e1, e2, rest. split; [exact E |].
  unfold fgt in *. cbn [flt] in *.
  split; [| split].
  - intros [Hlo Hhi]. split.
    + rewrite Hlabel. real_cases. reflexivity.
    + apply Halert. apply orb_true_iff. left. apply Rltb_true, Hlo.
  - intros Hs Ho. apply Hnone. apply orb_false_iff.
    split; apply Rltb_false; assumption.
  - intros Hany. destruct Halert as (e3 & -> & _); [| reflexivity].
    apply orb_true_iff. destruct Hany; [left | right]; apply Rltb_true; assumption.
Qed.

Lemma volatility_alert_and_label_witness :
  let t : gmap string pyval :=
    list_to_map
      [ ("sales_trend_direction", VStr "increasing");
        ("orders_trend_direction", VStr "stable");
        ("sales_volatility", VFloat (Fin 0.25));
        ("orders_volatility", VFloat (Fin 0.1)) ] in
  let m :=
    {| current_week := {| cw_sales := 100; cw_orders := 10;
                          cw_top_product := "Laptop"; cw_top_customer := "Alpha Corp";
                          cw_week_start := 27; cw_week_end := 33 |};
       previous_week := {| pw_sales := 100; pw_orders := 10 |};
       changes := {| sales_change := Fin 0; orders_change := Fin 0;
                     sales_absolute_change := 0; orders_absolute_change := 0 |};
       aov := {| aov_current := 10; aov_previous := 10; aov_change := Fin 0 |};
       historical := None;
       products := None;
       customers := None;
       trends := Some t |} in
  exists e1 e2 e3,
    Insights._analyze_trends m = ret [e1; e2; e3] /\
    Insights.trend_volatility e1 = "moderate" /\
    Insights.trend_volatility e3 = "high".
Proof.
  intros t m.
  destruct (volatility_alert_and_label m t (VStr "increasing") (VStr "stable") 0.25 0.1)
    as (e1 & e2 & rest & E & H & _); try reflexivity.
  destruct H as (Hlabel & e3 & -> & _ & Hhigh); [lra |].
  exists e1, e2, e3. auto.
Defined.

End TrendCommentary.

Section InsightPipeline.

Variable py_format : pyval -> string -> string.
Variable strftime : Z -> string -> string.

Local Open Scope R_scope.

Lemma identify_risks_returns (m : Metrics) :
  match available_trends m with
  | Some t => exists v, t !! "sales_volatility" = Some (VFloat v)
  | None => True
  end ->
  exists risks, Insights._identify_risks py_format m = ret risks.
Proof.
  intros Hwf. unfold Insights._identify_risks. cbv zeta.
  apply volatility_stage_returns, Hwf.
Qed.

Lemma identify_opportunities_returns (m : Metrics) :
  match available_trends m with
  | Some t => exists d, t !! "sales_trend_direction" = Some d
  | None => True
  end ->
  exists opps, Insights._identify_opportunities py_format m = ret opps.
Proof.
  intros Hwf. unfold Insights._identify_opportunities. cbv zeta.
  destruct (available_trends m) as [t |].
  - destruct Hwf as [d Hd]. rewrite (getitem_some _ _ _ Hd), bind_ret.
    eexists. reflexivity.
  - eexists. reflexivity.
Qed.

Lemma analyze_trends_on_snapshot (data : DataFrame) (log : list log_entry)
      (m : Metrics) :
  calculate_metrics (Some data) = (log, Return m) ->
  exists tr,
    Insights._analyze_trends m = ret tr /\
    ((length data < 3)%nat -> tr = []) /\
    ((3 <= length data)%nat -> (2 <= length tr <= 3)%nat).
Proof.
  intros H.
  destruct (snapshot_trends data log m H)
    as [[Hlen Hnone] | (Hlen & t & vs & vo & Ht & HdS & HdO & Hvs & Hvo)].
  - exists []. split; [| split].
    + unfold Insights._analyze_trends. rewrite Hnone. reflexivity.
    + reflexivity.
    + lia.
  - destruct (analyze_trends_available m t _ _ vs vo Ht HdS HdO Hvs Hvo)
      as (e1 & e2 & rest & E & _ & _ & _ & Halert & Hnone).
    exists (e1 :: e2 :: rest). split; [exact E |]. split; [lia |].
    intros _. destruct (fgt vs (Fin 0.2) || fgt vo (Fin 0.2)).
    + destruct Halert as (e3 & -> & _); [reflexivity |]. simpl. lia.
    + rewrite Hnone by reflexivity. simpl. lia.
Qed.

Lemma comprehensive_insights_value (m : Metrics)
      (tr : list Insights.TrendInsight) (recs : list Recommendation)
      (risks : list Insights.Risk) (opps : list Insights.Opportunity) :
  Insights._analyze_trends m = ret tr ->
  _generate_recommendations m = ret recs ->
  Insights._identify_risks py_format m = ret risks ->
  Insights._identify_opportunities py_format m = ret opps ->
  Insights.generate_comprehensive_insights py_format strftime m =
  ([(INFO, "Comprehensive insights generated successfully")],
   Return
     {| Insights.executive_summary :=
          Insights._generate_executive_summary py_format strftime m;
        Insights.performance_analysis := Insights._analyze_performance py_format m;
        Insights.trend_insights := tr;
        Insights.product_insights := Insights._analyze_products py_format m;
        Insights.customer_insights := Insights._analyze_customers py_format m;
        Insights.recommendations := recs;
        Insights.risk_alerts := risks;
        Insights.opportunities := opps |}).
Proof.
  intros Htr Hrecs Hrisks Hopps.
  unfold Insights.generate_comprehensive_insights. cbv zeta.
  rewrite Htr, bind_ret, Hrecs, bind_ret, Hrisks, bind_ret, Hopps, bind_ret.
  reflexivity.
Qed.

(** On every snapshot that [calculate_metrics] returns, the whole insight
    pipeline returns: no dictionary lookup fails, nothing is logged but the
    closing INFO line, and the result has four performance entries, two
    product and two customer entries, no trend entry for fewer than three
    weeks and two or three from three weeks on, and at least one
    opportunity. *)
Theorem insights_on_every_snapshot (data : DataFrame) (log : list log_entry)
        (m : Metrics) :
  calculate_metrics (Some data) = (log, Return m) ->
  exists ins,
    Insights.generate_comprehensive_insights py_format strftime m =
      ([(INFO, "Comprehensive insights generated successfully")], Return ins) /\
    length (Insights.performance_analysis ins) = 4%nat /\
    length (Insights.product_insights ins) = 2%nat /\
    length (Insights.customer_insights ins) = 2%nat /\
    ((length data < 3)%nat -> Insights.trend_insights ins = []) /\
    ((3 <= length data)%nat ->
     (2 <= length (Insights.trend_insights ins) <= 3)%nat) /\
    Insights.opportunities ins <> [].
Proof.
  intros H.
  destruct (snapshot_keys data log m H) as (h & p & c & Hh & Hp & Hc).
  pose proof (snapshot_trends_well_formed data log m H) as Hwf.
  destruct (analyze_trends_on_snapshot data log m H) as (tr & Htr & Hshort & Hlong).
  destruct (recommendations_return m Hwf) as [recs Hrecs].
  destruct (identify_risks_returns m Hwf) as [risks Hrisks].
  assert (Hwd : match available_trends m with
                | Some t => exists d, t !! "sales_trend_direction" = Some d
                | None => True
                end).
  { destruct (snapshot_trends data log m H)
      as [[_ ->] | (_ & t & vs & vo & -> & HdS & _)]; [exact I | eauto]. }
  destruct (identify_opportunities_returns m Hwd) as [opps Hopps].
  assert (Hne : opps <> []).
  { intros ->.
    pose proof (opportunity_categories py_format m [] [] Hopps) as Hcat.
    rewrite Hp, Hc in Hcat. cbn [map] in Hcat.
    symmetry in Hcat.
    apply app_eq_nil in Hcat as [_ Hcat].
    apply app_eq_nil in Hcat as [_ Hcat].
    apply app_eq_nil in Hcat as [Hcat _]. discriminate Hcat. }
  eexists. split.
  { apply (comprehensive_insights_value m tr recs risks opps); assumption. }
  cbn [Insights.performance_analysis Insights.product_insights
       Insights.customer_insights Insights.trend_insights Insights.opportunities].
  repeat split; try assumption.
  - unfold Insights._analyze_performance. rewrite Hh. reflexivity.
  - unfold Insights._analyze_products. rewrite Hp. cbv zeta.
    repeat match goal with
           | |- context [if ?b then _ else _] => destruct b
           end; reflexivity.
  - unfold Insights._analyze_customers. rewrite Hc. cbv zeta.
    repeat match goal with
           | |- context [if ?b then _ else _] => destruct b
           end; reflexivity.
  - apply Hlong; assumption.
  - apply Hlong; assumption.
Qed.

Lemma value_counts_single (l : string) : value_counts [l] = [(l, 1%nat)].
Proof.
  unfold value_counts, unique. cbn. rewrite String.eqb_refl. reflexivity.
Qed.

(** The snapshot of a dataset of one record. *)
Lemma single_record_snapshot (x : WeeklyRecord) :
  exists log m h,
    calculate_metrics (Some [x]) = (log, Return m) /\
    sales_change (changes m) = Fin 0 /\
    orders_change (changes m) = Fin 0 /\
    aov_change (aov m) = Fin 0 /\
    historical m = Some h /\
    sales_growth_rate h = Fin 0 /\
    products m =
      Some {| most_frequent_top_product := Top_Product x;
              product_frequency := [(Top_Product x, 1%nat)];
              unique_products_count := 1;
              current_top_product := Top_Product x |} /\
    customers m =
      Some {| most_frequent_top_customer := Top_Customer x;
              customer_frequency := [(Top_Customer x, 1%nat)];
              unique_customers_count := 1;
              current_top_customer := Top_Customer x |} /\
    available_trends m = None.
Proof.
  destruct (calculate_metrics_snoc [] x) as (h & p & c & tr & Hh & Hp & Hc & Ht & E).
  cbn [app List.last] in *.
  exists [(INFO, "Metrics calculated successfully")]. eexists. exists h.
  split; [exact E |].
  cbn [changes aov historical products customers sales_change orders_change
       aov_change].
  rewrite !percentage_change_same.
  repeat split.
  - destruct (historical_returns [x]) as (gs & go & Hgs & _ & Hh').
    rewrite growth_rate_short in Hgs by (simpl; lia).
    injection Hgs as <-.
    pose proof (eq_trans (eq_sym Hh') Hh) as Eh. injection Eh as <-.
    reflexivity.
  - pose proof (analyze_products_snoc [] x) as Hp'. cbn [app] in Hp'.
    pose proof (eq_trans (eq_sym Hp') Hp) as Ep. injection Ep as <-.
    cbn [map]. rewrite value_counts_single. reflexivity.
  - pose proof (analyze_customers_snoc [] x) as Hc'. cbn [app] in Hc'.
    pose proof (eq_trans (eq_sym Hc') Hc) as Ec. injection Ec as <-.
    cbn [map]. rewrite value_counts_single. reflexivity.
  - unfold available_trends. cbn [trends].
    rewrite trends_short in Ht by (simpl; lia). injection Ht as <-.
    rewrite lookup_singleton_eq. reflexivity.
Qed.

(** The report on a dataset of one record is fixed but for the names: all
    four performance entries have status fair, there is no trend entry, the
    product and the customer are reported as consistent and concentrated,
    the only recommendation is Product Strategy, the risks are Customer
    Risk and Product Risk, and the opportunities are Product Development
    and Customer Success. *)
Theorem first_report_contents (x : WeeklyRecord) :
  exists log m ins,
    calculate_metrics (Some [x]) = (log, Return m) /\
    Insights.generate_comprehensive_insights py_format strftime m =
      ([(INFO, "Comprehensive insights generated successfully")], Return ins) /\
    map Insights.perf_status (Insights.performance_analysis ins) =
      ["fair"; "fair"; "fair"; "fair"] /\
    Insights.trend_insights ins = [] /\
    map Insights.label_type (Insights.product_insights ins) =
      ["Product Consistency"; "Product Concentration Risk"] /\
    map Insights.label_type (Insights.customer_insights ins) =
      ["Customer Loyalty"; "Customer Concentration Risk"] /\
    Insights.recommendations ins = [product_strategy] /\
    map Insights.risk_category (Insights.risk_alerts ins) =
      ["Customer Risk"; "Product Risk"] /\
    map Insights.opp_category (Insights.opportunities ins) =
      ["Product Development"; "Customer Success"].
Proof.
  destruct (single_record_snapshot x)
    as (log & m & h & E & Hs & Ho & Ha & Hh & Hg & Hp & Hc & Ht).
  assert (Htr : Insights._analyze_trends m = ret []).
  { unfold Insights._analyze_trends. rewrite Ht. reflexivity. }
  assert (Hrecs : _generate_recommendations m = ret [product_strategy]).
  { unfold _generate_recommendations. cbv zeta.
    rewrite Hs, Ho, Ha, Hp, Ht, Hh, Hg, bind_ret.
    cbn [unique_products_count Nat.ltb Nat.leb].
    unfold flt, fgt. cbn [flt]. unfold flt. real_cases. reflexivity. }
  assert (Hwf : match available_trends m with
                | Some t => exists v, t !! "sales_volatility" = Some (VFloat v)
                | None => True
                end) by (rewrite Ht; exact I).
  destruct (identify_risks_returns m Hwf) as [risks Hrisks].
  assert (Hwd : match available_trends m with
                | Some t => exists d, t !! "sales_trend_direction" = Some d
                | None => True
                end) by (rewrite Ht; exact I).
  destruct (identify_opportunities_returns m Hwd) as [opps Hopps].
  exists log, m. eexists. split; [exact E |]. split.
  { apply (comprehensive_insights_value m [] [product_strategy] risks opps); assumption. }
  cbn [Insights.performance_analysis Insights.product_insights
       Insights.customer_insights Insights.trend_insights Insights.opportunities
       Insights.recommendations Insights.risk_alerts].
  repeat split.
  - unfold Insights._analyze_performance. rewrite Hh, Hs, Ho, Ha, Hg.
    cbn [map app Insights.perf_status].
    assert (Hfair : _get_status_level (Fin 0) = "fair").
    { unfold _get_status_level, fge, fle. real_cases. reflexivity. }
    cbv zeta. cbn [map app Insights.perf_status]. rewrite !Hfair. reflexivity.
  - unfold Insights._analyze_products. rewrite Hp. cbv zeta.
    cbn [current_top_product most_frequent_top_product unique_products_count].
    rewrite String.eqb_refl. reflexivity.
  - unfold Insights._analyze_customers. rewrite Hc. cbv zeta.
    cbn [current_top_customer most_frequent_top_customer unique_customers_count].
    rewrite String.eqb_refl. reflexivity.
  - rewrite (risk_categories py_format m [] risks Hrisks), Hs, Ho, Hc, Hp, Ht.
    cbn [unique_products_count unique_customers_count Nat.ltb Nat.leb].
    unfold flt. real_cases. reflexivity.
  - rewrite (opportunity_categories py_format m [] opps Hopps), Hs, Ho, Ha, Hc, Hp, Ht.
    unfold fgt, flt. real_cases. reflexivity.
Qed.

End InsightPipeline.

Section PipelineExamples.

Local Open Scope R_scope.

Lemma insights_on_every_snapshot_witness :
  let py_format := fun (_ : pyval) (spec : string) => spec in
  let strftime := fun (_ : Z) (fmt : string) => fmt in
  exists log m ins,
    calculate_metrics (Some sample_data) = (log, Return m) /\
    Insights.generate_comprehensive_insights py_format strftime m =
      ([(INFO, "Comprehensive insights generated successfully")], Return ins) /\
    length (Insights.performance_analysis ins) = 4%nat /\
    (2 <= length (Insights.trend_insights ins) <= 3)%nat.
Proof.
  intros py_format strftime.
  destruct (calculate_metrics_snoc (removelast sample_data)
              (mkWeek 55 61 20050 65 "Headphones" "Theta Solutions"))
    as (h & p & c & tr & _ & _ & _ & _ & E).
  change (app (removelast sample_data) _) with sample_data in E. cbv zeta in E.
  destruct (insights_on_every_snapshot py_format strftime sample_data _ _ E)
    as (ins & Hi & H4 & _ & _ & _ & Hlong & _).
  do 3 eexists. split; [exact E |]. split; [exact Hi |]. split; [exact H4 |].
  apply Hlong. simpl. lia.
Defined.

End PipelineExamples.
